(* ===== verification/_CoqProject ===== *)
-Q . S2P
Prelude.v
PyDict.v
PyString.v
PyJson.v
PyPath.v
PySort.v
DateTime.v
PyAst.v
Safety.v
FileSys.v
Mutator.v
Router.v
Adapters.v
Streaming.v
Improvement.v
Agent.v
Concurrency.v
KeyManager.v
MainApp.v
AgentMemory.v
Learning.v
Endpoints.v
