(* ===== verification/Prelude.v ===== *)
(** * A verification development of the Aiden backend (src/backend)

    The Aiden backend is a FastAPI service that routes chat and
    code-analysis requests to pluggable language-model providers and can
    rewrite source files after a safety screen.  Its parts, and how they
    interact:

    - the model adapters ([core/models/base.py], [openai_model.py],
      [anthropic_model.py]): an abstract class [AIModel] with
      [generate_response] and [analyze_code], one subclass per provider;
    - the model router ([core/models/model_router.py]): a dict from a
      logical model name to an adapter, and [route_request] that
      dispatches on a request type;
    - the safety checks ([core/agent/modifier.py] [validate_syntax],
      [validate_safety]; [core/agent/improvement.py] [_check_syntax],
      [_check_dangerous_imports], [_check_file_operations],
      [_check_network_operations] and the [safety_checks] battery), which
      inspect the Python AST produced by [ast.parse] and the raw text;
    - the guarded file mutator ([modifier.py] [apply_changes] and the write
      half of [improvement.py] [implement_improvements]): rename the file
      to [<path>.bak], write the new text, rename back on a write error;
    - the agent ([core/agent/agent.py]): a conversation memory, chat
      requests routed through the router, [execute_code_modification]
      that asks the router for an analysis and then calls the mutator,
      and the memory file ([save_memory], [load_memory]);
    - the key manager ([core/config/key_manager.py]), the learning store
      ([core/agent/learning.py]) and the HTTP endpoints ([api/endpoints.py],
      [main.py]) that wire everything together.

    ** Library layout (in dependency order, see _CoqProject)

    - [Prelude] (this file): Python exceptions as the inductive [exn]
      (FastAPI's [HTTPException] among them, with Starlette's [str()]), the
      result type [res], the state-and-exception monad [ST] (a Python call
      that raises keeps its side effects, so the state is returned on both
      outcomes), its [MRet]/[MBind] instances for stdpp's [x ← m; k]
      notation, [try]/[except] combinators, the [py] hint database, the
      [st_run] and [map_solve] tactics, and [opt_default].
    - [PyDict]: Python's insertion-ordered [dict] as an association list,
      its operations ([d[k] = v], [d.get(k)], [del d[k]], [k in d],
      [list(d.keys())]), the no-duplicate-keys invariant preserved by every
      operation, and a refinement of the dict by stdpp's [gmap]
      ([to_map]), with a setoid equivalence and [Proper] instances.
    - [PyString]: Python [in] on strings ([str_contains]) with its
      specification, and string helpers used by the f-strings of the code.
    - [PyJson]: [json.dumps]/[json.loads] and [repr] as interfaces
      ([PyJson], [PyRepr] classes) and [str()] of a value.
    - [PyPath]: [pathlib.PurePosixPath] construction, [/] and [.name],
      with [str.split] on one separator.
    - [PySort]: Python's stable [sorted(..., key=k, reverse=True)] on
      [str] keys as an insertion sort, and its characterization (a
      permutation, sorted, stable; these determine the result).
    - [DateTime]: [datetime] values, [isoformat()] and
      [strftime("%Y%m%d_%H%M%S")] written out digit by digit; comparing
      two isoformat strings is comparing the dates, and two stamps agree
      exactly when the dates agree up to the second.
    - [PyAst]: the part of Python's [ast] module that the safety checks
      use: nodes with their children ([ast.iter_child_nodes]) and the
      breadth-first [ast.walk], defined by well-founded recursion on the
      size of the queue (Equations), with its termination and coverage
      theorems; [ast.parse] is an interface ([PyParser] class).
    - [Safety]: [validate_syntax], [validate_safety], the four
      [_check_*] methods and the ordered battery, with the denylist
      theorems, the short-circuit theorem and the substring checks.
    - [FileSys]: the file system as a [gmap] from paths to contents, with
      [Path.rename] and [open(p, 'w').write] as [ST] operations whose
      failures come from an environment ([os_env]) of injected faults.
    - [Mutator]: [apply_changes] and the write step of
      [implement_improvements]; an abstract contract of one mutation
      attempt (the terminal states of the spec's section 4.4) and the
      refinement theorem that [apply_changes] implements it, the
      restoration theorem, and the behaviours outside the contract (a
      missing target, no backup, a failing restore).
    - [Router]: the [AIModel] interface as a record of operations over an
      abstract world, the registry, [register_model], [get_model],
      [route_request], and the dispatch theorems proved against the
      interface.
    - [Adapters]: [OpenAIModel] and [AnthropicModel] as [AIModel]s over
      the world [pworld] (the global [openai.api_key]), the provider SDK
      calls and [eval] as a record of oracles ([providers]); the shared
      global key, the message-to-prompt conversion and the error
      wrapping of both adapters.
    - [Streaming]: the two [stream_response] async generators, each
      drained by its consumer into a trace of the strings it yielded and
      how it ended ([gen_run]), over the SDK's stream of chunks.
    - [Improvement]: [suggest_improvements] (a routed [gpt-4] chat and
      [json.loads], errors as a dict) and [implement_improvements] with
      [astor.to_source] as an interface ([PyUnparser]): the suggestions
      are never used, and the write step backs up, writes and restores
      inside an outer [try] that also swallows a failing restore.
    - [Agent]: the agent object, its memory and [process_request] (the
      window of the last five entries, error entries fed back to the
      provider, proved sticky), [analyze_self], [improve_self],
      [CodeModifier.analyze_code_changes] and [execute_code_modification],
      over a state [sys] that gathers the agent, the adapters' world and
      the file system; the memory invariant over every sequence of calls
      run one after the other (an inductive reachability relation).
    - [Concurrency]: [process_request] as its two atomic steps around
      its [await] ([pr_start], [pr_finish]), proved equal to the method
      when run in sequence, and requests in flight as explicit sequences
      of these steps.
    - [AgentMemory]: [save_memory] over [sys] and [load_memory] over
      [mem_store], the [memory] attribute as the Python value it holds
      (the file may hold any JSON value), with [Path.exists]; the decoder
      [memory_of_value] of the typed memory, and the composition with
      [main.py]'s [/create_file], which writes the file the agent loads.
    - [KeyManager]: [APIKeyManager] with Fernet and the JSON codec as
      interfaces; the store/get/remove round trip and persistence across
      a restart, which holds only under the same Fernet key.
    - [MainApp]: the second application [main.py]: its file endpoints
      with pathlib's path join written out (the filename is not confined
      to the workspace) and its [/chat] handler, a direct SDK call with
      the key read from the environment at import.
    - [Learning]: [AgentLearning] over its state [lsys] (the router,
      [current_learnings], the world and the file system), with
      [datetime.now()] as a clock read from the world: storing a learning
      in memory and in [learning_history/learning_<stamp>.json], the
      analyses, [_get_recent_learnings] (newest files first, then the
      current learnings, sorted by time stamp) and the improvement plan.
    - [Endpoints]: the ten handlers of [api/endpoints.py] over one state
      [app] that holds each module-level object once, so that the agent,
      the learning system and the improvement system share the router
      [store_api_key] registers into; the requests as an inductive type,
      the states reachable from startup, and the invariant of the
      registry over them, proved with a small library of preservation
      lemmas (hint database [endpoints]).

    Each file ends with concrete runs: small fixtures (a parser that
    knows the trees of a few texts, a file system with [a.py], fault
    environments, spy and stub adapters, a toy Fernet) and the witnesses
    that apply the theorems to them.

    ** Theorems, by group

    - the mutator ([Mutator], [Improvement], [Agent]): restoration after
      a failed write, the success round trip, rejection without side
      effect, refinement of the spec's contract, and the cases outside
      it (missing target, failing restore, no backup);
    - the safety screen ([Safety], [PyAst]): the denylists catch exactly
      the imports of the tree, the battery returns the first failure,
      [ast.walk] terminates and visits every node once;
    - the router and adapters ([Router], [Adapters]): errors before any
      adapter call, dispatch, the registry as a finite map with a
      last-write-wins equivalence and a no-duplicates invariant, the
      shared key, the prompt conversion, conflated errors;
    - the agent ([Agent], [Concurrency]): the behaviour of each method
      on every branch, the window bound, the memory invariant of
      sequential use, sticky
      errors, the ignored [changes] argument, an analysis that is no
      dict escaping [improve_self], and two interleaved requests breaking
      the invariant;
    - the memory file ([AgentMemory]): a saved memory is loaded back
      whatever the loading agent held (round trip through [json] and the
      file system), [load_memory] on every branch (any JSON value is
      assigned unchecked), and a save that stops midway destroying the
      file a later load needs;
    - streaming ([Streaming]): the OpenAI generator refines
      [generate_response] under the SDK's law, and a broken stream leaves
      the consumer a prefix before the exception;
    - keys and [main.py] ([KeyManager], [MainApp]): restart under a new
      Fernet key, the unconfined file name, and the unguarded [/chat]
      on every branch;
    - the learning store ([Learning], [PySort], [DateTime]): every
      learning counted twice, same-second files overwritten, failed
      analyses stored, plans of any JSON type, and the recent learnings
      bounded and newest first; [sort_desc] is [sorted] (equivalence);
    - the API ([Endpoints]): the registry holds only the adapters
      [store_api_key] registers, in every reachable state (a type
      invariant by rule induction); one key request makes the models
      available to every system; a removed key stays in use; the 400 of
      [improve_agent] comes out as a 500; a failed key save still lists
      the key; without [gpt-4] the improvement endpoint answers errors as
      successes.

    ** Not modelled

    - The other methods of the agent after a [load_memory] that
      assigned a value other than a list of entries: [process_request]
      and the adapters are modelled over the typed memory and typed
      messages, so [mem_store] holds such a value but [sys] does not.
      Neither [load_memory] nor [save_memory] has a caller.
    - Directories ([mkdir] in the constructors and [_save_keys]): the
      file system model maps paths to contents.
    - FastAPI itself: routing, pydantic validation and the CORS
      middleware that both applications add ([allow_origins=["*"]] with
      [allow_credentials=True]; its headers are computed by Starlette,
      not by code of the repository); [handle] and [http_response] state
      what the framework does with a handler's outcome.
    - The import lines, the class statements without a body of their
      own ([ModelNotFoundError] is a constructor of [exn]) and the
      constructors that only store the router ([CodeModifier],
      [CodeImprovement]: their objects are the router itself).

    ** Modelling choices

    - Strings are Rocq [string]s; a Python exception is a value of [exn];
      a method that may raise is a function into [ST S A]; [except
      Exception] is [st_try], [except SyntaxError] is [st_try_when].
    - External libraries (the CPython parser, the operating system, the
      provider SDKs, [eval]) are not translated: they are parameters of
      the models (a class instance or a section variable), and every
      theorem holds for all of them unless it states a hypothesis on them.
    - No fuel is used: [ast.walk] is defined by well-founded recursion
      on the number of nodes in its queue, so every model is total.
    - Dates are kept as [Z] fields with the ranges [datetime] enforces
      ([dt_valid]); the clock is a function of the world, so two calls
      see the same time unless the world changed between them.
*)

From stdpp Require Export base gmap strings list.
From Stdlib Require DecimalString.

Declare Scope py_scope.
Delimit Scope py_scope with py.
Open Scope py_scope.

(** naive_solver clears hypotheses that may be absent; silence that. *)
#[export] Set Warnings "-clear-no-such-hyp".

(** ** Python exceptions

    The exception classes raised by the modelled code, with the message
    that [str(e)] prints. *)

Inductive exn :=
| Exception (msg : string)
| ValueError (msg : string)
| TypeError (msg : string)
| KeyError (key : string)
| SyntaxError (msg : string)
| OSError (msg : string)
| FileNotFoundError (msg : string)
| ModelNotFoundError (msg : string)
| JSONDecodeError (msg : string)
| AttributeError (msg : string)
| IndexError (msg : string)
| InvalidToken
| HTTPException (status_code : Z) (detail : string).

#[export] Instance exn_eq_dec : EqDecision exn.
Proof. solve_decision. Defined.

(** [str(n)] of an [int] *)
Definition z_str (z : Z) : string := DecimalString.NilEmpty.string_of_int (Z.to_int z).

(** [str(e)]: a [KeyError] prints its key in quotes, Fernet's
    [InvalidToken] (raised without arguments) prints nothing, FastAPI's
    [HTTPException] prints [f"{status_code}: {detail}"] (Starlette's
    [__str__]), the others their message. *)
Definition exn_str (e : exn) : string :=
  match e with
  | KeyError k => "'" +:+ k +:+ "'"
  | Exception m | ValueError m | TypeError m | SyntaxError m | OSError m
  | FileNotFoundError m | ModelNotFoundError m | JSONDecodeError m
  | AttributeError m | IndexError m => m
  | InvalidToken => ""
  | HTTPException code detail => z_str code +:+ ": " +:+ detail
  end.

Definition is_syntax_error (e : exn) : bool :=
  match e with SyntaxError _ => true | _ => false end.

(** ** Results and the state-and-exception monad *)

Inductive res (A : Type) :=
| Ok (a : A)
| Err (e : exn).
Arguments Ok {A} a.
Arguments Err {A} e.

Definition res_bind {A B} (r : res A) (f : A -> res B) : res B :=
  match r with Ok a => f a | Err e => Err e end.

#[export] Instance res_mret : MRet res := fun A a => Ok a.
#[export] Instance res_mbind : MBind res := fun A B f r => res_bind r f.

(** A computation over a state [S]: the state is returned whether the
    computation returns or raises, as the side effects of a Python call
    survive an exception. *)
Definition ST (S A : Type) : Type := S -> S * res A.

Definition st_ret {S A} (a : A) : ST S A := fun s => (s, Ok a).
Definition st_raise {S A} (e : exn) : ST S A := fun s => (s, Err e).
Definition st_bind {S A B} (m : ST S A) (k : A -> ST S B) : ST S B :=
  fun s => match m s with
           | (s', Ok a) => k a s'
           | (s', Err e) => (s', Err e)
           end.

#[export] Instance st_mret {S} : MRet (ST S) := fun A a => st_ret a.
#[export] Instance st_mbind {S} : MBind (ST S) := fun A B k m => st_bind m k.

Definition st_get {S} : ST S S := fun s => (s, Ok s).
Definition st_put {S} (s : S) : ST S unit := fun _ => (s, Ok tt).
Definition st_modify {S} (f : S -> S) : ST S unit := fun s => (f s, Ok tt).

(** [try: m except Exception as e: h(e)] *)
Definition st_try {S A} (m : ST S A) (h : exn -> ST S A) : ST S A :=
  fun s => match m s with
           | (s', Ok a) => (s', Ok a)
           | (s', Err e) => h e s'
           end.

(** [try: m except C as e: h(e)] for the exception class [C] recognised
    by [p]; other exceptions propagate. *)
Definition st_try_when {S A} (p : exn -> bool) (m : ST S A)
    (h : exn -> ST S A) : ST S A :=
  st_try m (fun e => if p e then h e else st_raise e).

(** Run a pure result inside the monad. *)
Definition st_lift {S A} (r : res A) : ST S A :=
  fun s => (s, r).

(** Lift a computation on a component of a larger state. *)
Definition st_focus {S T A} (get : S -> T) (set : T -> S -> S)
    (m : ST T A) : ST S A :=
  fun s => let '(t', r) := m (get s) in (set t' s, r).

Ltac st_unfold :=
  unfold mbind, mret, st_mbind, st_mret, st_bind, st_ret, st_raise,
    st_try_when, st_try, st_get, st_put, st_modify, st_lift, st_focus in *.

Ltac st_simpl := st_unfold; simpl in *.

(** Close a decidable goal about concrete data by evaluation. *)
Ltac decide_by_eval :=
  match goal with |- ?P => apply (bool_decide_unpack P); vm_compute; exact I end.

(** ** Monad laws and the run lemmas *)

Create HintDb py discriminated.
Create Rewrite HintDb py_rw.

Section MonadLaws.
  Context {S : Type}.

Lemma st_bind_ret_l {A B} (a : A) (k : A -> ST S B) :
    st_bind (st_ret a) k = k a.
  Proof. reflexivity. Qed.

Lemma st_bind_ret_r {A} (m : ST S A) (s : S) :
    st_bind m st_ret s = m s.
  Proof. unfold st_bind, st_ret. destruct (m s) as [? []]; reflexivity. Qed.

Lemma st_bind_assoc {A B C} (m : ST S A) (k : A -> ST S B)
      (k' : B -> ST S C) (s : S) :
    st_bind (st_bind m k) k' s = st_bind m (fun a => st_bind (k a) k') s.
  Proof. unfold st_bind. destruct (m s) as [? []]; reflexivity. Qed.

Lemma st_bind_ok {A B} (m : ST S A) (k : A -> ST S B) s s' a :
    m s = (s', Ok a) -> st_bind m k s = k a s'.
  Proof. unfold st_bind. intros ->. reflexivity. Qed.

Lemma st_bind_err {A B} (m : ST S A) (k : A -> ST S B) s s' e :
    m s = (s', Err e) -> st_bind m k s = (s', Err e).
  Proof. unfold st_bind. intros ->. reflexivity. Qed.

Lemma st_try_ok {A} (m : ST S A) h s s' a :
    m s = (s', Ok a) -> st_try m h s = (s', Ok a).
  Proof. unfold st_try. intros ->. reflexivity. Qed.

Lemma st_try_err {A} (m : ST S A) h s s' e :
    m s = (s', Err e) -> st_try m h s = h e s'.
  Proof. unfold st_try. intros ->. reflexivity. Qed.
End MonadLaws.

#[export] Hint Rewrite @st_bind_ret_l @st_bind_ret_r @st_bind_assoc : py_rw.
#[export] Hint Resolve st_bind_ok st_bind_err st_try_ok st_try_err : py.

(** [x if x is not None else d] *)
Definition opt_default {A} (o : option A) (d : A) : A :=
  match o with Some x => x | None => d end.

(** ** Generic lemmas on lists and options shared by the components *)

Lemma existsb_app_false {A} (f : A -> bool) (l1 l2 : list A) :
  existsb f (l1 ++ l2) = false <->
  existsb f l1 = false /\ existsb f l2 = false.
Proof.
  rewrite existsb_app.
  destruct (existsb f l1), (existsb f l2); simpl; intuition congruence.
Qed.

Lemma existsb_false_forall {A} (f : A -> bool) (l : list A) :
  existsb f l = false <-> Forall (fun x => f x = false) l.
Proof.
  induction l as [|x l IH]; simpl; [split; auto|].
  rewrite Forall_cons, <- IH. destruct (f x); simpl; intuition congruence.
Qed.

#[export] Hint Rewrite @existsb_app_false : py_rw.

(** Unfold the monad and reduce, without unfolding anything else (in
    particular not the [gmap] lookups). *)
Ltac st_run :=
  unfold mbind, mret, st_mbind, st_mret, st_bind, st_ret, st_raise, st_try,
    st_try_when, st_lift, st_get, st_put, st_modify, st_focus,
    res_mbind, res_mret, res_bind in *;
  cbv beta iota zeta in *.

(** Prove an equation between finite maps built by inserts and deletes,
    pointwise and by cases on the keys. *)
Ltac map_solve :=
  apply map_eq; intros ?;
  repeat first [rewrite lookup_insert | rewrite lookup_delete
               | rewrite lookup_empty | case_decide];
  subst; try congruence.
