(* ===== verification/PyDict.v ===== *)
(** * Python dictionaries

    Python's [dict] keeps its keys in insertion order: [d[k] = v] replaces
    the value of a present key in place and appends a new key at the end,
    and [list(d.keys())] lists the keys in that order.  The router's
    registry ([ModelRouter.models]), the key manager's [keys] and the
    message dicts of the adapters are such dicts, so the model is an
    association list with the no-duplicate-keys invariant [dict_wf].

    The dict refines a finite map: [to_map] sends it to stdpp's [gmap],
    and every operation commutes with [to_map].  The equivalence [≡]
    (same lookups, any order) is coarser than equality, and the
    operations are [Proper] for it. *)

From S2P Require Import Prelude.
From Stdlib Require QArith_base.

Definition pydict (K V : Type) : Type := list (K * V).

Section Dict.
  Context {K V : Type} `{Countable K}.
  Implicit Types (d : pydict K V) (k : K) (v : V).

  (** [d.get(k)] *)
Fixpoint dict_get d k : option V :=
    match d with
    | [] => None
    | (k', v') :: d' => if decide (k = k') then Some v' else dict_get d' k
    end.

  (** [k in d] *)
Definition dict_contains d k : bool :=
    match dict_get d k with Some _ => true | None => false end.

  (** [d[k] = v] *)
Fixpoint dict_setitem d k v : pydict K V :=
    match d with
    | [] => [(k, v)]
    | (k', v') :: d' =>
        if decide (k = k') then (k, v) :: d' else (k', v') :: dict_setitem d' k v
    end.

  (** [del d[k]] on a present key (the callers test [k in d] first). *)
Fixpoint dict_delete d k : pydict K V :=
    match d with
    | [] => []
    | (k', v') :: d' =>
        if decide (k = k') then dict_delete d' k else (k', v') :: dict_delete d' k
    end.

  (** [list(d.keys())] *)
Definition dict_keys d : list K := map fst d.

Definition dict_wf d : Prop := NoDup (dict_keys d).

Definition to_map d : gmap K V :=
    foldr (fun kv m => <[kv.1 := kv.2]> m) ∅ d.

#[export] Instance dict_equiv : Equiv (pydict K V) :=
    fun d1 d2 => forall k, dict_get d1 k = dict_get d2 k.

  (** ** Lookups after updates *)

Lemma dict_get_setitem d k k' v :
    dict_get (dict_setitem d k v) k' = if decide (k' = k) then Some v else dict_get d k'.
  Proof.
    induction d as [|[k0 v0] d IH]; simpl; [done|].
    destruct (decide (k = k0)) as [->|Hne]; simpl.
    - by destruct (decide (k' = k0)).
    - destruct (decide (k' = k0)) as [->|]; rewrite ?IH;
        repeat case_decide; congruence.
  Qed.

Lemma dict_get_setitem_eq d k v : dict_get (dict_setitem d k v) k = Some v.
  Proof. rewrite dict_get_setitem. by case_decide. Qed.

Lemma dict_get_setitem_ne d k k' v :
    k' ≠ k -> dict_get (dict_setitem d k v) k' = dict_get d k'.
  Proof. intros. rewrite dict_get_setitem. by case_decide. Qed.

Lemma dict_get_delete d k k' :
    dict_get (dict_delete d k) k' = if decide (k' = k) then None else dict_get d k'.
  Proof.
    induction d as [|[k0 v0] d IH]; simpl; [by case_decide|].
    destruct (decide (k = k0)) as [->|Hne]; simpl; rewrite ?IH;
      repeat case_decide; congruence.
  Qed.

Lemma dict_get_In d k v : dict_get d k = Some v -> In (k, v) d.
  Proof.
    induction d as [|[k0 v0] d IH]; simpl; [done|].
    case_decide; [intros [= ->]; subst; auto | auto].
  Qed.

Lemma dict_get_None_keys d k : dict_get d k = None <-> k ∉ dict_keys d.
  Proof.
    induction d as [|[k0 v0] d IH]; simpl; [split; [intros _; apply not_elem_of_nil|done]|].
    rewrite elem_of_cons. case_decide; [subst; split; [done|tauto]|].
    rewrite IH. tauto.
  Qed.

Lemma dict_get_Some_keys d k v : dict_get d k = Some v -> k ∈ dict_keys d.
  Proof.
    intros Hk. destruct (decide (k ∈ dict_keys d)) as [|Hn]; [done|].
    apply dict_get_None_keys in Hn. congruence.
  Qed.

  (** ** The order of the keys *)

Lemma dict_keys_setitem d k v :
    dict_keys (dict_setitem d k v) =
    if dict_contains d k then dict_keys d else dict_keys d ++ [k].
  Proof.
    unfold dict_contains, dict_keys.
    induction d as [|[k0 v0] d IH]; simpl; [done|].
    destruct (decide (k = k0)) as [->|]; simpl; [done|].
    rewrite IH. by destruct (dict_get d k).
  Qed.

  (** ** The invariant: no key twice *)

Lemma dict_setitem_wf d k v : dict_wf d -> dict_wf (dict_setitem d k v).
  Proof.
    unfold dict_wf. intros Hwf. rewrite dict_keys_setitem.
    unfold dict_contains. destruct (dict_get d k) eqn:E; [done|].
    apply NoDup_app. split; [done|]. split; [|apply NoDup_singleton].
    intros x Hx [-> | []%not_elem_of_nil]%elem_of_cons. by apply dict_get_None_keys in E.
  Qed.

Lemma dict_delete_wf d k : dict_wf d -> dict_wf (dict_delete d k).
  Proof.
    unfold dict_wf. intros Hwf.
    induction d as [|[k0 v0] d IH]; simpl in *; [done|].
    apply NoDup_cons in Hwf as [Hnot Hwf].
    case_decide; simpl; [by apply IH|].
    apply NoDup_cons. split; [|by apply IH].
    rewrite <- dict_get_None_keys in Hnot |- *.
    rewrite dict_get_delete. by case_decide.
  Qed.

  (** ** Refinement by a finite map *)

Lemma to_map_lookup d k : to_map d !! k = dict_get d k.
  Proof.
    induction d as [|[k0 v0] d IH]; simpl; [by rewrite lookup_empty|].
    rewrite lookup_insert. repeat case_decide; congruence.
  Qed.

Lemma to_map_setitem d k v : to_map (dict_setitem d k v) = <[k := v]> (to_map d).
  Proof.
    apply map_eq. intros k'. rewrite to_map_lookup, dict_get_setitem, lookup_insert.
    rewrite to_map_lookup. repeat case_decide; congruence.
  Qed.

Lemma to_map_delete d k : to_map (dict_delete d k) = delete k (to_map d).
  Proof.
    apply map_eq. intros k'. rewrite to_map_lookup, dict_get_delete, lookup_delete.
    rewrite to_map_lookup. repeat case_decide; congruence.
  Qed.

  (** ** The equivalence of dicts and the operations that respect it *)

Lemma dict_equiv_to_map d1 d2 : d1 ≡ d2 <-> to_map d1 = to_map d2.
  Proof.
    split.
    - intros Heq. apply map_eq. intros k. by rewrite !to_map_lookup.
    - intros Heq k. by rewrite <- !to_map_lookup, Heq.
  Qed.

#[export] Instance dict_equivalence : Equivalence (≡@{pydict K V}).
  Proof.
    split.
    - intros d k. done.
    - intros d1 d2 H12 k. by rewrite H12.
    - intros d1 d2 d3 H12 H23 k. by rewrite H12.
  Qed.

#[export] Instance dict_get_proper : Proper ((≡) ==> (=) ==> (=)) dict_get.
  Proof. intros d1 d2 Hd k ? <-. apply Hd. Qed.

#[export] Instance dict_contains_proper : Proper ((≡) ==> (=) ==> (=)) dict_contains.
  Proof. intros d1 d2 Hd k ? <-. unfold dict_contains. by rewrite Hd. Qed.

#[export] Instance dict_setitem_proper :
    Proper ((≡) ==> (=) ==> (=) ==> (≡)) dict_setitem.
  Proof. intros d1 d2 Hd k ? <- v ? <- k'. rewrite !dict_get_setitem. by rewrite Hd. Qed.

#[export] Instance dict_delete_proper : Proper ((≡) ==> (=) ==> (≡)) dict_delete.
  Proof. intros d1 d2 Hd k ? <- k'. rewrite !dict_get_delete. by rewrite Hd. Qed.

  (** Last write wins, up to the equivalence. *)
Lemma dict_setitem_setitem d k v1 v2 :
    dict_setitem (dict_setitem d k v1) k v2 ≡ dict_setitem d k v2.
  Proof. intros k'. rewrite !dict_get_setitem. by case_decide. Qed.
End Dict.

(** ** Python values

    The values the backend passes around untyped: what [json.loads] or
    [eval] of a model reply gives, and the dicts built from them.  A
    [float] is kept as the rational number it denotes: the code only
    passes floats along (into prompts and JSON files), it never
    computes with them. *)
#[warnings="-register-all"]
Inductive pyval :=
| PNone
| PBool (b : bool)
| PInt (z : Z)
| PFloat (q : QArith_base.Q)
| PStr (s : string)
| PList (l : list pyval)
| PDict (d : pydict string pyval).

(** [bool(v)]: [None], [False], [0], empty strings, lists and dicts are
    false. *)
Definition py_truthy (v : pyval) : bool :=
  match v with
  | PNone => false
  | PBool b => b
  | PInt z => bool_decide (z ≠ 0%Z)
  | PFloat q => negb (QArith_base.Qeq_bool q (QArith_base.inject_Z 0))
  | PStr s => bool_decide (s ≠ "")
  | PList l => bool_decide (l ≠ [])
  | PDict d => bool_decide (d ≠ [])
  end.

(** [type(v).__name__] *)
Definition py_type_name (v : pyval) : string :=
  match v with
  | PNone => "NoneType" | PBool _ => "bool" | PInt _ => "int" | PFloat _ => "float"
  | PStr _ => "str"
  | PList _ => "list" | PDict _ => "dict"
  end.

(** [v.get(k, default)]: only a dict has [get]. *)
Definition py_get (v : pyval) (k : string) (default : pyval) : res pyval :=
  match v with
  | PDict d => Ok (match dict_get d k with Some x => x | None => default end)
  | _ => Err (AttributeError ("'" +:+ py_type_name v +:+ "' object has no attribute 'get'"))
  end.

#[export] Hint Rewrite @dict_get_setitem_eq @to_map_lookup @to_map_setitem
  @to_map_delete : py_rw.
#[export] Hint Resolve dict_setitem_wf dict_delete_wf : py.
