(* ===== verification/PyString.v ===== *)
(** * Python string operations used by the backend

    [str_contains p s] is Python's [p in s] on strings (substring test),
    used by the text-level safety checks; [str_lstrip] is [s.lstrip()]
    (whitespace as [str.isspace] defines it on code points below 256),
    used by the Anthropic prompt conversion; [py_fmt_opt] is how an
    f-string prints an [Optional[str]].  The specification of each is
    proved here once and reused by the components. *)

From S2P Require Import Prelude.

(** ** Concatenation

    stdpp declares [String.app] [simpl never], so the lemmas below go
    through [str_app_cons] instead of [simpl]. *)

Lemma str_app_cons (c : Ascii.ascii) (a b : string) :
  String c a +:+ b = String c (a +:+ b).
Proof. reflexivity. Qed.

Lemma str_app_nil_l (s : string) : "" +:+ s = s.
Proof. reflexivity. Qed.

Lemma str_app_nil_r (s : string) : s +:+ "" = s.
Proof. induction s as [|c s IH]; [done|by rewrite str_app_cons, IH]. Qed.

Lemma str_app_assoc (a b c : string) : a +:+ b +:+ c = (a +:+ b) +:+ c.
Proof. induction a as [|x a IH]; [done|by rewrite !str_app_cons, IH]. Qed.

Lemma str_app_length (a b : string) :
  String.length (a +:+ b) = String.length a + String.length b.
Proof. induction a as [|x a IH]; [done|rewrite str_app_cons; simpl; by rewrite IH]. Qed.

Lemma str_app_inj_l (p a b : string) : p +:+ a = p +:+ b -> a = b.
Proof. induction p as [|x p IH]; [done|]. rewrite !str_app_cons. intros [= H]. by apply IH. Qed.

#[export] Hint Rewrite str_app_cons str_app_nil_r : py_rw.

(** ** [s.startswith(p)] and [p in s] *)

Lemma str_prefix_spec (p s : string) :
  String.prefix p s = true <-> exists b, s = p +:+ b.
Proof.
  revert s. induction p as [|x p IH]; intros [|y s]; simpl;
    try setoid_rewrite str_app_cons.
  - split; [exists ""; done|done].
  - split; [exists (String y s); done|done].
  - split; [done|intros [b Hb]; discriminate].
  - destruct (Ascii.ascii_dec x y) as [->|Hne].
    + rewrite IH. split; intros [b Hb]; exists b; [by rewrite Hb|congruence].
    + split; [done|intros [b [= ? _]]; congruence].
Qed.

Lemma str_prefix_app_l (p q s : string) :
  String.prefix (p +:+ q) s = true -> String.prefix p s = true.
Proof.
  rewrite !str_prefix_spec. intros [b ->]. exists (q +:+ b). symmetry. apply str_app_assoc.
Qed.

(** [p in s] *)
Fixpoint str_contains (p s : string) : bool :=
  String.prefix p s ||
  match s with
  | EmptyString => false
  | String _ s' => str_contains p s'
  end.

Lemma str_contains_unfold (p s : string) :
  str_contains p s = true <->
  String.prefix p s = true \/
  match s with EmptyString => False | String _ s' => str_contains p s' = true end.
Proof. destruct s; simpl; rewrite orb_true_iff; naive_solver. Qed.

Lemma str_contains_spec (p s : string) :
  str_contains p s = true <-> exists a b, s = a +:+ p +:+ b.
Proof.
  induction s as [|c s IH]; rewrite str_contains_unfold, str_prefix_spec;
    try setoid_rewrite str_app_cons.
  - split.
    + intros [[b Hb]|[]]. by exists "", b.
    + intros [[|? a] [b Hb]]; [left; by exists b|discriminate].
  - rewrite IH. split.
    + intros [[b Hb]|[a [b Hab]]]; [by exists "", b|].
      exists (String c a), b. by rewrite Hab.
    + intros [[|x a] [b Hab]]; simpl in Hab; [left; by exists b|].
      right. injection Hab as -> Hs. by exists a, b.
Qed.

(** The substring test is monotone: text around a match keeps it. *)
Lemma str_contains_frame (p a s b : string) :
  str_contains p s = true -> str_contains p (a +:+ s +:+ b) = true.
Proof.
  rewrite !str_contains_spec. intros [a' [b' ->]].
  exists (a +:+ a'), (b' +:+ b). rewrite <- !str_app_assoc. done.
Qed.

Lemma str_contains_refl (p : string) : str_contains p p = true.
Proof. apply str_contains_spec. exists "", "". by rewrite str_app_nil_r. Qed.

(** [x in l] for a list or set of strings *)
Definition str_in (x : string) (l : list string) : bool := bool_decide (x ∈ l).

Lemma str_in_spec x l : str_in x l = true <-> x ∈ l.
Proof. unfold str_in. apply bool_decide_eq_true. Qed.

(** ** [s.lstrip()] *)

(** [c.isspace()] on code points 0 to 255: tab, newline, vertical tab,
    form feed, carriage return, the separators 0x1c to 0x1f, space,
    next line (0x85) and no-break space (0xa0). *)
Definition py_isspace (c : Ascii.ascii) : bool :=
  match Ascii.nat_of_ascii c with
  | 9 | 10 | 11 | 12 | 13 | 28 | 29 | 30 | 31 | 32 | 133 | 160 => true
  | _ => false
  end.

Fixpoint str_lstrip (s : string) : string :=
  match s with
  | EmptyString => EmptyString
  | String c s' => if py_isspace c then str_lstrip s' else s
  end.

Lemma str_lstrip_app_ws (w s : string) :
  (forall c, String.get 0 s = Some c -> py_isspace c = false) ->
  Forall (fun c => py_isspace c = true) (String.list_ascii_of_string w) ->
  str_lstrip (w +:+ s) = s.
Proof.
  intros Hs. induction w as [|c w IH]; simpl.
  - intros _. destruct s as [|c s]; simpl; [done|].
    by rewrite (Hs c eq_refl).
  - intros [Hc Hw]%Forall_cons. rewrite Hc. by apply IH.
Qed.

(** ** f-strings *)

(** [\n] *)
Definition newline : string := String (Ascii.ascii_of_nat 10) EmptyString.

(** [f"{x}"] for [x : Optional[str]]: [None] prints as [None]. *)
Definition py_fmt_opt (o : option string) : string :=
  match o with Some s => s | None => "None" end.
