(* ===== verification/PyJson.v ===== *)
(** * The [json] module and [str()] as interfaces

    The backend serialises Python values with [json.dumps]/[json.dump]
    (with or without [indent=2]) and reads model replies and files back
    with [json.loads]/[json.load].  These are library functions, not
    code of the repository: [PyJson] gives them as an interface, and
    theorems that need [json.loads] to read back what [json.dumps] wrote
    say so as a hypothesis on the values at hand.

    [str(v)] (used by the f-strings of the prompts) is the string itself
    for a [str] and [repr(v)] for the other values; [repr] is the
    interface [PyRepr]. *)

From S2P Require Import Prelude PyDict PyString.

Class PyJson := {
  (** [json.dumps(v)] ([None]) or [json.dumps(v, indent=n)] *)
  json_dumps : option nat -> pyval -> string;
  (** [json.loads(s)]: the value, or [JSONDecodeError] *)
  json_loads : string -> res pyval;
}.

(** [repr(v)] *)
Class PyRepr := { py_repr : pyval -> string }.

(** [str(v)] *)
Definition py_str `{PyRepr} (v : pyval) : string :=
  match v with PStr s => s | _ => py_repr v end.

(** [json.loads(v)] on any value: only a string (or bytes) is parsed. *)
Definition py_json_loads `{PyJson} (v : pyval) : res pyval :=
  match v with
  | PStr s => json_loads s
  | _ => Err (TypeError ("the JSON object must be str, bytes or bytearray, not " +:+
                         py_type_name v))
  end.

(** [json.loads] reads back what [json.dumps] wrote, for one value. *)
Definition json_reads_back `{PyJson} (indent : option nat) (v : pyval) : Prop :=
  json_loads (json_dumps indent v) = Ok v.
