(* ===== verification/PyPath.v ===== *)
(** * [pathlib] pure paths, written out

    [PurePosixPath(s)] splits [s] at [/] into parts, drops the empty
    parts and the [.] parts, keeps the [..] parts, and records the root
    ([""], ["/"], or ["//"] for exactly two leading slashes).
    [base / name] is [name] alone when [name] has a root, and the two
    part lists joined otherwise; [str(p)] is the root and the parts
    joined by [/], or [.] for the empty relative path.  [main.py] and
    [learning.py] build their file paths this way. *)

From S2P Require Import Prelude PyString.

(** [s.split(c)] *)
Fixpoint str_split_on (c : Ascii.ascii) (s : string) : list string :=
  match s with
  | EmptyString => [EmptyString]
  | String a s' =>
      let rest := str_split_on c s' in
      if Ascii.eqb a c then EmptyString :: rest
      else match rest with
           | p :: ps => String a p :: ps
           | [] => [String a EmptyString]
           end
  end.

Definition slash : Ascii.ascii := Ascii.ascii_of_nat 47.

(** A POSIX pure path: its root ([""], ["/"] or ["//"]) and its parts. *)
Record pure_path := mk_path { path_root : string; path_parts : list string }.

(** [PurePosixPath(s)]: the root of [splitroot], then the parts of
    [s.split('/')] other than [''] and ['.']. *)
Definition parse_path (s : string) : pure_path :=
  let root :=
    if String.prefix "//" s && negb (String.prefix "///" s) then "//"
    else if String.prefix "/" s then "/" else "" in
  mk_path root (filter (fun p => negb (bool_decide (p = "") || bool_decide (p = "."))) (str_split_on slash s)).

(** [str(path)] *)
Definition path_str (p : pure_path) : string :=
  match path_root p, path_parts p with
  | "", [] => "."
  | root, parts => root +:+ String.concat "/" parts
  end.

(** [base / name] *)
Definition path_div (base : pure_path) (name : string) : pure_path :=
  let q := parse_path name in
  if bool_decide (path_root q = "") then mk_path (path_root base) (path_parts base ++ path_parts q)
  else q.

(** [p.name]: the last part. *)
Definition path_name (p : pure_path) : string := default "" (last (path_parts p)).

(** ** Lemmas *)

Lemma parse_path_absolute_root name :
  String.prefix "/" name = true -> path_root (parse_path name) ≠ "".
Proof.
  intros Hp. unfold parse_path. simpl. rewrite Hp.
  by destruct (String.prefix "//" name && negb (String.prefix "///" name)).
Qed.

Lemma path_div_absolute base name :
  String.prefix "/" name = true -> path_div base name = parse_path name.
Proof.
  intros Hp. unfold path_div. rewrite bool_decide_eq_false_2; [done|].
  by apply parse_path_absolute_root.
Qed.

Lemma path_div_relative base name :
  String.prefix "/" name = false ->
  path_div base name = mk_path (path_root base) (path_parts base ++ path_parts (parse_path name)).
Proof.
  intros Hp. unfold path_div. rewrite bool_decide_eq_true_2; [done|].
  assert (H2 : String.prefix "//" name = false).
  { destruct (String.prefix "//" name) eqn:E; [|done].
    rewrite <- Hp. symmetry. exact (str_prefix_app_l "/" "/" name E). }
  unfold parse_path. simpl. by rewrite H2, Hp.
Qed.


(** [c in s] for a character. *)
Fixpoint str_has (c : Ascii.ascii) (s : string) : bool :=
  match s with
  | EmptyString => false
  | String a s' => Ascii.eqb a c || str_has c s'
  end.

Lemma str_has_app c a b : str_has c (a +:+ b) = str_has c a || str_has c b.
Proof. induction a as [|x a IH]; [done|]. rewrite str_app_cons. simpl. by rewrite IH, orb_assoc. Qed.

Lemma str_split_on_nonnil c s : str_split_on c s ≠ [].
Proof.
  destruct s as [|x s]; simpl; [done|].
  destruct (Ascii.eqb x c); [done|]. by destruct (str_split_on c s).
Qed.

Lemma str_split_on_app c a s :
  str_has c a = false ->
  str_split_on c (a +:+ s) =
    match str_split_on c s with p :: ps => (a +:+ p) :: ps | [] => [a] end.
Proof.
  induction a as [|x a IH]; intros Ha.
  { rewrite str_app_nil_l. pose proof (str_split_on_nonnil c s).
    destruct (str_split_on c s); [done|]. by rewrite str_app_nil_l. }
  simpl in Ha. apply orb_false_iff in Ha as [Hx Ha].
  rewrite str_app_cons. simpl. rewrite Hx, IH by done.
  by destruct (str_split_on c s).
Qed.

(** A string without the separator is one part. *)
Lemma str_split_on_single c a : str_has c a = false -> str_split_on c a = [a].
Proof. intros Ha. rewrite <- (str_app_nil_r a), str_split_on_app by done. done. Qed.

(** A string [a/rest] with no [/] in [a] splits into [a] and the parts
    of [rest]. *)
Lemma str_split_on_sep c a s :
  str_has c a = false -> str_split_on c (a +:+ String c s) = a :: str_split_on c s.
Proof.
  intros Ha. rewrite str_split_on_app by done. simpl. rewrite Ascii.eqb_refl.
  by rewrite str_app_nil_r.
Qed.
