(* ===== verification/PySort.v ===== *)
(** * [sorted(xs, key=k, reverse=True)] on string keys

    Python compares [str]s by code point, lexicographically: that is
    Stdlib's [String.compare] ([String.ltb], [String.leb]) on ASCII
    strings.  [sorted] is stable, and [reverse=True] keeps it stable:
    elements with equal keys stay in their original order.  [sort_desc]
    is an insertion sort with that behaviour.

    The theorems show that [sort_desc] returns a permutation of its
    input, sorted by decreasing key, in which the elements of each key
    keep their order, and that these three properties determine the
    result: [sort_desc] is the list Python's specification of [sorted]
    describes, whatever algorithm computes it. *)

From S2P Require Import Prelude.
From Stdlib Require Import Sorting.Sorted.

(** ** The order on strings *)

Lemma str_leb_trans x y z :
  String.leb x y = true -> String.leb y z = true -> String.leb x z = true.
Proof.
  unfold String.leb. revert y z.
  induction x as [|a x IH]; intros [|b y] [|c z]; cbn [String.compare]; try done.
  unfold Ascii.compare.
  destruct (N.compare_spec (Ascii.N_of_ascii a) (Ascii.N_of_ascii b));
  destruct (N.compare_spec (Ascii.N_of_ascii b) (Ascii.N_of_ascii c));
  destruct (N.compare_spec (Ascii.N_of_ascii a) (Ascii.N_of_ascii c));
    try lia; try done; eauto.
Qed.

Lemma str_ltb_leb x y : String.ltb x y = negb (String.leb y x).
Proof.
  unfold String.ltb, String.leb. rewrite String.compare_antisym.
  by destruct (String.compare y x).
Qed.

Lemma str_leb_refl x : String.leb x x = true.
Proof. destruct (String.leb_total x x); done. Qed.

Section SortDesc.
Context {A : Type} (key : A -> string).

(** [x] comes before [y] in a list sorted by decreasing key. *)
Definition desc (x y : A) : Prop := String.leb (key y) (key x) = true.

#[local] Instance desc_trans : Transitive desc.
Proof. intros x y z Hxy Hyz. unfold desc in *. eauto using str_leb_trans. Qed.

(** Insert [x] before the first element whose key is not greater. *)
Fixpoint insert_desc (x : A) (l : list A) : list A :=
  match l with
  | [] => [x]
  | y :: l' => if String.ltb (key x) (key y) then y :: insert_desc x l' else x :: y :: l'
  end.

(** [sorted(l, key=key, reverse=True)] *)
Fixpoint sort_desc (l : list A) : list A :=
  match l with
  | [] => []
  | x :: l' => insert_desc x (sort_desc l')
  end.

(** The elements of one key, in order. *)
Definition with_key (k : string) (l : list A) : list A :=
  List.filter (fun x => String.eqb (key x) k) l.

Lemma insert_desc_perm x l : insert_desc x l ≡ₚ x :: l.
Proof.
  induction l as [|y l IH]; simpl; [done|].
  destruct (String.ltb _ _); [|done]. rewrite IH. apply perm_swap.
Qed.

Lemma insert_desc_hd x y l :
  desc y x -> HdRel desc y l -> HdRel desc y (insert_desc x l).
Proof.
  intros Hyx Hl. destruct l as [|z l]; simpl; [by constructor|].
  destruct (String.ltb _ _); constructor; [by inversion Hl|done].
Qed.

Lemma insert_desc_sorted x l : Sorted desc l -> Sorted desc (insert_desc x l).
Proof.
  induction 1 as [|y l Hl IH Hhd]; simpl; [by repeat constructor|].
  destruct (String.ltb (key x) (key y)) eqn:Hlt.
  - constructor; [done|]. apply insert_desc_hd; [|done].
    unfold desc. rewrite str_ltb_leb in Hlt. destruct (String.leb_total (key x) (key y)); [done|].
    by rewrite H in Hlt.
  - constructor; [by constructor|]. constructor.
    unfold desc. rewrite str_ltb_leb in Hlt. by destruct (String.leb (key y) (key x)).
Qed.

Lemma insert_desc_with_key x l k : with_key k (insert_desc x l) = with_key k (x :: l).
Proof.
  induction l as [|y l IH]; simpl; [done|].
  destruct (String.ltb (key x) (key y)) eqn:Hlt; [|done].
  unfold with_key in *. simpl. rewrite IH. simpl.
  destruct (String.eqb_spec (key x) k), (String.eqb_spec (key y) k); try done.
  rewrite str_ltb_leb in Hlt. replace (key y) with (key x) in Hlt by congruence.
  by rewrite str_leb_refl in Hlt.
Qed.

Lemma sorted_head_max x l y : Sorted desc (x :: l) -> y ∈ x :: l -> desc x y.
Proof.
  intros Hs%Sorted_StronglySorted; [|apply desc_trans].
  inversion Hs as [|? ? _ Hall]; subst. rewrite elem_of_cons. intros [->|Hy].
  - apply str_leb_refl.
  - rewrite Forall_forall in Hall. by apply Hall.
Qed.
End SortDesc.

Section SortTheorems.
Context {A : Type} (key : A -> string).

Lemma sort_desc_perm l : sort_desc key l ≡ₚ l.
Proof. induction l as [|x l IH]; simpl; [done|]. by rewrite insert_desc_perm, IH. Qed.

Lemma sort_desc_sorted l : Sorted (desc key) (sort_desc key l).
Proof. induction l; simpl; [constructor|]. by apply insert_desc_sorted. Qed.

Lemma sort_desc_stable l k : with_key key k (sort_desc key l) = with_key key k l.
Proof.
  induction l as [|x l IH]; simpl; [done|].
  rewrite insert_desc_with_key. unfold with_key in *. simpl. by rewrite IH.
Qed.

(** Two lists sorted by decreasing key, with the same elements and the
    same order within each key, are equal. *)
Lemma sorted_stable_unique l1 l2 :
  l1 ≡ₚ l2 -> Sorted (desc key) l1 -> Sorted (desc key) l2 ->
  (forall k, with_key key k l1 = with_key key k l2) -> l1 = l2.
Proof.
  revert l2. induction l1 as [|x l1 IH]; intros l2 Hp Hs1 Hs2 Hk.
  { symmetry. by apply Permutation_nil. }
  destruct l2 as [|y l2]; [by apply Permutation_sym, Permutation_nil_cons in Hp|].
  assert (Hxy : key x = key y).
  { apply String.leb_antisym.
    - apply (sorted_head_max key y l2 x Hs2). rewrite <- Hp. by left.
    - apply (sorted_head_max key x l1 y Hs1). rewrite Hp. by left. }
  pose proof (Hk (key x)) as Hx. unfold with_key in Hx. simpl in Hx.
  rewrite String.eqb_refl, Hxy, String.eqb_refl in Hx. injection Hx as <- Hx.
  f_equal. apply IH.
  - by apply Permutation_cons_inv in Hp.
  - by apply Sorted_inv in Hs1 as [? _].
  - by apply Sorted_inv in Hs2 as [? _].
  - intros k. specialize (Hk k). unfold with_key in Hk |- *. simpl in Hk.
    by destruct (String.eqb (key x) k); [injection Hk|].
Qed.
(** [sort_desc] is [sorted(l, key=key, reverse=True)].  A list is
    [sort_desc key l] exactly when it is a permutation of [l], sorted by
    decreasing key, and keeps the order of the elements of each key
    (Python's [sorted] is stable, also with [reverse=True]). *)
Theorem sort_desc_spec l l' :
  l' = sort_desc key l <->
  l' ≡ₚ l /\ Sorted (desc key) l' /\ (forall k, with_key key k l' = with_key key k l).
Proof.
  split.
  - intros ->. split_and!; [apply sort_desc_perm|apply sort_desc_sorted|apply sort_desc_stable].
  - intros (Hp & Hs & Hk). apply sorted_stable_unique; [|done|apply sort_desc_sorted|].
    + by rewrite sort_desc_perm.
    + intros k. by rewrite sort_desc_stable.
Qed.
End SortTheorems.

(** Sorting strings: lists with the same elements sort to the same
    list (equal strings cannot be told apart). *)
Lemma filter_eqb_perm (l1 l2 : list string) k :
  l1 ≡ₚ l2 -> List.filter (fun x => String.eqb x k) l1 = List.filter (fun x => String.eqb x k) l2.
Proof.
  intros Hp. assert (Hf : List.filter (fun x => String.eqb x k) l1 ≡ₚ
                          List.filter (fun x => String.eqb x k) l2).
  { induction Hp as [|x l1 l2 _ IH|x y l|l1 l2 l3 _ IH1 _ IH2]; simpl.
    - done.
    - by destruct (String.eqb x k); [apply perm_skip|].
    - destruct (String.eqb x k), (String.eqb y k); try done. apply perm_swap.
    - by rewrite IH1. }
  assert (Hall : forall l, Forall (fun x => x = k) (List.filter (fun x => String.eqb x k) l)).
  { intros l. apply Forall_forall. intros x Hx%list_elem_of_In. apply filter_In in Hx as [_ Hx].
    by apply String.eqb_eq. }
  revert Hf. generalize (Hall l1) (Hall l2).
  generalize (List.filter (fun x => String.eqb x k) l2) as m2.
  generalize (List.filter (fun x => String.eqb x k) l1) as m1.
  intros m1 m2 H1 H2 Hp'. apply Permutation_length in Hp'. revert m2 H2 Hp'.
  induction H1 as [|x m1 -> _ IH]; intros [|y m2] H2 Hl; simpl in Hl; try done.
  apply Forall_cons in H2 as [-> H2]. f_equal. apply IH; [done|lia].
Qed.

Lemma sort_desc_id_perm (l1 l2 : list string) : l1 ≡ₚ l2 -> sort_desc id l1 = sort_desc id l2.
Proof.
  intros Hp. apply (sorted_stable_unique id); [|apply sort_desc_sorted..|].
  - by rewrite !sort_desc_perm.
  - intros k. rewrite !sort_desc_stable. by apply filter_eqb_perm.
Qed.
