(* ===== verification/DateTime.v ===== *)
(** * [datetime.now().isoformat()] and [strftime("%Y%m%d_%H%M%S")]

    [learning.py] stamps every learning with
    [datetime.now().isoformat()], sorts learnings by that string, and
    names their files [learning_<strftime("%Y%m%d_%H%M%S")>.json].  A
    [datetime] is its seven fields; [isoformat] prints them zero-padded
    as [YYYY-MM-DDTHH:MM:SS], followed by [.ffffff] only when the
    microsecond is not zero; the stamp prints the first six fields
    without separators but one [_].  The clock itself is not modelled:
    callers read it from their world.

    The theorems show that, for valid dates, comparing two [isoformat]
    strings as Python compares [str]s is comparing the dates
    chronologically, and that two stamps are equal exactly when the
    dates agree up to the second. *)

From S2P Require Import Prelude PyString PyPath.

Record datetime := mk_datetime {
  year : Z; month : Z; day : Z;
  hour : Z; minute : Z; second : Z; microsecond : Z;
}.

(** The ranges of [datetime]'s fields ([MINYEAR] is 1); the stamp pads
    [%Y] to four digits only from the year 1000 on, as glibc does. *)
Definition dt_valid (d : datetime) : Prop :=
  (1 <= year d <= 9999 /\ 1 <= month d <= 12 /\ 1 <= day d <= 31 /\
   0 <= hour d < 24 /\ 0 <= minute d < 60 /\ 0 <= second d < 60 /\
   0 <= microsecond d < 1000000)%Z.

(** The decimal digit [n]. *)
Definition digit_char (n : Z) : Ascii.ascii := Ascii.ascii_of_N (Z.to_N (48 + n)).

(** The last [w] decimal digits of [n], zero-padded: [f"{n:0{w}d}"] for
    [n < 10 ^ w]. *)
Fixpoint digits (w : nat) (n : Z) : string :=
  match w with
  | 0 => ""
  | S w' => digits w' (n / 10) +:+ String (digit_char (n mod 10)) ""
  end.

(** The [.ffffff] part of [isoformat], absent when it is zero. *)
Definition usec_suffix (u : Z) : string :=
  if bool_decide (u = 0%Z) then "" else "." +:+ digits 6 u.

(** [d.isoformat()] *)
Definition isoformat (d : datetime) : string :=
  digits 4 (year d) +:+ "-" +:+ digits 2 (month d) +:+ "-" +:+ digits 2 (day d) +:+ "T" +:+
  digits 2 (hour d) +:+ ":" +:+ digits 2 (minute d) +:+ ":" +:+ digits 2 (second d) +:+
  usec_suffix (microsecond d).

(** [d.strftime("%Y%m%d_%H%M%S")] *)
Definition stamp (d : datetime) : string :=
  digits 4 (year d) +:+ digits 2 (month d) +:+ digits 2 (day d) +:+ "_" +:+
  digits 2 (hour d) +:+ digits 2 (minute d) +:+ digits 2 (second d).

(** Lexicographic comparison of a list of fields. *)
Fixpoint lex_compare (l1 l2 : list Z) : comparison :=
  match l1, l2 with
  | n :: l1', m :: l2' => match Z.compare n m with Eq => lex_compare l1' l2' | c => c end
  | _, _ => Eq
  end.

(** Chronological comparison of two dates. *)
Definition dt_compare (d1 d2 : datetime) : comparison :=
  lex_compare [year d1; month d1; day d1; hour d1; minute d1; second d1; microsecond d1]
              [year d2; month d2; day d2; hour d2; minute d2; second d2; microsecond d2].

(** ** Digits and string comparison *)

Lemma str_compare_app a1 a2 s1 s2 :
  String.length a1 = String.length a2 ->
  String.compare (a1 +:+ s1) (a2 +:+ s2) =
    match String.compare a1 a2 with Eq => String.compare s1 s2 | c => c end.
Proof.
  revert a2. induction a1 as [|x a1 IH]; intros [|y a2] Hl; simpl in Hl; try done.
  rewrite !str_app_cons. cbn [String.compare].
  destruct (Ascii.compare x y); [apply IH|done|done]. lia.
Qed.

Lemma digits_length w n : String.length (digits w n) = w.
Proof.
  revert n. induction w as [|w IH]; intros n; [done|]. simpl.
  rewrite str_app_length, IH. simpl. lia.
Qed.

Lemma digit_char_compare a b :
  (0 <= a < 10)%Z -> (0 <= b < 10)%Z ->
  String.compare (String (digit_char a) "") (String (digit_char b) "") = Z.compare a b.
Proof.
  intros Ha Hb. cbn [String.compare]. unfold Ascii.compare, digit_char.
  rewrite !Ascii.N_ascii_embedding by lia.
  rewrite (Z2N.inj_compare (48 + a) (48 + b)) by lia.
  destruct (Z.compare_spec (48 + a) (48 + b)), (Z.compare_spec a b); first [done | lia].
Qed.

Lemma Z_compare_div_mod n m :
  Z.compare n m =
    match Z.compare (n / 10) (m / 10) with Eq => Z.compare (n mod 10) (m mod 10) | c => c end.
Proof.
  pose proof (Z.div_mod n 10 ltac:(lia)). pose proof (Z.div_mod m 10 ltac:(lia)).
  pose proof (Z.mod_pos_bound n 10 ltac:(lia)). pose proof (Z.mod_pos_bound m 10 ltac:(lia)).
  destruct (Z.compare_spec (n / 10) (m / 10));
    destruct (Z.compare_spec (n mod 10) (m mod 10));
    destruct (Z.compare_spec n m); first [done | lia].
Qed.

Lemma digits_compare w n m :
  (0 <= n < 10 ^ Z.of_nat w)%Z -> (0 <= m < 10 ^ Z.of_nat w)%Z ->
  String.compare (digits w n) (digits w m) = Z.compare n m.
Proof.
  revert n m. induction w as [|w IH]; intros n m Hn Hm.
  { simpl in *. by replace n with 0%Z by lia; replace m with 0%Z by lia. }
  rewrite Nat2Z.inj_succ, Z.pow_succ_r in Hn, Hm by lia.
  cbn [digits]. rewrite str_compare_app by (rewrite !digits_length; done).
  rewrite (Z_compare_div_mod n m), IH.
  - by rewrite digit_char_compare by (apply Z.mod_pos_bound; lia).
  - split; [apply Z.div_pos; lia|]. apply Z.div_lt_upper_bound; lia.
  - split; [apply Z.div_pos; lia|]. apply Z.div_lt_upper_bound; lia.
Qed.

Lemma str_compare_refl s : String.compare s s = Eq.
Proof.
  induction s as [|a s IH]; [done|]. cbn [String.compare]. unfold Ascii.compare.
  by rewrite N.compare_refl.
Qed.

Lemma sep_compare c s1 s2 : String.compare (c +:+ s1) (c +:+ s2) = String.compare s1 s2.
Proof. rewrite str_compare_app by done. by rewrite str_compare_refl. Qed.

Lemma field_compare w n m s1 s2 :
  (0 <= n < 10 ^ Z.of_nat w)%Z -> (0 <= m < 10 ^ Z.of_nat w)%Z ->
  String.compare (digits w n +:+ s1) (digits w m +:+ s2) =
    match Z.compare n m with Eq => String.compare s1 s2 | c => c end.
Proof.
  intros Hn Hm. rewrite str_compare_app by (by rewrite !digits_length).
  by rewrite digits_compare.
Qed.

Lemma usec_compare u1 u2 :
  (0 <= u1 < 1000000)%Z -> (0 <= u2 < 1000000)%Z ->
  String.compare (usec_suffix u1) (usec_suffix u2) = Z.compare u1 u2.
Proof.
  intros H1 H2. unfold usec_suffix.
  destruct (decide (u1 = 0%Z)) as [->|N1], (decide (u2 = 0%Z)) as [->|N2];
    rewrite ?bool_decide_eq_true_2, ?bool_decide_eq_false_2 by done.
  - done.
  - simpl. destruct (Z.compare_spec 0 u2); first [done | lia].
  - simpl. destruct (Z.compare_spec u1 0); first [done | lia].
  - rewrite sep_compare. apply digits_compare; simpl; lia.
Qed.

Lemma lex_compare_eq l1 l2 :
  length l1 = length l2 -> lex_compare l1 l2 = Eq -> l1 = l2.
Proof.
  revert l2. induction l1 as [|n l1 IH]; intros [|m l2] Hl Hc; simpl in *; try done.
  destruct (Z.compare_spec n m); try done. subst. f_equal. apply IH; [lia|done].
Qed.

Ltac field_bounds := unfold dt_valid in *; simpl; lia.

(** Comparing two [isoformat] strings is comparing the dates. *)
Lemma isoformat_compare d1 d2 :
  dt_valid d1 -> dt_valid d2 -> String.compare (isoformat d1) (isoformat d2) = dt_compare d1 d2.
Proof.
  intros V1 V2. unfold isoformat, dt_compare. cbn [lex_compare].
  repeat first [rewrite field_compare by field_bounds | rewrite sep_compare].
  rewrite usec_compare by field_bounds. by destruct (Z.compare (microsecond d1) _).
Qed.

(** The stamp is the first six fields. *)
Lemma stamp_compare d1 d2 :
  dt_valid d1 -> dt_valid d2 ->
  String.compare (stamp d1) (stamp d2) =
    lex_compare [year d1; month d1; day d1; hour d1; minute d1; second d1]
                [year d2; month d2; day d2; hour d2; minute d2; second d2].
Proof.
  intros V1 V2. unfold stamp. cbn [lex_compare].
  repeat first [rewrite field_compare by field_bounds | rewrite sep_compare].
  rewrite <- (str_app_nil_r (digits 2 (second d1))), <- (str_app_nil_r (digits 2 (second d2))).
  rewrite field_compare by field_bounds. by destruct (Z.compare _ _).
Qed.

Lemma str_compare_eq_iff s1 s2 : String.compare s1 s2 = Eq <-> s1 = s2.
Proof. split; [apply String.compare_eq_iff|intros ->; apply str_compare_refl]. Qed.

(** Python's [isoformat(d1) < isoformat(d2)] is [d1 < d2]. *)
Lemma isoformat_ltb d1 d2 :
  dt_valid d1 -> dt_valid d2 ->
  String.ltb (isoformat d1) (isoformat d2) = bool_decide (dt_compare d1 d2 = Lt).
Proof.
  intros V1 V2. unfold String.ltb. rewrite isoformat_compare by done.
  by destruct (dt_compare d1 d2).
Qed.

(** Two valid dates print the same stamp exactly when they agree up to
    the second. *)
Lemma stamp_eq_iff d1 d2 :
  dt_valid d1 -> dt_valid d2 ->
  stamp d1 = stamp d2 <->
  [year d1; month d1; day d1; hour d1; minute d1; second d1] =
  [year d2; month d2; day d2; hour d2; minute d2; second d2].
Proof.
  intros V1 V2. rewrite <- str_compare_eq_iff, stamp_compare by done. split.
  - by apply lex_compare_eq.
  - intros Heq. rewrite Heq. clear. induction [year d2; _; _; _; _; _] as [|n l IH]; [done|].
    simpl. by rewrite Z.compare_refl.
Qed.

(** A stamp has no [/] in it: it is a single file-name part. *)
Lemma digits_no_char c w n : (Ascii.N_of_ascii c < 48)%N -> str_has c (digits w n) = false.
Proof.
  intros Hc. revert n. induction w as [|w IH]; intros n; [done|].
  cbn [digits]. rewrite str_has_app, IH. simpl. rewrite orb_false_r.
  destruct (Ascii.eqb_spec (digit_char (n mod 10)) c) as [Heq|]; [|done].
  exfalso. apply (f_equal Ascii.N_of_ascii) in Heq. unfold digit_char in Heq.
  pose proof (Z.mod_pos_bound n 10 ltac:(lia)).
  rewrite Ascii.N_ascii_embedding in Heq by lia. lia.
Qed.

Lemma stamp_no_slash d : str_has slash (stamp d) = false.
Proof.
  unfold stamp. rewrite !str_has_app, !digits_no_char by (vm_compute; reflexivity).
  reflexivity.
Qed.
