(* ===== verification/PyAst.v ===== *)
(** * The part of Python's [ast] module used by the safety checks

    The checks of [modifier.py] and [improvement.py] call [ast.parse] and
    iterate over [ast.walk(tree)], testing each node for [ast.Import] and
    [ast.ImportFrom].  A node is modelled with the fields those tests
    read; every other node kind is a [Node] with a label and its child
    nodes in field order, which is all [ast.walk] looks at.

    [ast.walk] is breadth first: it pops the front of a deque, appends the
    node's children ([ast.iter_child_nodes]) and yields the node.  It is
    defined here by well-founded recursion on the number of nodes in the
    queue ([walk_queue]), so it is total; the theorems show that it yields
    every node of the tree exactly as often as the tree has it (length =
    size) and that a node is yielded if and only if it is a subtree.

    [ast.parse] (the CPython parser) is not translated: it is the
    interface [PyParser], and the checks are proved for every instance. *)

From S2P Require Import Prelude PyString.
From Equations Require Import Equations.

(** [ast.alias]: [name] and [asname]. *)
Record alias := mk_alias { alias_name : string; alias_asname : option string }.

#[warnings="-register-all"]
Inductive ast :=
| Module (body : list ast)
| Import (names : list alias)
| ImportFrom (module : option string) (names : list alias) (level : nat)
| Alias (a : alias)
| Node (label : string) (kids : list ast).

(** [ast.iter_child_nodes]: the [alias] nodes of an import are its
    children. *)
Definition iter_child_nodes (t : ast) : list ast :=
  match t with
  | Module body => body
  | Import names => map Alias names
  | ImportFrom _ names _ => map Alias names
  | Alias _ => []
  | Node _ kids => kids
  end.

Fixpoint ast_size (t : ast) : nat :=
  match t with
  | Module body => S (list_sum (map ast_size body))
  | Import names => S (length names)
  | ImportFrom _ names _ => S (length names)
  | Alias _ => 1
  | Node _ kids => S (list_sum (map ast_size kids))
  end.

Definition queue_size (q : list ast) : nat := list_sum (map ast_size q).

Lemma queue_size_app q1 q2 : queue_size (q1 ++ q2) = queue_size q1 + queue_size q2.
Proof. unfold queue_size. rewrite map_app. apply list_sum_app. Qed.

Lemma queue_size_cons t q : queue_size (t :: q) = ast_size t + queue_size q.
Proof. reflexivity. Qed.

Lemma queue_size_aliases names : queue_size (map Alias names) = length names.
Proof. unfold queue_size. induction names as [|a names IH]; simpl; lia. Qed.

(** A node counts one plus its children. *)
Lemma ast_size_children t : ast_size t = S (queue_size (iter_child_nodes t)).
Proof. destruct t; simpl; rewrite ?queue_size_aliases; done. Qed.

(** The loop of [ast.walk]: [todo.popleft()], [todo.extend(children)],
    [yield node]. *)
Equations? walk_queue (q : list ast) : list ast by wf (queue_size q) lt :=
  walk_queue [] := [];
  walk_queue (t :: q) := t :: walk_queue (q ++ iter_child_nodes t).
Proof. rewrite queue_size_app, queue_size_cons, ast_size_children. lia. Qed.

(** [ast.walk(node)] *)
Definition ast_walk (t : ast) : list ast := walk_queue [t].

(** [ast.parse]: the CPython parser, as an interface.  It returns the
    [Module] node or raises ([SyntaxError], or [ValueError] for a source
    with a null byte). *)
Class PyParser := { ast_parse : string -> res ast }.

(** ** Subtrees *)

Inductive subtree : ast -> ast -> Prop :=
| subtree_refl t : subtree t t
| subtree_child t c x : c ∈ iter_child_nodes t -> subtree x c -> subtree x t.

#[export] Hint Constructors subtree : py.

(** ** Termination and coverage of the walk *)

Lemma walk_queue_length q : length (walk_queue q) = queue_size q.
Proof.
  funelim (walk_queue q); simp walk_queue; [done|].
  simpl. match goal with IH : length (walk_queue _) = _ |- _ => rewrite IH end.
  rewrite queue_size_app, queue_size_cons, ast_size_children. lia.
Qed.

Lemma walk_queue_elem x q :
  x ∈ walk_queue q <-> exists t, t ∈ q /\ subtree x t.
Proof.
  funelim (walk_queue q); simp walk_queue.
  - split; [by intros ?%not_elem_of_nil|]. intros (t & ?%not_elem_of_nil & _); done.
  - rewrite elem_of_cons.
    match goal with IH : forall x, _ <-> _ |- _ => rewrite IH end.
    split.
    + intros [->|(u & [Hu|Hu]%elem_of_app & Hsub)].
      * exists t. split; [apply elem_of_cons; auto|constructor].
      * exists u. split; [apply elem_of_cons; auto|done].
      * exists t. split; [apply elem_of_cons; auto|]. by econstructor.
    + intros (u & [->|Hu]%elem_of_cons & Hsub).
      * inversion Hsub as [|? c ? Hc Hsub']; subst; [by left|].
        right. exists c. split; [apply elem_of_app; by right|done].
      * right. exists u. split; [apply elem_of_app; by left|done].
Qed.

Lemma ast_walk_elem x t : x ∈ ast_walk t <-> subtree x t.
Proof.
  unfold ast_walk. rewrite walk_queue_elem. split.
  - intros (u & ->%list_elem_of_singleton & ?). done.
  - intros ?. exists t. split; [apply list_elem_of_singleton|]; done.
Qed.

(** [ast.walk] terminates on every tree and yields exactly as many
    nodes as the tree has: each node once. *)
Lemma ast_walk_length t : length (ast_walk t) = ast_size t.
Proof. unfold ast_walk. rewrite walk_queue_length. unfold queue_size. simpl. lia. Qed.

(** A parser given by a table of texts and their trees, every other text
    being a [SyntaxError]: the concrete parser of the examples. *)
Definition table_parser (tbl : list (string * ast)) : PyParser :=
  {| ast_parse s :=
       match List.find (fun e => bool_decide (e.1 = s)) tbl with
       | Some e => Ok e.2
       | None => Err (SyntaxError "invalid syntax (<unknown>, line 1)")
       end |}.
