(* ===== verification/Safety.v ===== *)
(** * The safety checks over a proposed source text

    Two sets of checks exist in the code:
    - [modifier.py]: [CodeModifier.validate_syntax] (is [ast.parse]
      happy) and [CodeModifier.validate_safety] (no [import] of a module
      of the three-element denylist), used by [apply_changes];
    - [improvement.py]: the battery [CodeImprovement.safety_checks] of four
      checks run in order ([_check_syntax], [_check_dangerous_imports]
      with a seven-element denylist, [_check_file_operations] and
      [_check_network_operations], which test raw substrings), used by
      [implement_improvements].

    The checks are pure functions of the text and of the parser
    ([PyParser]); a check that may raise returns a [res].  The theorems
    characterise each check on every branch: the denylist checks reject
    exactly the trees that import a listed module (in any nested
    position, through the coverage of [ast.walk]) and name such a module;
    the substring checks reject exactly the texts that contain a pattern;
    the battery reports the first failing check in its order. *)

From S2P Require Import Prelude PyString PyAst.

(** The [{"safe": ..., "reason": ...}] dicts of [improvement.py]. *)
Record verdict := mk_verdict { safe : bool; reason : option string }.

Definition verdict_ok : verdict := mk_verdict true None.
Definition verdict_fail (r : string) : verdict := mk_verdict false (Some r).

(** [dangerous_modules] of [validate_safety] *)
Definition modifier_dangerous_modules : list string := ["os"; "subprocess"; "sys"].

(** [dangerous_modules] of [_check_dangerous_imports] *)
Definition improvement_dangerous_modules : list string :=
  ["os"; "subprocess"; "sys"; "shutil"; "requests"; "urllib"; "socket"].

(** [dangerous_patterns] of [_check_file_operations] *)
Definition file_patterns : list string :=
  ["open("; "write("; "delete("; "remove("; "unlink("].

(** [dangerous_patterns] of [_check_network_operations] *)
Definition network_patterns : list string :=
  ["socket."; "connect("; "listen("; "bind("; "request."; "urlopen("].

(** The body of [for node in ast.walk(tree)]: an [ast.Import] fails on
    the first alias whose [name] is listed, an [ast.ImportFrom] fails
    when its [module] is listed ([None in set] is false). *)
Fixpoint first_dangerous_import (dangerous : list string) (nodes : list ast)
    : option string :=
  match nodes with
  | [] => None
  | Import names :: rest =>
      match List.find (fun a => str_in (alias_name a) dangerous) names with
      | Some a => Some (alias_name a)
      | None => first_dangerous_import dangerous rest
      end
  | ImportFrom (Some m) _ _ :: rest =>
      if str_in m dangerous then Some m else first_dangerous_import dangerous rest
  | _ :: rest => first_dangerous_import dangerous rest
  end.

(** [for pattern in dangerous_patterns: if pattern in code: ...] *)
Definition first_pattern (patterns : list string) (code : string) : option string :=
  List.find (fun p => str_contains p code) patterns.

Section Checks.
  Context `{PyParser}.

  (** [CodeModifier.validate_syntax]: only [SyntaxError] is caught. *)
Definition validate_syntax (code : string) : res bool :=
    match ast_parse code with
    | Ok _ => Ok true
    | Err e => if is_syntax_error e then Ok false else Err e
    end.

  (** [CodeModifier.validate_safety]: every exception of the parse is
      caught and reported with [str(e)]. *)
Definition validate_safety (code : string) : bool * option string :=
    match ast_parse code with
    | Ok tree =>
        match first_dangerous_import modifier_dangerous_modules (ast_walk tree) with
        | Some m => (false, Some ("Dangerous import: " +:+ m))
        | None => (true, None)
        end
    | Err e => (false, Some (exn_str e))
    end.

  (** [CodeImprovement._check_syntax]: only [SyntaxError] is caught. *)
Definition check_syntax (code : string) : res verdict :=
    match ast_parse code with
    | Ok _ => Ok verdict_ok
    | Err e =>
        if is_syntax_error e then Ok (verdict_fail ("Syntax error: " +:+ exn_str e))
        else Err e
    end.

  (** [CodeImprovement._check_dangerous_imports] *)
Definition check_dangerous_imports (code : string) : verdict :=
    match ast_parse code with
    | Ok tree =>
        match first_dangerous_import improvement_dangerous_modules (ast_walk tree) with
        | Some m => verdict_fail ("Dangerous import detected: " +:+ m)
        | None => verdict_ok
        end
    | Err e => verdict_fail ("Import check failed: " +:+ exn_str e)
    end.

  (** [CodeImprovement._check_file_operations] *)
Definition check_file_operations (code : string) : verdict :=
    match first_pattern file_patterns code with
    | Some p => verdict_fail ("Potentially dangerous file operation detected: " +:+ p)
    | None => verdict_ok
    end.

  (** [CodeImprovement._check_network_operations]; in the source its last
      line has a stray quote after [True], a syntax error (see the
      findings); the model returns the evident passing verdict. *)
Definition check_network_operations (code : string) : verdict :=
    match first_pattern network_patterns code with
    | Some p => verdict_fail ("Potentially dangerous network operation detected: " +:+ p)
    | None => verdict_ok
    end.

  (** [self.safety_checks], in the order of [CodeImprovement.__init__] *)
Definition safety_checks : list (string -> res verdict) :=
    [check_syntax;
     fun c => Ok (check_dangerous_imports c);
     fun c => Ok (check_file_operations c);
     fun c => Ok (check_network_operations c)].

  (** The loop of [implement_improvements] over [self.safety_checks]:
      the reason of the first failing verdict ([result['reason']], a
      [KeyError] if absent), or [None] when all pass. *)
Fixpoint run_safety_checks (checks : list (string -> res verdict)) (code : string)
      : res (option string) :=
    match checks with
    | [] => Ok None
    | c :: rest =>
        match c code with
        | Err e => Err e
        | Ok v =>
            if safe v then run_safety_checks rest code
            else match reason v with
                 | Some r => Ok (Some r)
                 | None => Err (KeyError "reason")
                 end
        end
    end.
End Checks.

(** ** What the import checks look for *)

(** The modules a node imports, as the checks read them. *)
Definition node_imports (n : ast) (m : string) : Prop :=
  match n with
  | Import names => exists a, a ∈ names /\ alias_name a = m
  | ImportFrom (Some m') _ _ => m = m'
  | _ => False
  end.

(** [tree] imports [m] somewhere (at any depth). *)
Definition tree_imports (tree : ast) (m : string) : Prop :=
  exists n, subtree n tree /\ node_imports n m.

Lemma first_dangerous_import_Some D nodes m :
  first_dangerous_import D nodes = Some m ->
  m ∈ D /\ exists n, n ∈ nodes /\ node_imports n m.
Proof.
  induction nodes as [|n nodes IH]; simpl; [done|].
  assert (Hrest : first_dangerous_import D nodes = Some m ->
                  m ∈ D /\ exists n', n' ∈ n :: nodes /\ node_imports n' m).
  { intros (? & n' & ? & ?)%IH. split; [done|]. exists n'. by rewrite elem_of_cons; auto. }
  destruct n as [|names|[m'|] names lvl| |]; auto.
  - destruct (List.find _ names) as [a|] eqn:Hf; [|auto].
    intros [= <-]. apply find_some in Hf as [Ha Hd%str_in_spec].
    split; [done|]. exists (Import names). split; [apply elem_of_cons; auto|].
    simpl. exists a. split; [by apply list_elem_of_In|done].
  - destruct (str_in m' D) eqn:Hd; [|auto]. intros [= <-].
    split; [by apply str_in_spec|]. exists (ImportFrom (Some m') names lvl).
    split; [apply elem_of_cons; auto|done].
Qed.

Lemma first_dangerous_import_None D nodes :
  first_dangerous_import D nodes = None <->
  forall n m, n ∈ nodes -> node_imports n m -> m ∉ D.
Proof.
  induction nodes as [|n nodes IH]; simpl.
  { split; [|done]. by intros _ n m ?%not_elem_of_nil. }
  setoid_rewrite elem_of_cons.
  assert (Hcons : forall P : Prop, (P <-> forall m, node_imports n m -> m ∉ D) ->
    (P /\ first_dangerous_import D nodes = None) <->
    forall n' m, n' = n \/ n' ∈ nodes -> node_imports n' m -> m ∉ D).
  { intros P HP. rewrite HP, IH. naive_solver. }
  destruct n as [body|names|[m'|] names lvl|a|lbl kids];
    try (rewrite <- (Hcons True); [tauto|]; simpl; naive_solver).
  - destruct (List.find _ names) as [a|] eqn:Hf.
    + split; [done|]. intros Hall. exfalso.
      apply find_some in Hf as [Ha Hd%str_in_spec]. apply (Hall (Import names) (alias_name a));
        [by left|simpl; exists a; split; [by apply list_elem_of_In|done]|done].
    + rewrite <- (Hcons True); [tauto|]. split; [|done]. intros _ m Hm Hd.
      simpl in Hm. destruct Hm as [a [Ha%list_elem_of_In <-]]. eapply find_none in Hf; [|exact Ha].
      apply str_in_spec in Hd. congruence.
  - destruct (str_in m' D) eqn:Hd.
    + split; [done|]. intros Hall. exfalso.
      apply (Hall _ m' (or_introl eq_refl)); [done|by apply str_in_spec].
    + rewrite <- (Hcons True); [tauto|]. split; [|done]. intros _ m -> Hin.
      apply str_in_spec in Hin. congruence.
Qed.

Lemma first_pattern_Some ps code p :
  first_pattern ps code = Some p -> p ∈ ps /\ str_contains p code = true.
Proof. unfold first_pattern. intros [? ?]%find_some. split; [by apply list_elem_of_In|done]. Qed.

Lemma first_pattern_None ps code :
  first_pattern ps code = None <-> forall p, p ∈ ps -> str_contains p code = false.
Proof.
  unfold first_pattern. split.
  - intros Hf p Hp%list_elem_of_In. by eapply find_none in Hf.
  - intros Hall. destruct (List.find _ ps) as [p|] eqn:Hf; [|done].
    apply find_some in Hf as [Hp%list_elem_of_In Hc]. by rewrite Hall in Hc.
Qed.

(** The walk-level statement of both import checks. *)
Lemma first_dangerous_walk_Some D tree m :
  first_dangerous_import D (ast_walk tree) = Some m -> m ∈ D /\ tree_imports tree m.
Proof.
  intros (? & n & Hn%ast_walk_elem & ?)%first_dangerous_import_Some. split; [done|]. by exists n.
Qed.

Lemma first_dangerous_walk_None D tree :
  first_dangerous_import D (ast_walk tree) = None <->
  forall m, tree_imports tree m -> m ∉ D.
Proof.
  rewrite first_dangerous_import_None. setoid_rewrite ast_walk_elem.
  unfold tree_imports. naive_solver.
Qed.


(** The imported modules as a list, which makes [tree_imports]
    decidable. *)
Definition node_imported (n : ast) : list string :=
  match n with
  | Import names => map alias_name names
  | ImportFrom (Some m) _ _ => [m]
  | _ => []
  end.

Definition imported_modules (tree : ast) : list string :=
  flat_map node_imported (ast_walk tree).

Lemma node_imports_iff n m : node_imports n m <-> m ∈ node_imported n.
Proof.
  destruct n as [|names|[m'|] names lvl| |]; simpl;
    rewrite ?list_elem_of_In, ?in_map_iff; try naive_solver.
  setoid_rewrite list_elem_of_In. naive_solver.
Qed.

Lemma tree_imports_iff tree m : tree_imports tree m <-> m ∈ imported_modules tree.
Proof.
  unfold tree_imports, imported_modules. rewrite list_elem_of_In, in_flat_map.
  setoid_rewrite <- list_elem_of_In. setoid_rewrite <- node_imports_iff.
  setoid_rewrite ast_walk_elem. naive_solver.
Qed.

#[export] Instance tree_imports_dec tree m : Decision (tree_imports tree m).
Proof.
  destruct (decide (m ∈ imported_modules tree)); [left|right];
    by rewrite tree_imports_iff.
Defined.

Section CheckTheorems.
  Context `{PyParser}.

  (** C5: [validate_safety] rejects every text whose tree imports a module
      of its denylist, at any depth and in either import form, and its
      reason names a denylisted module that the tree imports. *)
Theorem validate_safety_rejects_dangerous code tree m :
    ast_parse code = Ok tree ->
    tree_imports tree m -> m ∈ modifier_dangerous_modules ->
    exists m', validate_safety code = (false, Some ("Dangerous import: " +:+ m')) /\
               m' ∈ modifier_dangerous_modules /\ tree_imports tree m'.
  Proof.
    intros Hp Him Hm. unfold validate_safety. rewrite Hp.
    destruct (first_dangerous_import _ _) as [m'|] eqn:Hf.
    - apply first_dangerous_walk_Some in Hf as [? ?]. by exists m'.
    - exfalso. by eapply first_dangerous_walk_None.
  Qed.

  (** C6: [validate_safety] accepts exactly the parsable texts whose tree
      imports no module of its denylist. *)
Theorem validate_safety_accepts code tree :
    ast_parse code = Ok tree ->
    validate_safety code = (true, None) <->
    forall m, tree_imports tree m -> m ∉ modifier_dangerous_modules.
  Proof.
    intros Hp. unfold validate_safety. rewrite Hp, <- first_dangerous_walk_None.
    destruct (first_dangerous_import _ _); split; congruence.
  Qed.

Lemma check_dangerous_imports_spec code tree :
    ast_parse code = Ok tree ->
    safe (check_dangerous_imports code) = false <->
    exists m, tree_imports tree m /\ m ∈ improvement_dangerous_modules.
  Proof.
    intros Hp. unfold check_dangerous_imports. rewrite Hp.
    destruct (first_dangerous_import _ _) as [m|] eqn:Hf; simpl.
    - apply first_dangerous_walk_Some in Hf as [? ?]. split; [|done]. by exists m.
    - rewrite first_dangerous_walk_None in Hf. split; [done|]. intros (m & ? & ?).
      exfalso. by eapply Hf.
  Qed.

  (** The battery's import check is at least as strict as
      [validate_safety]: every parsable text the latter rejects, the
      former rejects too. *)
Theorem check_dangerous_imports_covers_validate_safety code tree :
    ast_parse code = Ok tree ->
    (validate_safety code).1 = false -> safe (check_dangerous_imports code) = false.
  Proof.
    intros Hp Hv. apply (check_dangerous_imports_spec code tree Hp).
    destruct (validate_safety code) as [[] r] eqn:Hvs; simpl in Hv; [done|].
    destruct (first_dangerous_import modifier_dangerous_modules (ast_walk tree)) as [m|] eqn:Hf.
    - apply first_dangerous_walk_Some in Hf as [Hm Him]. exists m. split; [done|].
      unfold modifier_dangerous_modules, improvement_dangerous_modules in *.
      set_solver.
    - unfold validate_safety in Hvs. rewrite Hp, Hf in Hvs. discriminate.
  Qed.

  (** The file-operation check fails exactly on the texts that contain
      one of its patterns as a substring (in code, a comment or a string
      alike), and its reason names the first such pattern of the list. *)
Theorem check_file_operations_spec code :
    (safe (check_file_operations code) = false <->
     exists p, p ∈ file_patterns /\ str_contains p code = true) /\
    (forall p, first_pattern file_patterns code = Some p ->
     reason (check_file_operations code) =
       Some ("Potentially dangerous file operation detected: " +:+ p)).
  Proof.
    unfold check_file_operations. split.
    - destruct (first_pattern _ _) as [p|] eqn:Hf; simpl.
      + apply first_pattern_Some in Hf. split; [by exists p|done].
      + rewrite first_pattern_None in Hf. split; [done|]. intros (p & Hp & Hc).
        by rewrite Hf in Hc.
    - by intros p ->.
  Qed.

Lemma check_network_operations_spec code :
    safe (check_network_operations code) = false <->
    exists p, p ∈ network_patterns /\ str_contains p code = true.
  Proof.
    unfold check_network_operations.
    destruct (first_pattern _ _) as [p|] eqn:Hf; simpl.
    - apply first_pattern_Some in Hf. split; [by exists p|done].
    - rewrite first_pattern_None in Hf. split; [done|]. intros (p & Hp & Hc).
      by rewrite Hf in Hc.
  Qed.
End CheckTheorems.

Section BatteryTheorems.
  Context `{PyParser}.

Definition check_passes (code : string) (c : string -> res verdict) : Prop :=
    exists v, c code = Ok v /\ safe v = true.

  (** C7: the battery short-circuits: it reports the reason of the first
      check, in list order, that fails, after every earlier check has
      passed. *)
Theorem run_safety_checks_first_failure checks code r :
    run_safety_checks checks code = Ok (Some r) <->
    exists pre c post v, checks = pre ++ c :: post /\
      Forall (check_passes code) pre /\
      c code = Ok v /\ safe v = false /\ reason v = Some r.
  Proof.
    induction checks as [|c0 rest IH]; simpl.
    { split; [done|]. intros (pre & c & post & v & Heq & _). by destruct pre. }
    split.
    - destruct (c0 code) as [v|e] eqn:Hc; [|done].
      destruct (safe v) eqn:Hs.
      + intros (pre & c & post & v' & -> & ? & ? & ? & ?)%IH.
        exists (c0 :: pre), c, post, v'. repeat split; try done.
        constructor; [by exists v|done].
      + destruct (reason v) eqn:Hr; [intros [= ->]|done].
        by exists [], c0, rest, v.
    - intros ([|c1 pre] & c & post & v & Heq & Hpre & Hc & Hs & Hr);
        simpl in Heq; injection Heq as <- ->.
      + by rewrite Hc, Hs, Hr.
      + apply Forall_cons in Hpre as [(v1 & Hc1 & Hs1) Hpre].
        rewrite Hc1, Hs1. apply IH. by exists pre, c, post, v.
  Qed.

Lemma run_safety_checks_pass checks code :
    run_safety_checks checks code = Ok None <-> Forall (check_passes code) checks.
  Proof.
    induction checks as [|c0 rest IH]; simpl; [split; auto|].
    rewrite Forall_cons, <- IH. unfold check_passes.
    destruct (c0 code) as [v|e]; [|naive_solver].
    destruct (safe v) eqn:Hs; [naive_solver|].
    destruct (reason v); split; try done; intros [(? & [= <-] & ?) _]; congruence.
  Qed.

  (** The battery of [improvement.py] passes exactly the texts that
      parse, import no module of its denylist, and contain none of the
      file or network patterns. *)
Theorem safety_checks_pass code :
    run_safety_checks safety_checks code = Ok None <->
    exists tree, ast_parse code = Ok tree /\
      (forall m, tree_imports tree m -> m ∉ improvement_dangerous_modules) /\
      (forall p, p ∈ file_patterns -> str_contains p code = false) /\
      (forall p, p ∈ network_patterns -> str_contains p code = false).
  Proof.
    rewrite run_safety_checks_pass. unfold safety_checks.
    rewrite !Forall_cons. unfold check_passes.
    assert (Hsafe : forall v, (exists v', Ok v = Ok v' /\ safe v' = true) <-> safe v = true)
      by naive_solver.
    rewrite !Hsafe.
    assert (Hf : forall ps code f, (safe match first_pattern ps code with
               | Some p => verdict_fail (f p) | None => verdict_ok end = true) <->
               forall p, p ∈ ps -> str_contains p code = false).
    { intros ps c f. rewrite <- first_pattern_None. by destruct (first_pattern ps c). }
    unfold check_file_operations, check_network_operations. rewrite !Hf.
    unfold check_syntax.
    destruct (ast_parse code) as [tree|e] eqn:Hp.
    - assert (Himp := check_dangerous_imports_spec code tree Hp).
      destruct (safe (check_dangerous_imports code)); naive_solver.
    - destruct (is_syntax_error e); naive_solver.
  Qed.
End BatteryTheorems.

Lemma no_dangerous_import_iff tree (D : list string) :
  (forall m, tree_imports tree m -> m ∉ D) <->
  Forall (fun m => m ∉ D) (imported_modules tree).
Proof. rewrite Forall_forall. setoid_rewrite tree_imports_iff. done. Qed.

(** ** Concrete texts of the spec's scenarios and their trees

    [example_parser] knows the CPython trees of these texts (every other
    node kind as [Node], children in field order, constants without their
    value, so [x = 1] and [x = 2] have the same tree) and answers
    [SyntaxError] for any other text, e.g. [def f(:]. *)

Definition text_x1 : string := "x = 1".
Definition text_x2 : string := "x = 2".
Definition tree_x2 : ast :=
  Module [Node "Assign" [Node "Name" [Node "Store" []]; Node "Constant" []]].

Definition text_os_system : string := "import os" +:+ newline +:+ "os.system('rm -rf /')".
Definition tree_os_system : ast :=
  Module [Import [mk_alias "os" None];
          Node "Expr" [Node "Call" [Node "Attribute" [Node "Name" [Node "Load" []];
                                                      Node "Load" []];
                                    Node "Constant" []]]].

Definition text_os_path : string := "import os.path".
Definition tree_os_path : ast := Module [Import [mk_alias "os.path" None]].

Definition text_socket : string := "import socket".
Definition tree_socket : ast := Module [Import [mk_alias "socket" None]].

Definition text_bad_syntax : string := "def f(:".

Definition example_parser : PyParser :=
  table_parser [(text_x1, tree_x2); (text_x2, tree_x2); (text_os_system, tree_os_system);
                (text_os_path, tree_os_path); (text_socket, tree_socket)].

(** ** Witnesses *)

Lemma validate_safety_rejects_dangerous_witness :
  exists m', @validate_safety example_parser text_os_system =
               (false, Some ("Dangerous import: " +:+ m')) /\
             m' ∈ modifier_dangerous_modules /\ tree_imports tree_os_system m'.
Proof.
  apply (@validate_safety_rejects_dangerous example_parser text_os_system tree_os_system "os");
    [reflexivity|decide_by_eval|decide_by_eval].
Defined.

(** [import os.path] passes: the denylist is matched against the whole
    dotted name. *)
Lemma validate_safety_accepts_witness :
  @validate_safety example_parser text_os_path = (true, None).
Proof.
  apply (proj2 (@validate_safety_accepts example_parser text_os_path tree_os_path eq_refl)).
  apply no_dangerous_import_iff. decide_by_eval.
Defined.

Lemma check_dangerous_imports_covers_validate_safety_witness :
  safe (@check_dangerous_imports example_parser text_os_system) = false.
Proof.
  apply (@check_dangerous_imports_covers_validate_safety example_parser text_os_system
           tree_os_system); reflexivity.
Defined.

(** A comment that mentions [open(] fails the file-operation check. *)
Lemma check_file_operations_spec_witness :
  safe (check_file_operations "x = 1  # never open( here") = false.
Proof.
  apply (proj2 (proj1 (check_file_operations_spec "x = 1  # never open( here"))).
  exists "open(". split; [decide_by_eval|reflexivity].
Defined.

Lemma run_safety_checks_first_failure_witness :
  run_safety_checks (@safety_checks example_parser) text_bad_syntax =
    Ok (Some ("Syntax error: " +:+ "invalid syntax (<unknown>, line 1)")).
Proof.
  apply (proj2 (run_safety_checks_first_failure _ text_bad_syntax _)).
  exists [], (@check_syntax example_parser), (tail (@safety_checks example_parser)),
    (verdict_fail ("Syntax error: " +:+ "invalid syntax (<unknown>, line 1)")).
  split; [reflexivity|]. split; [constructor|]. repeat split; reflexivity.
Defined.

Lemma safety_checks_pass_witness :
  run_safety_checks (@safety_checks example_parser) text_x2 = Ok None.
Proof.
  apply (proj2 (@safety_checks_pass example_parser text_x2)).
  exists tree_x2. split; [reflexivity|]. split; [apply no_dangerous_import_iff; decide_by_eval|].
  split; intros p Hp; repeat (apply elem_of_cons in Hp as [->|Hp]; [reflexivity|]);
    by apply not_elem_of_nil in Hp.
Defined.
