(* ===== verification/FileSys.v ===== *)
(** * The file system as the backend touches it

    The state is a finite map from paths to file contents.  The
    operations are the calls the code makes:
    - [Path(src).rename(dst)] ([fs_rename]): [FileNotFoundError] when
      [src] is missing; otherwise an [OSError] injected by the
      environment (permissions, another device), or the move, which
      replaces an existing [dst] as POSIX [rename] does;
    - [with open(p, 'w') as f: f.write(data)] ([fs_write]): the open may
      fail and leave the file as it was, or it truncates the file and the
      write may stop after a prefix of [data] and raise;
    - [with open(p) as f: f.read()] ([fs_read]);
    - [Path(p).exists()] ([fs_exists]).

    Which faults happen is not decided by the code: an [os_env] gives the
    outcome of each call, and theorems hold for all environments unless
    they say otherwise. *)

From S2P Require Import Prelude PyString.

(** The file system: path to content. *)
Abbreviation fs_state := (gmap string string).

(** What [open(p, 'w')] followed by [f.write(data)] does. *)
Inductive write_outcome :=
| WriteOk
| OpenFails (e : exn)
| WriteFails (written : nat) (e : exn).

Record os_env := mk_os_env {
  env_write : string -> string -> write_outcome;
  env_rename : string -> string -> option string;
}.

(** An environment where every call succeeds. *)
Definition reliable_env : os_env :=
  mk_os_env (fun _ _ => WriteOk) (fun _ _ => None).

Definition errno2 (what : string) : string :=
  "[Errno 2] No such file or directory: " +:+ what.

Definition quoted (s : string) : string := "'" +:+ s +:+ "'".

Section Ops.
Context (env : os_env).

(** [Path(src).rename(dst)] *)
Definition fs_rename (src dst : string) : ST fs_state unit :=
  fun fs =>
    match fs !! src with
    | None => (fs, Err (FileNotFoundError (errno2 (quoted src +:+ " -> " +:+ quoted dst))))
    | Some c =>
        match env_rename env src dst with
        | Some msg => (fs, Err (OSError msg))
        | None => (<[dst := c]> (delete src fs), Ok tt)
        end
    end.

(** [with open(path, 'w') as f: f.write(data)] *)
Definition fs_write (path data : string) : ST fs_state unit :=
  fun fs =>
    match env_write env path data with
    | WriteOk => (<[path := data]> fs, Ok tt)
    | OpenFails e => (fs, Err e)
    | WriteFails k e => (<[path := String.substring 0 k data]> fs, Err e)
    end.
End Ops.

(** [with open(path, 'r') as f: return f.read()] *)
Definition fs_read (path : string) : ST fs_state string :=
  fun fs =>
    match fs !! path with
    | Some c => (fs, Ok c)
    | None => (fs, Err (FileNotFoundError (errno2 (quoted path))))
    end.

(** [Path(path).exists()]: the state holds files only, so a path
    exists when a file is stored under it. *)
Definition fs_exists (path : string) : ST fs_state bool :=
  fun fs => (fs, Ok (bool_decide (is_Some (fs !! path)))).

(** ** The effect of each operation *)

Section OpLemmas.
Context (env : os_env).

Lemma fs_rename_ok src dst c fs :
  fs !! src = Some c -> env_rename env src dst = None ->
  fs_rename env src dst fs = (<[dst := c]> (delete src fs), Ok tt).
Proof. unfold fs_rename. by intros -> ->. Qed.

Lemma fs_rename_missing src dst fs :
  fs !! src = None ->
  fs_rename env src dst fs =
    (fs, Err (FileNotFoundError (errno2 (quoted src +:+ " -> " +:+ quoted dst)))).
Proof. unfold fs_rename. by intros ->. Qed.

Lemma fs_rename_fault src dst c msg fs :
  fs !! src = Some c -> env_rename env src dst = Some msg ->
  fs_rename env src dst fs = (fs, Err (OSError msg)).
Proof. unfold fs_rename. by intros -> ->. Qed.

(** A move and its inverse give the original state back when the
    destination was free. *)
Lemma rename_back (fs : fs_state) src dst c :
  src ≠ dst -> fs !! src = Some c -> fs !! dst = None ->
  <[src := c]> (delete dst (<[dst := c]> (delete src fs))) = fs.
Proof.
  intros Hne Hs Hd. apply map_eq. intros q.
  rewrite lookup_insert, lookup_delete, lookup_insert, lookup_delete.
  repeat case_decide; subst; congruence.
Qed.
End OpLemmas.

#[export] Hint Resolve fs_rename_ok fs_rename_missing fs_rename_fault : py.
