(* ===== verification/Mutator.v ===== *)
(** * The guarded file mutator

    [CodeModifier.apply_changes] (modifier.py) validates the proposed
    text, renames the target to [<path>.bak], writes the text, and on an
    exception of the write renames the backup back and returns the error.
    Its state is the file system ([FileSys]); the renames and the write
    can fail as the [os_env] says.

    The spec (section 4.4) describes one mutation attempt by its terminal
    states: rejected as unsafe, success, failed and restored from the
    backup, failed without a backup.  [mutation_contract] states that
    contract as a relation between the file system before and after and
    the returned pair; [apply_changes_refines] proves that
    [apply_changes] implements it whenever the target exists and the
    renames succeed.  The other theorems give the exact final state of
    each branch, including the ones outside the contract: a missing
    target makes the backup rename raise, a failing restore leaves the
    target missing, and without a backup a failed write leaves a
    truncated file. *)

From S2P Require Import Prelude PyString PyAst Safety FileSys.

(** [backup_path = f"{file_path}.bak"] *)
Definition backup_path (file_path : string) : string := file_path +:+ ".bak".

Section ApplyChanges.
Context `{PyParser} (env : os_env).

(** The second half of [apply_changes]: [if backup: rename to .bak],
    then [try: write; return True, None] and
    [except Exception as e: if backup: rename back; return False, str(e)].
    The renames are outside the [try]: their exceptions propagate. *)
Definition write_with_backup (file_path changes : string) (backup : bool)
    : ST fs_state (bool * option string) :=
  (if backup then fs_rename env file_path (backup_path file_path) else mret tt);;
  st_try (fs_write env file_path changes;; mret (true, None))
    (fun e =>
       (if backup then fs_rename env (backup_path file_path) file_path else mret tt);;
       mret (false, Some (exn_str e))).

(** [CodeModifier.apply_changes(file_path, changes, backup)] *)
Definition apply_changes (file_path changes : string) (backup : bool)
    : ST fs_state (bool * option string) :=
  ok ← st_lift (validate_syntax changes);
  if negb ok then mret (false, Some "Invalid Python syntax") else
  let '(is_safe, safety_reason) := validate_safety changes in
  if negb is_safe
  then mret (false, Some ("Safety check failed: " +:+ py_fmt_opt safety_reason))
  else write_with_backup file_path changes backup.

(** Both validations pass. *)
Definition checks_pass (changes : string) : Prop :=
  validate_syntax changes = Ok true /\ (validate_safety changes).1 = true.

(** ** The contract of one mutation attempt (spec, section 4.4) *)

(** Paths other than the target and its backup are untouched. *)
Definition others_unchanged (fs fs' : fs_state) (path : string) : Prop :=
  forall q, q ≠ path -> q ≠ backup_path path -> fs' !! q = fs !! q.

Inductive mutation_contract (fs : fs_state) (path changes : string) (backup : bool)
    : fs_state -> bool * option string -> Prop :=
| mc_rejected_unsafe r :
    ~ checks_pass changes ->
    mutation_contract fs path changes backup fs (false, Some r)
| mc_success fs' :
    checks_pass changes ->
    fs' !! path = Some changes ->
    fs' !! backup_path path = (if backup then fs !! path else fs !! backup_path path) ->
    others_unchanged fs fs' path ->
    mutation_contract fs path changes backup fs' (true, None)
| mc_failed_restored fs' err :
    checks_pass changes -> backup = true ->
    fs' !! path = fs !! path ->
    fs' !! backup_path path = None ->
    others_unchanged fs fs' path ->
    mutation_contract fs path changes backup fs' (false, Some err)
| mc_failed_no_backup fs' err :
    checks_pass changes -> backup = false ->
    fs' !! backup_path path = fs !! backup_path path ->
    others_unchanged fs fs' path ->
    mutation_contract fs path changes backup fs' (false, Some err).
End ApplyChanges.

(** ** The branches of the write step *)

Section WriteLemmas.
Context `{PyParser} (env : os_env).

Lemma backup_path_ne p : p ≠ backup_path p.
Proof.
  unfold backup_path. intros Heq. apply (f_equal String.length) in Heq.
  rewrite str_app_length in Heq. simpl in Heq. lia.
Qed.

Lemma apply_changes_checked p c b fs :
  checks_pass c -> apply_changes env p c b fs = write_with_backup env p c b fs.
Proof.
  intros [Hsyn Hsafe]. unfold apply_changes. st_run. rewrite Hsyn. cbv beta iota.
  destruct (validate_safety c) as [[] r]; [reflexivity|discriminate].
Qed.

Lemma write_with_backup_success p c old fs :
  fs !! p = Some old -> env_rename env p (backup_path p) = None ->
  env_write env p c = WriteOk ->
  write_with_backup env p c true fs =
    (<[p := c]> (<[backup_path p := old]> fs), Ok (true, None)).
Proof.
  intros Hp Hr Hw. unfold write_with_backup, fs_rename, fs_write. st_run.
  rewrite Hp, Hr, Hw. cbv beta iota. f_equal. map_solve.
Qed.

(** A failed write: the open failed, or the write stopped after a
    prefix. *)
Definition write_failed (o : write_outcome) (e : exn) : Prop :=
  o = OpenFails e \/ exists k, o = WriteFails k e.

Lemma write_with_backup_restored p c old fs e :
  fs !! p = Some old -> env_rename env p (backup_path p) = None ->
  env_rename env (backup_path p) p = None ->
  write_failed (env_write env p c) e ->
  write_with_backup env p c true fs =
    (<[p := old]> (delete (backup_path p) fs), Ok (false, Some (exn_str e))).
Proof.
  intros Hp Hr1 Hr2 Hw. pose proof (backup_path_ne p).
  unfold write_with_backup, fs_rename, fs_write. st_run. rewrite Hp, Hr1.
  cbv beta iota. destruct Hw as [Hw|[k Hw]]; rewrite Hw; cbv beta iota;
    rewrite ?lookup_insert_ne by done; rewrite lookup_insert_eq, Hr2;
    cbv beta iota; f_equal; map_solve.
Qed.

Lemma write_with_backup_missing p c fs :
  fs !! p = None ->
  write_with_backup env p c true fs =
    (fs, Err (FileNotFoundError (errno2 (quoted p +:+ " -> " +:+ quoted (backup_path p))))).
Proof. intros Hp. unfold write_with_backup, fs_rename. st_run. by rewrite Hp. Qed.

Lemma write_with_backup_restore_fault p c old fs e msg :
  fs !! p = Some old -> env_rename env p (backup_path p) = None ->
  env_write env p c = OpenFails e ->
  env_rename env (backup_path p) p = Some msg ->
  write_with_backup env p c true fs =
    (<[backup_path p := old]> (delete p fs), Err (OSError msg)).
Proof.
  intros Hp Hr1 Hw Hr2. unfold write_with_backup, fs_rename, fs_write. st_run.
  rewrite Hp, Hr1. cbv beta iota. rewrite Hw. cbv beta iota.
  by rewrite lookup_insert_eq, Hr2.
Qed.

Lemma write_without_backup p c fs :
  write_with_backup env p c false fs =
  match env_write env p c with
  | WriteOk => (<[p := c]> fs, Ok (true, None))
  | OpenFails e => (fs, Ok (false, Some (exn_str e)))
  | WriteFails k e => (<[p := String.substring 0 k c]> fs, Ok (false, Some (exn_str e)))
  end.
Proof. unfold write_with_backup, fs_write. st_run. by destruct (env_write env p c). Qed.

Lemma validate_syntax_total c :
  (forall e, ast_parse c = Err e -> is_syntax_error e = true) ->
  exists ok, validate_syntax c = Ok ok.
Proof.
  intros Hse. unfold validate_syntax. destruct (ast_parse c) as [t|e] eqn:Hp; [by eexists|].
  rewrite (Hse e eq_refl). by eexists.
Qed.

Lemma others_unchanged_refl fs p : others_unchanged fs fs p.
Proof. by intros q. Qed.
End WriteLemmas.

#[export] Hint Resolve others_unchanged_refl backup_path_ne : py.

Ltac others_unchanged_solve :=
  let q := fresh "q" in
  intros q ? ?; rewrite ?lookup_insert_ne, ?lookup_delete_ne by congruence; done.

(** ** The behaviour of [apply_changes] *)

Section ApplyTheorems.
Context `{PyParser} (env : os_env).

(** C1: restoration.  When the validations pass and the write fails
    after the backup was made, [apply_changes] renames the backup back:
    the target holds its original content, no [.bak] file remains (an
    older [.bak] is gone too), every other file is untouched, and the
    error of the write is returned. *)
Theorem apply_changes_restores_on_write_failure p c old fs e :
  checks_pass c -> fs !! p = Some old ->
  env_rename env p (backup_path p) = None -> env_rename env (backup_path p) p = None ->
  write_failed (env_write env p c) e ->
  apply_changes env p c true fs =
    (<[p := old]> (delete (backup_path p) fs), Ok (false, Some (exn_str e))).
Proof.
  intros Hc Hp Hr1 Hr2 Hw. rewrite apply_changes_checked by done.
  by apply write_with_backup_restored.
Qed.

(** C2: the success round trip.  When the validations pass and the
    write succeeds, the target holds exactly the new text, [<path>.bak]
    holds the prior content, and nothing else changes. *)
Theorem apply_changes_success p c old fs :
  checks_pass c -> fs !! p = Some old ->
  env_rename env p (backup_path p) = None -> env_write env p c = WriteOk ->
  apply_changes env p c true fs =
    (<[p := c]> (<[backup_path p := old]> fs), Ok (true, None)).
Proof.
  intros Hc Hp Hr Hw. rewrite apply_changes_checked by done.
  by apply write_with_backup_success.
Qed.

(** C4: rejection touches nothing.  A text that fails the syntax
    validation or the safety validation is rejected with its reason, and
    the file system is left exactly as it was (no backup is made). *)
Theorem apply_changes_rejects p c b fs :
  (validate_syntax c = Ok false ->
   apply_changes env p c b fs = (fs, Ok (false, Some "Invalid Python syntax"))) /\
  (forall r, validate_syntax c = Ok true -> validate_safety c = (false, r) ->
   apply_changes env p c b fs = (fs, Ok (false, Some ("Safety check failed: " +:+ py_fmt_opt r)))).
Proof.
  unfold apply_changes. st_run. split.
  - by intros ->.
  - intros r -> Hs. cbv beta iota. by rewrite Hs.
Qed.

(** C28: a missing target.  With [backup=True] and no file at the path,
    the backup rename raises [FileNotFoundError] out of [apply_changes]
    and nothing is written, where the spec asks to skip the backup and
    write directly. *)
Theorem apply_changes_missing_target p c fs :
  checks_pass c -> fs !! p = None ->
  apply_changes env p c true fs =
    (fs, Err (FileNotFoundError (errno2 (quoted p +:+ " -> " +:+ quoted (backup_path p))))).
Proof.
  intros Hc Hp. rewrite apply_changes_checked by done. by apply write_with_backup_missing.
Qed.

(** C29: a failing restore loses the target.  If the open for writing
    fails and the rename back from [<path>.bak] raises, the exception
    escapes [apply_changes] and the target path holds no file: the
    content survives only in [<path>.bak]. *)
Theorem apply_changes_restore_failure_loses_target p c old fs e msg :
  checks_pass c -> fs !! p = Some old ->
  env_rename env p (backup_path p) = None -> env_write env p c = OpenFails e ->
  env_rename env (backup_path p) p = Some msg ->
  exists fs', apply_changes env p c true fs = (fs', Err (OSError msg)) /\
    fs' !! p = None /\ fs' !! backup_path p = Some old.
Proof.
  intros Hc Hp Hr1 Hw Hr2. rewrite apply_changes_checked by done.
  rewrite (write_with_backup_restore_fault env p c old fs e msg) by done.
  eexists. split; [done|]. pose proof (backup_path_ne p).
  rewrite lookup_insert_ne, lookup_delete_eq by done. by rewrite lookup_insert_eq.
Qed.

(** C38: without a backup a failed write truncates.  With
    [backup=False], a write that stops after [k] characters leaves the
    target holding only that prefix of the new text, neither the old nor
    the new content, and [apply_changes] reports a failure. *)
Theorem apply_changes_no_backup_truncates p c fs k e :
  checks_pass c -> env_write env p c = WriteFails k e ->
  apply_changes env p c false fs =
    (<[p := String.substring 0 k c]> fs, Ok (false, Some (exn_str e))).
Proof.
  intros Hc Hw. rewrite apply_changes_checked, write_without_backup, Hw by done. done.
Qed.
End ApplyTheorems.

Section Refinement.
Context `{PyParser} (env : os_env).

(** C3: refinement.  When the renames of the environment succeed, the
    parser raises nothing but [SyntaxError], and the target exists
    whenever a backup is asked for, [apply_changes] returns normally and
    its final file system and result are one of the terminal states of
    the spec's mutation contract. *)
Theorem apply_changes_refines p c b fs :
  (forall src dst, env_rename env src dst = None) ->
  (forall e, ast_parse c = Err e -> is_syntax_error e = true) ->
  (b = true -> is_Some (fs !! p)) ->
  exists fs' r, apply_changes env p c b fs = (fs', Ok r) /\
    mutation_contract fs p c b fs' r.
Proof.
  intros Hr Hse Hb. pose proof (backup_path_ne p) as Hne.
  destruct (validate_syntax_total c Hse) as [[] Hsyn].
  2:{ exists fs, (false, Some "Invalid Python syntax"). split.
      - unfold apply_changes. st_run. by rewrite Hsyn.
      - constructor. intros [? _]. congruence. }
  destruct (validate_safety c) as [[] r] eqn:Hsafe.
  2:{ eexists fs, _. split.
      - unfold apply_changes. st_run. rewrite Hsyn. cbv beta iota. by rewrite Hsafe.
      - constructor. intros [_ Hs]. by rewrite Hsafe in Hs. }
  assert (Hc : checks_pass c) by (split; [done|by rewrite Hsafe]).
  destruct b.
  - destruct (Hb eq_refl) as [old Hold].
    destruct (env_write env p c) as [|e|k e] eqn:Hw.
    + rewrite apply_changes_checked, write_with_backup_success with (old := old) by done.
      eexists _, _. split; [done|]. constructor; [done| |rewrite lookup_insert_ne by done|].
      * by rewrite lookup_insert_eq.
      * by rewrite lookup_insert_eq.
      * others_unchanged_solve.
    + rewrite apply_changes_checked, write_with_backup_restored with (old := old) (e := e)
        by (done || (left; done)).
      eexists _, _. split; [done|]. constructor; [done|done| | |].
      * by rewrite lookup_insert_eq.
      * rewrite lookup_insert_ne, lookup_delete_eq by done. done.
      * others_unchanged_solve.
    + rewrite apply_changes_checked, write_with_backup_restored with (old := old) (e := e)
        by (done || (right; by exists k)).
      eexists _, _. split; [done|]. constructor; [done|done| | |].
      * by rewrite lookup_insert_eq.
      * rewrite lookup_insert_ne, lookup_delete_eq by done. done.
      * others_unchanged_solve.
  - rewrite apply_changes_checked, write_without_backup by done.
    destruct (env_write env p c) as [|e|k e]; eexists _, _; (split; [done|]).
    + constructor; [done|by rewrite lookup_insert_eq| |].
      * by rewrite lookup_insert_ne.
      * others_unchanged_solve.
    + constructor; [done|done|done|auto with py].
    + constructor; [done|done| |].
      * by rewrite lookup_insert_ne.
      * others_unchanged_solve.
Qed.
End Refinement.

(** ** Concrete runs (the spec's scenarios A, B and C, and injected faults) *)

Definition fs_a : fs_state := {[ "a.py" := "x = 1" ]}.

Definition enospc : exn := OSError "[Errno 28] No space left on device".

(** The disk fills after three characters of any write. *)
Definition disk_full_env : os_env :=
  mk_os_env (fun _ _ => WriteFails 3 enospc) (fun _ _ => None).

(** The directory is read-only for new files and for renames onto
    [a.py]. *)
Definition read_only_env : os_env :=
  mk_os_env (fun p _ => OpenFails (OSError ("[Errno 13] Permission denied: " +:+ quoted p)))
    (fun _ dst => if bool_decide (dst = "a.py") then Some "[Errno 13] Permission denied" else None).

Lemma apply_changes_restores_on_write_failure_witness :
  @apply_changes example_parser disk_full_env "a.py" text_x2 true fs_a =
    (<["a.py" := "x = 1"]> (delete (backup_path "a.py") fs_a), Ok (false, Some (exn_str enospc))).
Proof.
  apply (@apply_changes_restores_on_write_failure example_parser disk_full_env "a.py" text_x2
           "x = 1" fs_a enospc); [split; reflexivity|reflexivity|reflexivity|reflexivity|].
  right. exists 3. reflexivity.
Defined.

(** Scenario A: [x = 1] becomes [x = 2], the backup holds [x = 1]. *)
Lemma apply_changes_success_witness :
  @apply_changes example_parser reliable_env "a.py" text_x2 true fs_a =
    (<["a.py" := text_x2]> (<[backup_path "a.py" := "x = 1"]> fs_a), Ok (true, None)).
Proof.
  apply (@apply_changes_success example_parser reliable_env "a.py" text_x2 "x = 1" fs_a);
    [split; reflexivity|reflexivity|reflexivity|reflexivity].
Defined.

(** Scenarios B and C: rejected, the file system unchanged. *)
Lemma apply_changes_rejects_witness :
  @apply_changes example_parser reliable_env "a.py" text_bad_syntax true fs_a =
    (fs_a, Ok (false, Some "Invalid Python syntax")) /\
  @apply_changes example_parser reliable_env "a.py" text_os_system true fs_a =
    (fs_a, Ok (false, Some ("Safety check failed: " +:+ "Dangerous import: os"))).
Proof.
  split.
  - apply (proj1 (@apply_changes_rejects example_parser reliable_env "a.py" text_bad_syntax
                    true fs_a)). reflexivity.
  - apply (proj2 (@apply_changes_rejects example_parser reliable_env "a.py" text_os_system
                    true fs_a) (Some "Dangerous import: os")); reflexivity.
Defined.

Lemma apply_changes_missing_target_witness :
  @apply_changes example_parser reliable_env "new.py" text_x2 true ∅ =
    (∅, Err (FileNotFoundError (errno2 (quoted "new.py" +:+ " -> " +:+ quoted (backup_path "new.py"))))).
Proof.
  apply (@apply_changes_missing_target example_parser reliable_env "new.py" text_x2 ∅);
    [split; reflexivity|reflexivity].
Defined.

Lemma apply_changes_restore_failure_loses_target_witness :
  exists fs', @apply_changes example_parser read_only_env "a.py" text_x2 true fs_a =
                (fs', Err (OSError "[Errno 13] Permission denied")) /\
              fs' !! "a.py" = None /\ fs' !! backup_path "a.py" = Some "x = 1".
Proof.
  apply (@apply_changes_restore_failure_loses_target example_parser read_only_env "a.py"
           text_x2 "x = 1" fs_a (OSError ("[Errno 13] Permission denied: " +:+ quoted "a.py")));
    [split; reflexivity|reflexivity|reflexivity|reflexivity|reflexivity].
Defined.

Lemma apply_changes_no_backup_truncates_witness :
  @apply_changes example_parser disk_full_env "a.py" text_x2 false fs_a =
    (<["a.py" := "x ="]> fs_a, Ok (false, Some (exn_str enospc))).
Proof.
  apply (@apply_changes_no_backup_truncates example_parser disk_full_env "a.py" text_x2 fs_a
           3 enospc); [split; reflexivity|reflexivity].
Defined.

Lemma apply_changes_refines_witness :
  exists fs' r, @apply_changes example_parser reliable_env "a.py" text_x2 true fs_a = (fs', Ok r) /\
    @mutation_contract example_parser fs_a "a.py" text_x2 true fs' r.
Proof.
  apply (@apply_changes_refines example_parser reliable_env "a.py" text_x2 true fs_a).
  - intros src dst. reflexivity.
  - intros e He. vm_compute in He. congruence.
  - intros _. exists "x = 1". reflexivity.
Defined.
