(* ===== verification/Router.v ===== *)
(** * The model adapter interface and the model router

    [AIModel] (core/models/base.py) is an abstract class with two async
    methods; here it is a record of operations over an abstract world [W]
    (whatever the provider calls read and change), each a computation
    [ST W _] that may raise.  The router (core/models/model_router.py)
    keeps [self.models], a dict from a logical model name to an adapter,
    and [route_request] looks the name up and dispatches on the request
    type, passing the keyword arguments on.

    Everything about the router is proved against the interface: for
    every adapter, an unknown name raises [ModelNotFoundError] and an
    unknown request type raises [ValueError] without touching the world
    (so without calling any adapter), and a known name and type run
    exactly the adapter's method.  The registry refines a finite map, so
    registration is last-write-wins. *)

From S2P Require Import Prelude PyDict PyString.
From Stdlib Require QArith_base.

(** A chat message, [Dict[str, str]] with keys [role] and [content]. *)
Abbreviation message := (pydict string string).

(** The keyword arguments that the callers of [route_request] pass:
    [messages] and [code] bind the adapters' positional parameters, the
    others land in their [**kwargs]. *)
Record kwargs := mk_kwargs {
  kw_messages : option (list message);
  kw_code : option string;
  kw_changes : option string;
  kw_model : option string;
  kw_temperature : option QArith_base.Q;
  kw_max_tokens : option Z;
}.

Definition no_kwargs : kwargs := mk_kwargs None None None None None None.

(** [AIModel]: the class name (for error messages) and the two methods.
    [generate_response(messages, **kwargs)] and
    [analyze_code(code, **kwargs)]. *)
Record AIModel (W : Type) := mk_model {
  model_class : string;
  generate_response : list message -> kwargs -> ST W string;
  analyze_code : string -> kwargs -> ST W pyval;
}.
Arguments mk_model {W}.
Arguments model_class {W}.
Arguments generate_response {W}.
Arguments analyze_code {W}.

(** [ModelRouter]: its only attribute [self.models]. *)
Record ModelRouter (W : Type) := mk_router { models : pydict string (AIModel W) }.
Arguments mk_router {W}.
Arguments models {W}.

Section Router.
Context {W : Type}.
Implicit Types (r : ModelRouter W) (m : AIModel W).

(** [ModelRouter()] *)
Definition new_router : ModelRouter W := mk_router [].

(** [register_model(name, model)]: [self.models[name] = model] *)
Definition register_model r (name : string) m : ModelRouter W :=
  mk_router (dict_setitem (models r) name m).

(** [get_model(name)]: [self.models.get(name)] *)
Definition get_model r (name : string) : option (AIModel W) :=
  dict_get (models r) name.

(** [TypeError] for a missing positional argument, as CPython words it. *)
Definition missing_positional m (meth arg : string) : exn :=
  TypeError (model_class m +:+ "." +:+ meth +:+
             "() missing 1 required positional argument: '" +:+ arg +:+ "'").

(** The [**kwargs] the callee receives once [messages] or [code] is bound. *)
Definition kw_without_messages (kw : kwargs) : kwargs :=
  mk_kwargs None (kw_code kw) (kw_changes kw) (kw_model kw) (kw_temperature kw)
    (kw_max_tokens kw).

Definition kw_without_code (kw : kwargs) : kwargs :=
  mk_kwargs (kw_messages kw) None (kw_changes kw) (kw_model kw) (kw_temperature kw)
    (kw_max_tokens kw).

(** A call site that passes [messages=...] or [code=...]. *)
Definition kw_set_messages (kw : kwargs) (msgs : list message) : kwargs :=
  mk_kwargs (Some msgs) (kw_code kw) (kw_changes kw) (kw_model kw) (kw_temperature kw)
    (kw_max_tokens kw).

Definition kw_set_code (kw : kwargs) (code : string) : kwargs :=
  mk_kwargs (kw_messages kw) (Some code) (kw_changes kw) (kw_model kw) (kw_temperature kw)
    (kw_max_tokens kw).

(** [await model.generate_response(...)] with the keyword arguments *)
Definition call_generate_response m (kw : kwargs) : ST W pyval :=
  match kw_messages kw with
  | Some msgs =>
      reply ← generate_response m msgs (kw_without_messages kw);
      mret (PStr reply)
  | None => st_raise (missing_positional m "generate_response" "messages")
  end.

(** [await model.analyze_code(...)] with the keyword arguments *)
Definition call_analyze_code m (kw : kwargs) : ST W pyval :=
  match kw_code kw with
  | Some code => analyze_code m code (kw_without_code kw)
  | None => st_raise (missing_positional m "analyze_code" "code")
  end.

(** [route_request(model_name, request_type, ...)] *)
Definition route_request r (model_name request_type : string) (kw : kwargs)
    : ST W pyval :=
  match get_model r model_name with
  | None => st_raise (ModelNotFoundError ("Model " +:+ model_name +:+ " not found"))
  | Some m =>
      if bool_decide (request_type = "chat") then call_generate_response m kw
      else if bool_decide (request_type = "code_analysis") then call_analyze_code m kw
      else st_raise (ValueError ("Unknown request type: " +:+ request_type))
  end.
End Router.

(** Routers reachable from [ModelRouter()] by registrations. *)
Inductive router_reachable {W} : ModelRouter W -> Prop :=
| reach_new : router_reachable new_router
| reach_register r n m : router_reachable r -> router_reachable (register_model r n m).

Section RouterTheorems.
Context {W : Type}.
Implicit Types (r : ModelRouter W) (m : AIModel W).

Lemma get_model_register r n m n' :
  get_model (register_model r n m) n' = if decide (n' = n) then Some m else get_model r n'.
Proof. apply dict_get_setitem. Qed.

(** The registry is a finite map under [to_map]: registering is
    map insertion and [get_model] is map lookup; so the last
    registration of a name wins and other names are unaffected. *)
Theorem registry_refines_map r n m m' :
  to_map (models (register_model r n m)) = <[n := m]> (to_map (models r)) /\
  (forall n', get_model r n' = to_map (models r) !! n') /\
  get_model (register_model (register_model r n m) n m') n = Some m' /\
  (forall n', n' ≠ n -> get_model (register_model r n m) n' = get_model r n').
Proof.
  split; [apply to_map_setitem|]. split; [intros n'; by rewrite to_map_lookup|].
  split; [apply dict_get_setitem_eq|]. intros n' Hne. by apply dict_get_setitem_ne.
Qed.

(** Registering a name twice is, up to the dict equivalence, the
    same as registering the second adapter once. *)
Theorem register_model_last_write_wins r n m1 m2 :
  models (register_model (register_model r n m1) n m2) ≡ models (register_model r n m2).
Proof. apply dict_setitem_setitem. Qed.

(** Invariant: in every router built by registrations no name is
    bound twice in [self.models]. *)
Theorem router_reachable_wf r : router_reachable r -> dict_wf (models r).
Proof.
  induction 1; [apply NoDup_nil_2|simpl; auto with py].
Qed.

(** C8: an unregistered name fails with [ModelNotFoundError] and leaves
    the world as it was, whatever the request type and arguments: no
    adapter is called. *)
Theorem route_request_model_not_found r n t kw w :
  get_model r n = None ->
  route_request r n t kw w = (w, Err (ModelNotFoundError ("Model " +:+ n +:+ " not found"))).
Proof. intros Hg. unfold route_request. by rewrite Hg. Qed.

(** C9: a registered name with a request type other than [chat] and
    [code_analysis] fails with [ValueError] before any adapter call. *)
Theorem route_request_unknown_type r n t kw w :
  is_Some (get_model r n) -> t ≠ "chat" -> t ≠ "code_analysis" ->
  route_request r n t kw w = (w, Err (ValueError ("Unknown request type: " +:+ t))).
Proof.
  intros [m Hg] Hc Ha. unfold route_request. rewrite Hg.
  by rewrite !bool_decide_eq_false_2.
Qed.

(** A registered name dispatches [chat] to the adapter's
    [generate_response] (its reply as a string) and [code_analysis] to
    its [analyze_code], with the keyword arguments passed on. *)
Theorem route_request_dispatch r n m kw msgs code :
  get_model r n = Some m ->
  route_request r n "chat" (kw_set_messages kw msgs) =
    (reply ← generate_response m msgs (kw_without_messages kw); mret (PStr reply)) /\
  route_request r n "code_analysis" (kw_set_code kw code) =
    analyze_code m code (kw_without_code kw).
Proof. intros Hg. unfold route_request. rewrite Hg. split; reflexivity. Qed.
End RouterTheorems.

(** ** A spy adapter: its world is the log of the calls made to it *)

Definition spy_model : AIModel (list string) :=
  mk_model "SpyModel"
    (fun _ _ log => ("generate_response" :: log, Ok "ok"))
    (fun _ _ log => ("analyze_code" :: log, Ok (PDict []))).

Definition spy_router : ModelRouter (list string) :=
  register_model new_router "claude" spy_model.

Lemma router_reachable_wf_witness : dict_wf (models spy_router).
Proof. apply router_reachable_wf. apply reach_register, reach_new. Defined.

Lemma route_request_model_not_found_witness :
  route_request spy_router "gpt-4" "chat" (kw_set_messages no_kwargs []) [] =
    ([], Err (ModelNotFoundError ("Model " +:+ "gpt-4" +:+ " not found"))).
Proof. apply route_request_model_not_found. reflexivity. Defined.

Lemma route_request_unknown_type_witness :
  route_request spy_router "claude" "summarize" (kw_set_code no_kwargs "x = 1") [] =
    ([], Err (ValueError ("Unknown request type: " +:+ "summarize"))).
Proof.
  apply route_request_unknown_type; [exists spy_model; reflexivity|decide_by_eval|decide_by_eval].
Defined.

Lemma route_request_dispatch_witness :
  route_request spy_router "claude" "chat" (kw_set_messages no_kwargs []) [] =
    (["generate_response"], Ok (PStr "ok")).
Proof.
  rewrite (proj1 (route_request_dispatch spy_router "claude" spy_model no_kwargs [] ""
                    eq_refl)).
  reflexivity.
Defined.
