(* ===== verification/Adapters.v ===== *)
(** * The provider adapters (core/models/openai_model.py, anthropic_model.py)

    Two implementations of the [AIModel] interface of [Router]:
    - [OpenAIModel]: its constructor sets the module-level
      [openai.api_key] (one global shared by every instance), and
      [generate_response] sends the chat messages to
      [openai.ChatCompletion.acreate] with the key read at call time;
    - [AnthropicModel]: its constructor keeps a client built from its own
      key; [generate_response] converts the chat messages to one prompt
      string ([_convert_messages_to_prompt]) and calls
      [client.completion].
    Both [analyze_code] methods build a fixed prompt around the code, call
    [generate_response] with no keyword arguments and turn the reply into
    a value with [eval]; every exception is re-raised as a plain
    [Exception] with a prefix naming the step.

    The world of the adapters is [pworld], the global [openai.api_key].
    The provider SDK calls and [eval] are the parameters [providers]; the
    streaming methods are in [Streaming]. *)

From S2P Require Import Prelude PyDict PyString Router.
From Stdlib Require QArith_base.

(** The module-level state the adapters share: [openai.api_key]. *)
Record pworld := mk_pworld { openai_api_key : option string }.

(** The arguments of [openai.ChatCompletion.acreate]. *)
Record openai_request := mk_oa_req {
  oa_api_key : option string;
  oa_model : string;
  oa_messages : list message;
  oa_temperature : QArith_base.Q;
  oa_max_tokens : Z;
}.

(** The arguments of [anthropic.Client(api_key).completion]. *)
Record anthropic_request := mk_an_req {
  an_api_key : string;
  an_model : string;
  an_prompt : string;
  an_max_tokens_to_sample : Z;
  an_temperature : QArith_base.Q;
}.

(** The external calls: the reply text of each provider or the exception
    its SDK raises, and Python's [eval]. *)
Record providers := mk_providers {
  openai_acreate : openai_request -> res string;
  anthropic_completion : anthropic_request -> res string;
  py_eval : string -> res pyval;
}.

(** [{"role": role, "content": content}] *)
Definition mk_message (role content : string) : message :=
  [("role", role); ("content", content)].


(** [kwargs.get('temperature', 0.7)] *)
Definition default_temperature : QArith_base.Q := QArith_base.Qmake 7 10.

(** A line of the triple-quoted prompts: a newline and eight spaces. *)
Definition indented (s : string) : string := newline +:+ "        " +:+ s.

(** ** OpenAIModel *)

Definition openai_analysis_prompt (code : string) : string :=
  "Analyze the following code and provide insights:" +:+ indented "" +:+ indented code +:+
  indented "" +:+ indented "Please provide:" +:+
  indented "1. Potential issues or bugs" +:+ indented "2. Security concerns" +:+
  indented "3. Performance considerations" +:+ indented "4. Suggested improvements" +:+
  indented "" +:+
  indented "Format the response as a JSON object with these categories as keys.".

Section OpenAI.
Context (prov : providers).

(** [OpenAIModel.__init__]: [openai.api_key = api_key] *)
Definition openai_init (api_key : string) : ST pworld unit :=
  st_modify (fun _ => mk_pworld (Some api_key)).

(** The [acreate] call of [generate_response], with the key the global
    holds at call time and the defaults of [kwargs.get]. *)
Definition openai_request_of (key : option string) (messages : list message) (kw : kwargs)
    : openai_request :=
  mk_oa_req key (opt_default (kw_model kw) "gpt-4") messages
    (opt_default (kw_temperature kw) default_temperature)
    (opt_default (kw_max_tokens kw) 2000%Z).

(** [OpenAIModel.generate_response] *)
Definition openai_generate_response (messages : list message) (kw : kwargs)
    : ST pworld string :=
  fun w =>
    match openai_acreate prov (openai_request_of (openai_api_key w) messages kw) with
    | Ok content => (w, Ok content)
    | Err e => (w, Err (Exception ("OpenAI API error: " +:+ exn_str e)))
    end.

(** [OpenAIModel.analyze_code]: the keyword arguments are not used. *)
Definition openai_analyze_code (code : string) (kw : kwargs) : ST pworld pyval :=
  st_try
    (response ← openai_generate_response
                  [mk_message "system"
                     "You are a code analysis expert. Provide detailed, actionable insights.";
                   mk_message "user" (openai_analysis_prompt code)] no_kwargs;
     st_lift (py_eval prov response))
    (fun e => st_raise (Exception ("Code analysis failed: " +:+ exn_str e))).

Definition OpenAIModel : AIModel pworld :=
  mk_model "OpenAIModel" openai_generate_response openai_analyze_code.

(** [OpenAIModel(api_key)] *)
Definition new_openai_model (api_key : string) : ST pworld (AIModel pworld) :=
  openai_init api_key;; mret OpenAIModel.
End OpenAI.

(** ** AnthropicModel *)

(** The line a message adds to the prompt, by its role; other roles add
    nothing. *)
Definition role_line (role content : string) : option string :=
  if bool_decide (role = "system") then Some ("System: " +:+ content)
  else if bool_decide (role = "user") then Some ("Human: " +:+ content)
  else if bool_decide (role = "assistant") then Some ("Assistant: " +:+ content)
  else None.

(** The loop of [_convert_messages_to_prompt]: [msg['role']] and
    [msg['content']] are read first (a [KeyError] if absent), then a known
    role appends its line and any other role is skipped. *)
Fixpoint convert_messages_loop (messages : list message) (prompt : string) : res string :=
  match messages with
  | [] => Ok prompt
  | msg :: rest =>
      match dict_get msg "role", dict_get msg "content" with
      | None, _ => Err (KeyError "role")
      | Some _, None => Err (KeyError "content")
      | Some role, Some content =>
          convert_messages_loop rest
            (match role_line role content with
             | Some l => prompt +:+ newline +:+ newline +:+ l
             | None => prompt
             end)
      end
  end.

(** [AnthropicModel._convert_messages_to_prompt] *)
Definition convert_messages_to_prompt (messages : list message) : res string :=
  prompt ← convert_messages_loop messages "";
  mret (str_lstrip (prompt +:+ newline +:+ newline +:+ "Assistant:")).

Definition anthropic_analysis_prompt (code : string) : string :=
  "Please analyze this code and provide a detailed report:" +:+ newline +:+
  indented code +:+ newline +:+
  indented "Format your response as a JSON object with these keys:" +:+
  indented "- potential_issues: List of potential bugs or issues" +:+
  indented "- security_concerns: List of security considerations" +:+
  indented "- performance_notes: List of performance-related observations" +:+
  indented "- improvement_suggestions: List of specific improvements" +:+
  indented "" +:+ indented "Be thorough but concise.".

Section Anthropic.
Context (prov : providers) (api_key : string).

(** [AnthropicModel.generate_response]; the conversion is inside the
    [try], so its [KeyError] is wrapped too. *)
Definition anthropic_generate_response (messages : list message) (kw : kwargs)
    : ST pworld string :=
  fun w =>
    match (prompt ← convert_messages_to_prompt messages;
           anthropic_completion prov
             (mk_an_req api_key (opt_default (kw_model kw) "claude-2") prompt
                (opt_default (kw_max_tokens kw) 2000%Z)
                (opt_default (kw_temperature kw) default_temperature))) with
    | Ok completion => (w, Ok completion)
    | Err e => (w, Err (Exception ("Anthropic API error: " +:+ exn_str e)))
    end.

(** [AnthropicModel.analyze_code]: the keyword arguments are not used. *)
Definition anthropic_analyze_code (code : string) (kw : kwargs) : ST pworld pyval :=
  st_try
    (response ← anthropic_generate_response
                  [mk_message "system" "You are an expert code analyzer.";
                   mk_message "user" (anthropic_analysis_prompt code)] no_kwargs;
     st_lift (py_eval prov response))
    (fun e => st_raise (Exception ("Code analysis failed: " +:+ exn_str e))).

(** [AnthropicModel(api_key)] *)
Definition AnthropicModel : AIModel pworld :=
  mk_model "AnthropicModel" anthropic_generate_response anthropic_analyze_code.
End Anthropic.

(** ** Theorems *)

(** The text the prompt gets for a list of (role, content) pairs. *)
Definition prompt_body (l : list (string * string)) : string :=
  foldr (fun '(r, c) acc =>
           match role_line r c with
           | Some line => newline +:+ newline +:+ line +:+ acc
           | None => acc
           end) "" l.

Lemma convert_messages_loop_spec (l : list (string * string)) prompt :
  convert_messages_loop (map (fun '(r, c) => mk_message r c) l) prompt =
  Ok (prompt +:+ prompt_body l).
Proof.
  revert prompt. induction l as [|[r c] l IH]; intros prompt; simpl.
  - by rewrite str_app_nil_r.
  - rewrite IH. destruct (role_line r c); [|done].
    by rewrite !str_app_assoc.
Qed.

(** The Anthropic prompt is the [System:], [Human:] and [Assistant:]
    lines of the messages in order, each after a blank line, then a final
    [Assistant:], with leading whitespace stripped; a message with any
    other role (such as the agent's [error] entries) is dropped without a
    trace. *)
Theorem convert_messages_to_prompt_spec (l : list (string * string)) :
  convert_messages_to_prompt (map (fun '(r, c) => mk_message r c) l) =
    Ok (str_lstrip (prompt_body l +:+ newline +:+ newline +:+ "Assistant:")) /\
  (forall r c, role_line r c = None ->
   convert_messages_to_prompt (map (fun '(r, c) => mk_message r c) ((r, c) :: l)) =
   convert_messages_to_prompt (map (fun '(r, c) => mk_message r c) l)).
Proof.
  unfold convert_messages_to_prompt. st_run. split.
  - rewrite convert_messages_loop_spec. done.
  - intros r c Hr. simpl. rewrite Hr. reflexivity.
Qed.

Section AdapterTheorems.
Context (prov : providers).

(** Scenario D.  When the Anthropic provider call raises [e], a
    [code_analysis] request routed to [claude] fails with an exception
    whose message names the failed step and the provider:
    [Code analysis failed: Anthropic API error: ...], and the world is
    unchanged. *)
Theorem route_claude_provider_failure r key code kw w e :
  (forall req, anthropic_completion prov req = Err e) ->
  route_request (register_model r "claude" (AnthropicModel prov key)) "claude"
    "code_analysis" (kw_set_code kw code) w =
  (w, Err (Exception ("Code analysis failed: " +:+ ("Anthropic API error: " +:+ exn_str e)))).
Proof.
  intros Hfail. unfold route_request. rewrite get_model_register, decide_True by done.
  unfold call_analyze_code. simpl.
  unfold anthropic_analyze_code, anthropic_generate_response, convert_messages_to_prompt.
  st_run.
  rewrite (convert_messages_loop_spec
             [("system", "You are an expert code analyzer.");
              ("user", anthropic_analysis_prompt code)]).
  rewrite Hfail. reflexivity.
Qed.

(** C30: the OpenAI key is one global: after [OpenAIModel(k1)] and then
    [OpenAIModel(k2)], the first instance sends its requests with [k2]. *)
Theorem openai_instances_share_key k1 k2 w msgs kw :
  exists m1 w1 m2 w2,
    new_openai_model prov k1 w = (w1, Ok m1) /\
    new_openai_model prov k2 w1 = (w2, Ok m2) /\
    generate_response m1 msgs kw w2 =
      match openai_acreate prov (openai_request_of (Some k2) msgs kw) with
      | Ok content => (w2, Ok content)
      | Err e => (w2, Err (Exception ("OpenAI API error: " +:+ exn_str e)))
      end.
Proof. do 4 eexists. split; [reflexivity|]. split; reflexivity. Qed.

(** A provider failure and an unparsable reply are the same kind of
    error: both reach the caller as a plain [Exception] with the prefix
    [Code analysis failed: ], and a reply whose [eval] error reads like a
    provider error cannot be told apart from one. *)
Theorem analyze_code_errors_conflated key code w m :
  let msg := "Anthropic API error: " +:+ m in
  let provider_down := mk_providers (openai_acreate prov) (fun _ => Err (Exception m))
                         (py_eval prov) in
  let bad_reply := mk_providers (openai_acreate prov) (fun _ => Ok "{")
                     (fun _ => Err (SyntaxError msg)) in
  anthropic_analyze_code provider_down key code no_kwargs w =
  anthropic_analyze_code bad_reply key code no_kwargs w.
Proof.
  unfold anthropic_analyze_code, anthropic_generate_response, convert_messages_to_prompt.
  st_run. reflexivity.
Qed.
End AdapterTheorems.

Lemma convert_messages_to_prompt_spec_witness :
  convert_messages_to_prompt
    (map (fun '(r, c) => mk_message r c) [("system", "S"); ("error", "E"); ("user", "U")]) =
  Ok ("System: S" +:+ newline +:+ newline +:+ "Human: U" +:+ newline +:+ newline +:+ "Assistant:").
Proof.
  rewrite (proj1 (convert_messages_to_prompt_spec [("system", "S"); ("error", "E"); ("user", "U")])).
  reflexivity.
Defined.

(** Providers that answer an empty JSON object, and [eval] that reads
    it. *)
Definition example_providers : providers :=
  mk_providers (fun _ => Ok "{}") (fun _ => Ok "{}")
    (fun s => if bool_decide (s = "{}") then Ok (PDict [])
              else Err (SyntaxError "invalid syntax (<string>, line 1)")).

(** The Anthropic provider is down: every completion raises. *)
Definition anthropic_down : providers :=
  mk_providers (openai_acreate example_providers)
    (fun _ => Err (Exception "Error code: 529 - overloaded_error"))
    (py_eval example_providers).

Lemma route_claude_provider_failure_witness :
  route_request (register_model new_router "claude" (AnthropicModel anthropic_down "k"))
    "claude" "code_analysis" (kw_set_code no_kwargs "x = 1") (mk_pworld None) =
  (mk_pworld None,
   Err (Exception ("Code analysis failed: " +:+
                   ("Anthropic API error: " +:+ "Error code: 529 - overloaded_error")))).
Proof.
  apply (route_claude_provider_failure anthropic_down new_router "k" "x = 1" no_kwargs
           (mk_pworld None) (Exception "Error code: 529 - overloaded_error")).
  reflexivity.
Defined.
