(* ===== verification/Streaming.v ===== *)
(** * The streaming methods of the adapters ([stream_response])

    [OpenAIModel.stream_response] (openai_model.py, lines 51-66) calls
    [openai.ChatCompletion.acreate(..., stream=True)] and yields, chunk
    by chunk, [chunk.choices[0].delta.content] when it is a non-empty
    string; any exception, of the call or of the iteration, is re-raised
    as [Exception("OpenAI streaming error: ...")].
    [AnthropicModel.stream_response] (anthropic_model.py, lines 70-78)
    awaits [generate_response] and yields its whole reply once.

    An async generator drained by its consumer is a trace: the strings it
    yielded, in order, and how it ended ([gen_run]), after the traces of
    bedrock2.  A stream of the SDK is likewise the chunks it delivered
    and how it ended ([chunk_stream]).  The body runs when the consumer
    first iterates: the world it reads the global [openai.api_key] from
    is the world at that moment.

    The theorems show that the OpenAI generator yields exactly the
    non-empty deltas in order, also when the stream breaks (the consumer
    then holds a prefix of the reply before the exception), and that,
    when the SDK's stream carries the same text as its non-streaming
    call, joining what the generator yields gives [generate_response]'s
    reply. *)

From S2P Require Import Prelude PyDict PyString Router Adapters.

(** A chunk of the stream: [delta.get('content')] of each of its
    [choices]. *)
Record stream_chunk := mk_chunk { chunk_choices : list (option string) }.

(** What iterating [acreate(..., stream=True)] delivers: the chunks, then
    the end of the stream ([None]) or the exception that broke it. *)
Record chunk_stream := mk_stream {
  stream_chunks : list stream_chunk;
  stream_end : option exn;
}.

(** An async generator run to exhaustion: what it yielded, then [Ok tt]
    or the exception it raised. *)
Record gen_run := mk_run {
  yielded : list string;
  gen_result : res unit;
}.

(** [chunk.choices and chunk.choices[0].delta.get('content')]: the text
    yielded for a chunk, if any. *)
Definition chunk_content (c : stream_chunk) : option string :=
  match chunk_choices c with
  | Some s :: _ => if py_truthy (PStr s) then Some s else None
  | _ => None
  end.

(** [async for chunk in stream: if ...: yield ...] *)
Fixpoint stream_loop (chunks : list stream_chunk) : list string :=
  match chunks with
  | [] => []
  | c :: rest =>
      match chunk_content c with
      | Some s => s :: stream_loop rest
      | None => stream_loop rest
      end
  end.

(** [except Exception as e: raise Exception(f"OpenAI streaming error: {str(e)}")] *)
Definition streaming_error (e : exn) : exn :=
  Exception ("OpenAI streaming error: " +:+ exn_str e).

Section OpenAIStream.
(** [openai.ChatCompletion.acreate(..., stream=True)]: the SDK call,
    which may raise before any chunk. *)
Context (openai_stream : openai_request -> res chunk_stream).

(** [OpenAIModel.stream_response(messages, **kwargs)], drained in the
    world [w]. *)
Definition openai_stream_response (messages : list message) (kw : kwargs) (w : pworld)
    : gen_run :=
  match openai_stream (openai_request_of (openai_api_key w) messages kw) with
  | Err e => mk_run [] (Err (streaming_error e))
  | Ok st =>
      mk_run (stream_loop (stream_chunks st))
        (match stream_end st with
         | None => Ok tt
         | Some e => Err (streaming_error e)
         end)
  end.
End OpenAIStream.

(** [AnthropicModel.stream_response(messages, **kwargs)]: no [try]; the
    exception of [generate_response] escapes as it is. *)
Definition anthropic_stream_response (prov : providers) (api_key : string)
    (messages : list message) (kw : kwargs) (w : pworld) : gen_run :=
  match anthropic_generate_response prov api_key messages kw w with
  | (_, Ok response) => mk_run [response] (Ok tt)
  | (_, Err e) => mk_run [] (Err e)
  end.

(** ** What a consumer gets *)

(** [''.join(pieces)]: the text a consumer assembles from the yields. *)
Definition py_join (pieces : list string) : string := foldr (fun s acc => s +:+ acc) "" pieces.

(** The text a chunk carries: the first choice's delta, [""] if none. *)
Definition delta_text (c : stream_chunk) : string :=
  match chunk_choices c with Some s :: _ => s | _ => "" end.

(** A generator refines a call when, run to its end without an
    exception, what it yielded joins to the call's reply, in the same
    world. *)
Definition stream_refines (stream : list message -> kwargs -> pworld -> gen_run)
    (call : list message -> kwargs -> ST pworld string) : Prop :=
  forall msgs kw w ys, stream msgs kw w = mk_run ys (Ok tt) -> call msgs kw w = (w, Ok (py_join ys)).

Lemma py_join_app l1 l2 : py_join (l1 ++ l2) = py_join l1 +:+ py_join l2.
Proof.
  induction l1 as [|s l1 IH]; simpl; [by rewrite str_app_nil_l|]. by rewrite IH, str_app_assoc.
Qed.

Lemma stream_loop_app cs1 cs2 : stream_loop (cs1 ++ cs2) = stream_loop cs1 ++ stream_loop cs2.
Proof. induction cs1 as [|c cs IH]; simpl; [done|]. destruct (chunk_content c); by rewrite IH. Qed.

(** The skipped chunks carry no text: joining the yields is joining
    every delta. *)
Lemma delta_text_content c :
  delta_text c = match chunk_content c with Some s => s | None => "" end.
Proof.
  unfold delta_text, chunk_content. destruct (chunk_choices c) as [|[s|] ?]; [done| |done].
  cbn [py_truthy]. case_bool_decide as Hs; [done|]. by destruct (decide (s = "")) as [->|]; [|tauto].
Qed.

Lemma stream_loop_join cs : py_join (stream_loop cs) = py_join (map delta_text cs).
Proof.
  induction cs as [|c cs IH]; simpl; [done|]. rewrite delta_text_content.
  destruct (chunk_content c); simpl; rewrite IH; [done|by rewrite str_app_nil_l].
Qed.

(** Every piece yielded is a non-empty string. *)
Lemma stream_loop_nonempty cs : Forall (fun s => s <> "") (stream_loop cs).
Proof.
  induction cs as [|c cs IH]; simpl; [constructor|].
  destruct (chunk_content c) as [s|] eqn:Hc; [|done]. constructor; [|done].
  unfold chunk_content in Hc. destruct (chunk_choices c) as [|[s'|] ?]; try done.
  simpl in Hc. case_bool_decide; by simplify_eq.
Qed.

Section StreamTheorems.
Context (prov : providers) (openai_stream : openai_request -> res chunk_stream).

(** The SDK's stream of a request, when it ends normally, carries the
    text its non-streaming call answers. *)
Hypothesis stream_law : forall req cs,
  openai_stream req = Ok (mk_stream cs None) -> openai_acreate prov req = Ok (py_join (map delta_text cs)).

(** C18: the OpenAI generator refines [generate_response].  Streaming
    sends the request [generate_response] sends (the same key read from
    the global, the same defaults of [kwargs.get]); when the SDK's stream
    carries the reply's text, the non-empty deltas the generator yields
    join to exactly the reply [generate_response] returns: skipping the
    chunks with no content or an empty one loses nothing. *)
Theorem openai_stream_refines_generate :
  stream_refines (openai_stream_response openai_stream) (openai_generate_response prov).
Proof.
  intros msgs kw w ys. unfold openai_stream_response, openai_generate_response.
  destruct (openai_stream _) as [[cs [e|]]|e] eqn:Hs; intros [= <-].
  by rewrite (stream_law _ _ Hs), stream_loop_join.
Qed.
End StreamTheorems.

(** C19: a stream that breaks leaves the consumer with a prefix.  When
    the SDK's stream delivers the chunks [cs] and then raises [e], the
    generator has already yielded the non-empty deltas of [cs], in
    order, which begin whatever the unbroken stream [cs ++ rest] would
    have yielded, and only then raises
    [Exception("OpenAI streaming error: ...")]. *)
Theorem openai_stream_break openai_stream msgs kw w cs e rest :
  openai_stream (openai_request_of (openai_api_key w) msgs kw) = Ok (mk_stream cs (Some e)) ->
  let r := openai_stream_response openai_stream msgs kw w in
  gen_result r = Err (streaming_error e) /\
  Forall (fun s => s <> "") (yielded r) /\
  yielded r ++ stream_loop rest = stream_loop (cs ++ rest).
Proof.
  intros Hs. unfold openai_stream_response. rewrite Hs. simpl.
  split_and!; [done|apply stream_loop_nonempty|by rewrite stream_loop_app].
Qed.

(** The Claude generator yields the whole reply once. *)
Lemma anthropic_stream_refines_generate prov api_key :
  stream_refines (anthropic_stream_response prov api_key) (anthropic_generate_response prov api_key).
Proof.
  intros msgs kw w ys. unfold anthropic_stream_response, anthropic_generate_response.
  destruct (_ ≫= _) as [r|e]; intros [= <-]. simpl. by rewrite str_app_nil_r.
Qed.

(** ** Concrete runs

    A stream of ["Hello"] in five chunks: one without choices, one with
    an empty delta and one whose first delta is [None] are skipped. *)

Definition hello_chunks : list stream_chunk :=
  [mk_chunk [Some "Hel"]; mk_chunk []; mk_chunk [Some ""]; mk_chunk [None; Some "x"];
   mk_chunk [Some "lo"]].

Definition hello_providers : providers :=
  mk_providers (fun _ => Ok "Hello") (fun _ => Ok "Hello") (fun _ => Ok PNone).

Definition hello_stream (_ : openai_request) : res chunk_stream := Ok (mk_stream hello_chunks None).

Definition timeout_exn : exn := Exception "Request timed out".

Definition broken_stream (_ : openai_request) : res chunk_stream :=
  Ok (mk_stream [mk_chunk [Some "Hel"]] (Some timeout_exn)).

Lemma openai_stream_refines_generate_witness :
  openai_stream_response hello_stream [] no_kwargs (mk_pworld None) = mk_run ["Hel"; "lo"] (Ok tt) /\
  openai_generate_response hello_providers [] no_kwargs (mk_pworld None) =
    (mk_pworld None, Ok (py_join ["Hel"; "lo"])).
Proof.
  split; [reflexivity|].
  apply (openai_stream_refines_generate hello_providers hello_stream); [|reflexivity].
  intros req cs [= <-]. reflexivity.
Defined.

Lemma openai_stream_break_witness :
  let r := openai_stream_response broken_stream [] no_kwargs (mk_pworld None) in
  gen_result r = Err (streaming_error timeout_exn) /\
  Forall (fun s => s <> "") (yielded r) /\
  yielded r ++ stream_loop (tail hello_chunks) = stream_loop ([mk_chunk [Some "Hel"]] ++ tail hello_chunks).
Proof. apply (openai_stream_break broken_stream [] no_kwargs (mk_pworld None)). reflexivity. Defined.
