(* ===== verification/Improvement.v ===== *)
(** * [CodeImprovement] (improvement.py)

    [suggest_improvements] sends the code in a prompt to the [gpt-4]
    model of the router and returns [json.loads] of the reply; any
    exception (no such model, a provider error, a reply that is not
    JSON) becomes [{"error": "Failed to generate improvements: ..."}].

    [implement_improvements] reads the target file, takes [improvements.get(
    'implementation', {})], parses the original code, passes the tree
    through [_apply_improvements_to_ast] (a placeholder that returns the
    tree unchanged), prints it back with [astor.to_source], runs the
    safety battery of [Safety] on the result, and then writes it with the
    same backup-and-restore step as [apply_changes], all inside one
    [try ... except Exception] that turns any exception into an error
    dict.

    [astor.to_source] is an interface ([PyUnparser]) like the parser.
    The theorems show that the suggestions are never used (two
    suggestion dicts with a non-empty [implementation] give the same run),
    that a successful run writes [to_source(ast.parse(original))] with
    the original in [<path>.bak], that a failed write restores the
    original, and that, unlike in [apply_changes], a failing rename is
    caught and reported as an error dict. *)

From S2P Require Import Prelude PyDict PyString PyJson PyAst Safety FileSys Mutator Router Adapters.

(** [astor.to_source] *)
Class PyUnparser := { to_source : ast -> string }.

(** The dicts [implement_improvements] returns: [{"error": msg}] or
    [{"status": "success", "message": msg, "backup_created": path}]. *)
Inductive improve_result :=
| ImproveError (msg : string)
| ImproveSuccess (message backup_created : string).

Section Implement.
Context `{PyParser} `{PyUnparser} (env : os_env).

(** [_apply_improvements_to_ast]: the placeholder returns the tree. *)
Definition apply_improvements_to_ast (tree : ast) (implementations : pyval) : ast := tree.

(** The write step: [Path(file_path).rename(backup_path)], then
    [try: write; return success] and [except: rename back; return error]. *)
Definition write_improved (file_path modified_code : string) : ST fs_state improve_result :=
  let bak := backup_path file_path in
  fs_rename env file_path bak;;
  st_try
    (fs_write env file_path modified_code;;
     mret (ImproveSuccess "Improvements implemented successfully" bak))
    (fun write_error =>
       fs_rename env bak file_path;;
       mret (ImproveError ("Failed to write improved code: " +:+ exn_str write_error))).

(** [implement_improvements(file_path, improvements)] *)
Definition implement_improvements (file_path : string) (improvements : pyval)
    : ST fs_state improve_result :=
  st_try
    (original_code ← fs_read file_path;
     implementations ← st_lift (py_get improvements "implementation" (PDict []));
     if negb (py_truthy implementations)
     then mret (ImproveError "No implementation details provided")
     else
       tree ← st_lift (ast_parse original_code);
       let modified_code := to_source (apply_improvements_to_ast tree implementations) in
       failed ← st_lift (run_safety_checks safety_checks modified_code);
       match failed with
       | Some r => mret (ImproveError ("Safety check failed: " +:+ r))
       | None => write_improved file_path modified_code
       end)
    (fun e => mret (ImproveError ("Failed to implement improvements: " +:+ exn_str e))).
End Implement.

(** The dict [implement_improvements] returns. *)
Definition improve_result_dict (r : improve_result) : pyval :=
  match r with
  | ImproveError msg => PDict [("error", PStr msg)]
  | ImproveSuccess message backup =>
      PDict [("status", PStr "success"); ("message", PStr message); ("backup_created", PStr backup)]
  end.

(** The prompt of [suggest_improvements]: the f-string of lines 22-38,
    whose continuation lines are indented by eight spaces. *)
Definition suggest_prompt (code : string) : string :=
  "Analyze this Python code and suggest improvements:" +:+ newline +:+
  indented code +:+ newline +:+
  indented "Focus on:" +:+
  indented "1. Code quality and readability" +:+
  indented "2. Performance optimizations" +:+
  indented "3. Security improvements" +:+
  indented "4. Error handling" +:+
  indented "5. Architecture improvements" +:+ newline +:+
  indented "Format your response as a JSON object with these keys:" +:+
  indented "- suggestions: List of specific improvement suggestions" +:+
  indented "- priority: Priority level for each suggestion (high/medium/low)" +:+
  indented "- implementation: Concrete code examples for each suggestion" +:+
  indented "- risks: Potential risks or side effects of each suggestion" +:+
  indented "".

(** The chat request of [suggest_improvements]. *)
Definition suggest_request (code : string) : kwargs :=
  kw_set_messages no_kwargs
    [mk_message "system" "You are a Python code improvement expert.";
     mk_message "user" (suggest_prompt code)].

(** The [except] branch of [suggest_improvements]. *)
Definition failed_suggestions (e : exn) : pyval :=
  PDict [("error", PStr ("Failed to generate improvements: " +:+ exn_str e))].

(** [suggest_improvements(code)]: the routed request and [json.loads]
    of its reply, any exception turned into an error dict. *)
Definition suggest_improvements `{PyJson} {W} (router : ModelRouter W) (code : string)
    : ST W pyval :=
  st_try
    (response ← route_request router "gpt-4" "chat" (suggest_request code);
     st_lift (py_json_loads response))
    (fun e => mret (failed_suggestions e)).

(** [suggest_improvements] never raises: a failed request or an
    unparsable reply is the error dict. *)
Lemma suggest_improvements_run `{PyJson} {W} (r : ModelRouter W) code w :
  suggest_improvements r code w =
    match route_request r "gpt-4" "chat" (suggest_request code) w with
    | (w', Ok response) =>
        (w', Ok (match py_json_loads response with Ok v => v | Err e => failed_suggestions e end))
    | (w', Err e) => (w', Ok (failed_suggestions e))
    end.
Proof.
  unfold suggest_improvements. st_run.
  destruct (route_request _ _ _ _ _) as [w' [resp|e]]; [|done]. by destruct (py_json_loads resp).
Qed.

Section ImplementTheorems.
Context `{PyParser} `{PyUnparser} (env : os_env).

(** The path to the write step: the file is read, [implementation] is
    non-empty, the original parses and the battery passes. *)
Definition reaches_write (fs : fs_state) (p : string) (improvements : pyval)
    (orig : string) (tree : ast) : Prop :=
  fs !! p = Some orig /\
  (exists v, py_get improvements "implementation" (PDict []) = Ok v /\ py_truthy v = true) /\
  ast_parse orig = Ok tree /\
  run_safety_checks safety_checks (to_source tree) = Ok None.

Lemma implement_improvements_write p imp fs orig tree :
  reaches_write fs p imp orig tree ->
  implement_improvements env p imp fs =
  match write_improved env p (to_source tree) fs with
  | (fs', Ok r) => (fs', Ok r)
  | (fs', Err e) => (fs', Ok (ImproveError ("Failed to implement improvements: " +:+ exn_str e)))
  end.
Proof.
  intros (Hp & (v & Hg & Ht) & Hparse & Hchk).
  unfold implement_improvements, fs_read. st_run. rewrite Hp, Hg. cbv beta iota.
  rewrite Ht. cbv beta iota. rewrite Hparse. cbv beta iota.
  unfold apply_improvements_to_ast. rewrite Hchk. reflexivity.
Qed.

(** Suggestions without a (truthy) [implementation] are refused before
    the file is touched. *)
Lemma implement_improvements_no_implementation p imp fs orig v :
  fs !! p = Some orig ->
  py_get imp "implementation" (PDict []) = Ok v -> py_truthy v = false ->
  implement_improvements env p imp fs = (fs, Ok (ImproveError "No implementation details provided")).
Proof.
  intros Hp Hg Ht. unfold implement_improvements, fs_read. st_run. by rewrite Hp, Hg, Ht.
Qed.

(** C31: the suggestions are never used: two suggestion dicts whose
    [implementation] entries are both non-empty give the same run, same
    file system and same result ([_apply_improvements_to_ast] returns the
    tree it is given). *)
Theorem implement_improvements_ignores_suggestions p imp1 imp2 v1 v2 fs :
  py_get imp1 "implementation" (PDict []) = Ok v1 -> py_truthy v1 = true ->
  py_get imp2 "implementation" (PDict []) = Ok v2 -> py_truthy v2 = true ->
  implement_improvements env p imp1 fs = implement_improvements env p imp2 fs.
Proof.
  intros H1 T1 H2 T2. unfold implement_improvements, fs_read. st_run.
  destruct (fs !! p); cbv beta iota; [|reflexivity].
  rewrite H1, H2. cbv beta iota. rewrite T1, T2. reflexivity.
Qed.

(** A successful run writes the printed original tree,
    [to_source(ast.parse(original))], keeps the original in
    [<path>.bak] and reports that backup. *)
Theorem implement_improvements_success p imp fs orig tree :
  reaches_write fs p imp orig tree ->
  env_rename env p (backup_path p) = None -> env_write env p (to_source tree) = WriteOk ->
  implement_improvements env p imp fs =
    (<[p := to_source tree]> (<[backup_path p := orig]> fs),
     Ok (ImproveSuccess "Improvements implemented successfully" (backup_path p))).
Proof.
  intros Hw Hr Hwr. rewrite (implement_improvements_write p imp fs orig tree Hw).
  destruct Hw as (Hp & _).
  unfold write_improved, fs_rename, fs_write. st_run. rewrite Hp, Hr. cbv beta iota.
  rewrite Hwr. cbv beta iota. f_equal. map_solve.
Qed.

(** A failed write after the backup is undone: the original is back
    at the path, no [.bak] remains, and the write error is reported. *)
Theorem implement_improvements_restores p imp fs orig tree e :
  reaches_write fs p imp orig tree ->
  env_rename env p (backup_path p) = None -> env_rename env (backup_path p) p = None ->
  write_failed (env_write env p (to_source tree)) e ->
  implement_improvements env p imp fs =
    (<[p := orig]> (delete (backup_path p) fs),
     Ok (ImproveError ("Failed to write improved code: " +:+ exn_str e))).
Proof.
  intros Hw Hr1 Hr2 Hwr. pose proof (backup_path_ne p).
  rewrite (implement_improvements_write p imp fs orig tree Hw). destruct Hw as (Hp & _).
  unfold write_improved, fs_rename, fs_write. st_run. rewrite Hp, Hr1. cbv beta iota.
  destruct Hwr as [Hwr|[k Hwr]]; rewrite Hwr; cbv beta iota;
    rewrite ?lookup_insert_ne by done; rewrite lookup_insert_eq, Hr2;
    cbv beta iota; f_equal; map_solve.
Qed.

(** C39: a failing restore is reported as an ordinary error dict: the
    target is gone and only [<path>.bak] holds the original, yet the
    result is the same kind of [{"error": ...}] as any other failure. *)
Theorem implement_improvements_restore_failure p imp fs orig tree e msg :
  reaches_write fs p imp orig tree ->
  env_rename env p (backup_path p) = None ->
  env_write env p (to_source tree) = OpenFails e ->
  env_rename env (backup_path p) p = Some msg ->
  implement_improvements env p imp fs =
    (<[backup_path p := orig]> (delete p fs),
     Ok (ImproveError ("Failed to implement improvements: " +:+ msg))).
Proof.
  intros Hw Hr1 Hwr Hr2.
  rewrite (implement_improvements_write p imp fs orig tree Hw). destruct Hw as (Hp & _).
  unfold write_improved, fs_rename, fs_write. st_run. rewrite Hp, Hr1. cbv beta iota.
  rewrite Hwr. cbv beta iota. by rewrite lookup_insert_eq, Hr2.
Qed.
End ImplementTheorems.

(** ** Concrete runs *)

(** A printer for the trees of the examples: the assignment tree prints
    as [x = 1]. *)
Definition example_unparser : PyUnparser := {| to_source _ := text_x1 |}.

Definition suggestion_fstrings : pyval :=
  PDict [("suggestions", PList [PStr "use f-strings"]);
         ("implementation", PStr "replace % formatting by f-strings")].

Definition suggestion_types : pyval :=
  PDict [("implementation", PList [PStr "add type hints"; PStr "use dataclasses"])].

Lemma implement_improvements_ignores_suggestions_witness :
  @implement_improvements example_parser example_unparser reliable_env "a.py" suggestion_fstrings fs_a =
  @implement_improvements example_parser example_unparser reliable_env "a.py" suggestion_types fs_a.
Proof.
  apply (@implement_improvements_ignores_suggestions example_parser example_unparser reliable_env
           "a.py" suggestion_fstrings suggestion_types
           (PStr "replace % formatting by f-strings")
           (PList [PStr "add type hints"; PStr "use dataclasses"]) fs_a);
    reflexivity.
Defined.

Lemma implement_improvements_success_witness :
  @implement_improvements example_parser example_unparser reliable_env "a.py" suggestion_types fs_a =
    (<["a.py" := text_x1]> (<[backup_path "a.py" := "x = 1"]> fs_a),
     Ok (ImproveSuccess "Improvements implemented successfully" (backup_path "a.py"))).
Proof.
  apply (@implement_improvements_success example_parser example_unparser reliable_env
           "a.py" suggestion_types fs_a "x = 1" tree_x2); [|reflexivity|reflexivity].
  split; [reflexivity|]. split; [eexists; split; reflexivity|]. split; reflexivity.
Defined.

Lemma implement_improvements_restores_witness :
  @implement_improvements example_parser example_unparser disk_full_env "a.py" suggestion_types fs_a =
    (<["a.py" := "x = 1"]> (delete (backup_path "a.py") fs_a),
     Ok (ImproveError ("Failed to write improved code: " +:+ exn_str enospc))).
Proof.
  apply (@implement_improvements_restores example_parser example_unparser disk_full_env
           "a.py" suggestion_types fs_a "x = 1" tree_x2 enospc);
    [|reflexivity|reflexivity|right; exists 3; reflexivity].
  split; [reflexivity|]. split; [eexists; split; reflexivity|]. split; reflexivity.
Defined.

Lemma implement_improvements_restore_failure_witness :
  @implement_improvements example_parser example_unparser read_only_env "a.py" suggestion_types fs_a =
    (<[backup_path "a.py" := "x = 1"]> (delete "a.py" fs_a),
     Ok (ImproveError ("Failed to implement improvements: " +:+ "[Errno 13] Permission denied"))).
Proof.
  apply (@implement_improvements_restore_failure example_parser example_unparser read_only_env
           "a.py" suggestion_types fs_a "x = 1" tree_x2
           (OSError ("[Errno 13] Permission denied: " +:+ quoted "a.py")));
    [|reflexivity|reflexivity|reflexivity].
  split; [reflexivity|]. split; [eexists; split; reflexivity|]. split; reflexivity.
Defined.
