(* ===== verification/Agent.v ===== *)
(** * The agent (core/agent/agent.py) and [CodeModifier.analyze_code_changes]

    [Agent] holds the model router and a chat memory, a list of entries
    [{"role", "content", "timestamp"}].  Its methods act on three pieces
    of state at once, gathered in [sys]: the agent object, the world of
    the adapters the router calls, and the file system.  [on_world] and
    [on_fs] run a computation of [Router]/[Adapters] or of
    [FileSys]/[Mutator] on its piece.

    - [process_request]: append the user entry, send the system prompt
      and the last five entries ([self.memory[-5:]]) to the router as a
      chat, and append the reply as an [assistant] entry, or, on any
      exception, an [error] entry whose text is also returned;
    - [analyze_self] / [improve_self]: one [code_analysis] request per
      file of the agent's directory, then one [chat] request per analysis
      without an ["error"];
    - [execute_code_modification]: [analyze_code_changes] (read the file,
      ask [gpt-4] for a [code_analysis] with [changes=...]), then
      [apply_changes] unless the analysis has [critical_issues].

    The loop clock ([asyncio.get_running_loop().time()]) is read from the
    world by [loop_time]; [json.dumps] is the interface [PyJson]; the
    directory listing of [analyze_self] is its argument.  [save_memory]
    and [load_memory] are in [AgentMemory]; the [mkdir] of the
    constructor is not modelled (the file system has no directories). *)

From S2P Require Import Prelude PyDict PyString PyJson PyAst Safety FileSys Mutator Router Adapters.
From Stdlib Require QArith_base.

(** A memory entry [{"role": ..., "content": ..., "timestamp": ...}]. *)
Record mem_entry := mk_entry {
  entry_role : string;
  entry_content : pyval;
  entry_timestamp : QArith_base.Q;
}.

(** [Agent]: the attributes the methods read ([key_manager] is stored
    and never used; [code_modifier] is [CodeModifier(model_router)]). *)
Record Agent (W : Type) := mk_agent {
  model_router : ModelRouter W;
  memory : list mem_entry;
}.
Arguments mk_agent {W}.
Arguments model_router {W}.
Arguments memory {W}.

(** The state the methods act on. *)
Record sys (W : Type) := mk_sys {
  sys_agent : Agent W;
  sys_world : W;
  sys_fs : fs_state;
}.
Arguments mk_sys {W}.
Arguments sys_agent {W}.
Arguments sys_world {W}.
Arguments sys_fs {W}.

(** [seq[-n:]] *)
Definition py_last {A} (n : nat) (l : list A) : list A := drop (length l - n) l.

(** [x in v] for a string [x]: a key of a dict, a substring of a str, an
    element of a list; other values are not iterable. *)
Definition py_in (x : string) (v : pyval) : res bool :=
  match v with
  | PDict d => Ok (dict_contains d x)
  | PStr s => Ok (str_contains x s)
  | PList l => Ok (existsb (fun y => match y with PStr s => bool_decide (s = x) | _ => false end) l)
  | _ => Err (TypeError ("argument of type '" +:+ py_type_name v +:+ "' is not iterable"))
  end.

(** [v[k]] for a string [k]. *)
Definition py_getitem (v : pyval) (k : string) : res pyval :=
  match v with
  | PDict d => match dict_get d k with Some x => Ok x | None => Err (KeyError k) end
  | PStr _ => Err (TypeError "string indices must be integers, not 'str'")
  | PList _ => Err (TypeError "list indices must be integers or slices, not str")
  | _ => Err (TypeError ("'" +:+ py_type_name v +:+ "' object is not subscriptable"))
  end.

(** [Optional[str]] as a value. *)
Definition py_opt_str (o : option string) : pyval :=
  match o with Some s => PStr s | None => PNone end.

(** [{"error": str(e)}] *)
Definition error_dict (e : exn) : pyval := PDict [("error", PStr (exn_str e))].

Definition system_prompt : string :=
  "You are Aiden, a self-improving AI agent. " +:+
  "You can analyze and modify code, including your own implementation.".

(** The content of a memory entry as the chat message carries it.  Every
    entry the agent writes holds a string ([agent_memory_wf]),
    so only the first branch is taken. *)
Definition content_text (v : pyval) : string :=
  match v with PStr s => s | _ => "" end.

(** [{"role": m["role"], "content": m["content"]}] *)
Definition entry_message (m : mem_entry) : message :=
  mk_message (entry_role m) (content_text (entry_content m)).

(** The [messages] of [process_request]: the system prompt, then the
    last five entries of the memory. *)
Definition chat_messages (mem : list mem_entry) : list message :=
  mk_message "system" system_prompt :: map entry_message (py_last 5 mem).

Section AgentOps.
Context `{PyParser} `{PyJson} {W : Type} (loop_time : W -> QArith_base.Q) (env : os_env).

Definition on_world {A} (m : ST W A) : ST (sys W) A :=
  st_focus sys_world (fun w s => mk_sys (sys_agent s) w (sys_fs s)) m.

Definition on_fs {A} (m : ST fs_state A) : ST (sys W) A :=
  st_focus sys_fs (fun f s => mk_sys (sys_agent s) (sys_world s) f) m.

(** [asyncio.get_running_loop().time()] *)
Definition loop_now : ST (sys W) QArith_base.Q := fun s => (s, Ok (loop_time (sys_world s))).

(** [self.memory.append(entry)] *)
Definition memory_append (e : mem_entry) : ST (sys W) unit :=
  st_modify (fun s => mk_sys (mk_agent (model_router (sys_agent s)) (memory (sys_agent s) ++ [e]))
                              (sys_world s) (sys_fs s)).

(** [process_request(message, model)] *)
Definition process_request (user_message model : string) : ST (sys W) pyval :=
  t ← loop_now;
  memory_append (mk_entry "user" (PStr user_message) t);;
  st_try
    (s ← st_get;
     response ← on_world (route_request (model_router (sys_agent s)) model "chat"
                            (kw_set_messages no_kwargs (chat_messages (memory (sys_agent s)))));
     t' ← loop_now;
     memory_append (mk_entry "assistant" response t');;
     mret response)
    (fun e =>
       let error_msg := "Error processing request: " +:+ exn_str e in
       t' ← loop_now;
       memory_append (mk_entry "error" (PStr error_msg) t');;
       mret (PStr error_msg)).

(** A session: the requests of a list, one after the other. *)
Fixpoint process_requests (model : string) (msgs : list string) : ST (sys W) (list pyval) :=
  match msgs with
  | [] => mret []
  | m :: rest => v ← process_request m model; vs ← process_requests model rest; mret (v :: vs)
  end.

(** [CodeModifier.analyze_code_changes(file_path, proposed_changes)]:
    [read_file] and then the routed [code_analysis] request. *)
Definition analyze_code_changes (router : ModelRouter W) (file_path proposed_changes : string)
    : ST (sys W) pyval :=
  current_code ← on_fs (fs_read file_path);
  on_world (route_request router "gpt-4" "code_analysis"
              (mk_kwargs None (Some current_code) (Some proposed_changes) None None None)).

(** [execute_code_modification(file_path, changes)]: [apply_changes] is
    called with its default [backup=True]. *)
Definition execute_code_modification (file_path changes : string)
    : ST (sys W) (pydict string pyval) :=
  st_try
    (s ← st_get;
     analysis ← analyze_code_changes (model_router (sys_agent s)) file_path changes;
     critical ← st_lift (py_get analysis "critical_issues" PNone);
     if negb (py_truthy critical) then
       outcome ← on_fs (apply_changes env file_path changes true);
       match outcome with
       | (true, _) => mret [("status", PStr "success"); ("analysis", analysis)]
       | (false, error) =>
           mret [("status", PStr "error"); ("message", py_opt_str error); ("analysis", analysis)]
       end
     else
       issues ← st_lift (py_getitem analysis "critical_issues");
       mret [("status", PStr "rejected"); ("issues", issues)])
    (fun e => mret [("status", PStr "error"); ("message", PStr (exn_str e))]).

(** The loop of [analyze_self] over the files [Path(__file__).parent.glob("*.py")]
    lists, by name; [file.read_text()] is outside the [try]. *)
Fixpoint analyze_files (agent_dir : string) (names : list string) (analyses : pydict string pyval)
    : ST (sys W) (pydict string pyval) :=
  match names with
  | [] => mret analyses
  | name :: rest =>
      code ← on_fs (fs_read (agent_dir +:+ "/" +:+ name));
      s ← st_get;
      analysis ← st_try (on_world (route_request (model_router (sys_agent s)) "claude"
                                     "code_analysis" (kw_set_code no_kwargs code)))
                        (fun e => mret (error_dict e));
      analyze_files agent_dir rest (dict_setitem analyses name analysis)
  end.

(** [analyze_self()] *)
Definition analyze_self (agent_dir : string) (agent_files : list string)
    : ST (sys W) (pydict string pyval) :=
  analyze_files agent_dir agent_files [].

(** The [messages] of [improve_self] for one file. *)
Definition improve_messages (file_name : string) (analysis : pyval) : list message :=
  [mk_message "system" ("You are an expert code improver. " +:+
                         "Suggest specific, safe improvements to the code.");
   mk_message "user" ("Analysis: " +:+ json_dumps None analysis +:+ newline +:+ newline +:+
                      "Suggest improvements for " +:+ file_name)].

(** The loop of [improve_self] over [analyses.items()]; the test
    ["error" in analysis] is outside the [try]. *)
Fixpoint improve_files (items improvements : pydict string pyval)
    : ST (sys W) (pydict string pyval) :=
  match items with
  | [] => mret improvements
  | (file_name, analysis) :: rest =>
      has_error ← st_lift (py_in "error" analysis);
      if (has_error : bool) then improve_files rest improvements else
      s ← st_get;
      suggestions ← st_try (on_world (route_request (model_router (sys_agent s)) "gpt-4" "chat"
                              (kw_set_messages no_kwargs (improve_messages file_name analysis))))
                           (fun e => mret (error_dict e));
      improve_files rest (dict_setitem improvements file_name suggestions)
  end.

(** [improve_self()] *)
Definition improve_self (agent_dir : string) (agent_files : list string)
    : ST (sys W) (pydict string pyval) :=
  analyses ← analyze_self agent_dir agent_files;
  improve_files analyses [].

End AgentOps.

(** ** [process_request] *)

Section ProcessTheorems.
Context {W : Type} (loop_time : W -> QArith_base.Q).

Lemma py_last_length {A} n (l : list A) : length (py_last n l) = min n (length l).
Proof. unfold py_last. rewrite length_drop. lia. Qed.

Lemma py_last_app {A} n (l1 l2 : list A) :
  length l2 <= n -> py_last n (l1 ++ l2) = py_last (n - length l2) l1 ++ l2.
Proof.
  intros Hn. unfold py_last. rewrite length_app, drop_app_le by lia.
  f_equal. f_equal. lia.
Qed.

(** A [chat] request through the router returns a string: the adapter's
    reply wrapped by [call_generate_response]. *)
Lemma route_chat_str (r : ModelRouter W) n kw w w' v :
  route_request r n "chat" kw w = (w', Ok v) -> exists t, v = PStr t.
Proof.
  unfold route_request. destruct (get_model r n) as [m|]; [|done].
  rewrite bool_decide_eq_true_2 by done. unfold call_generate_response.
  destruct (kw_messages kw); [|done]. st_run.
  destruct (generate_response m _ _ w) as [? []]; intros [= _ <-]; by eexists.
Qed.

Lemma process_request_ok r mem w f msg model w' v :
  let u := mk_entry "user" (PStr msg) (loop_time w) in
  route_request r model "chat" (kw_set_messages no_kwargs (chat_messages (mem ++ [u]))) w = (w', Ok v) ->
  process_request loop_time msg model (mk_sys (mk_agent r mem) w f) =
    (mk_sys (mk_agent r (mem ++ [u; mk_entry "assistant" v (loop_time w')])) w' f, Ok v).
Proof.
  intros u Hr. unfold process_request, loop_now, memory_append, on_world. st_run. simpl.
  fold u. rewrite Hr. simpl. by rewrite <- app_assoc.
Qed.

Lemma process_request_err r mem w f msg model w' e :
  let u := mk_entry "user" (PStr msg) (loop_time w) in
  route_request r model "chat" (kw_set_messages no_kwargs (chat_messages (mem ++ [u]))) w = (w', Err e) ->
  let m := "Error processing request: " +:+ exn_str e in
  process_request loop_time msg model (mk_sys (mk_agent r mem) w f) =
    (mk_sys (mk_agent r (mem ++ [u; mk_entry "error" (PStr m) (loop_time w')])) w' f, Ok (PStr m)).
Proof.
  intros u Hr m. unfold process_request, loop_now, memory_append, on_world. st_run. simpl.
  fold u. rewrite Hr. simpl. by rewrite <- app_assoc.
Qed.

(** [process_request] on both branches.  The user entry is appended
    first and the router receives the system prompt and the last five
    entries, the new one included; a reply is appended as an
    [assistant] entry and returned, an exception [e] of the router or of
    the adapter as an [error] entry whose text
    [Error processing request: str(e)] is returned.  Nothing escapes. *)
Theorem process_request_spec r mem w f msg model :
  let u := mk_entry "user" (PStr msg) (loop_time w) in
  process_request loop_time msg model (mk_sys (mk_agent r mem) w f) =
  match route_request r model "chat" (kw_set_messages no_kwargs (chat_messages (mem ++ [u]))) w with
  | (w', Ok v) => (mk_sys (mk_agent r (mem ++ [u; mk_entry "assistant" v (loop_time w')])) w' f, Ok v)
  | (w', Err e) =>
      let m := "Error processing request: " +:+ exn_str e in
      (mk_sys (mk_agent r (mem ++ [u; mk_entry "error" (PStr m) (loop_time w')])) w' f, Ok (PStr m))
  end.
Proof.
  intros u. destruct (route_request _ _ _ _ _) as [w' []] eqn:Hr.
  - by apply process_request_ok.
  - by apply process_request_err.
Qed.

(** C32: the context window.  With [n] entries in memory before the
    request, the router receives exactly [1 + min 5 (n + 1)] messages:
    the system prompt, the last [min 4 n] earlier entries in order, and
    the new user message last; older entries are never sent. *)
Theorem chat_messages_window mem u :
  chat_messages (mem ++ [u]) =
    mk_message "system" system_prompt :: map entry_message (py_last 4 mem) ++ [entry_message u] /\
  length (chat_messages (mem ++ [u])) = 1 + min 5 (length mem + 1).
Proof.
  unfold chat_messages. rewrite py_last_app by (simpl; lia). split.
  - by rewrite map_app.
  - cbn [length]. rewrite length_map, length_app, py_last_length. cbn [length]. lia.
Qed.
End ProcessTheorems.

(** ** The [error] entries and a provider that checks roles

    The OpenAI chat API accepts the roles [system], [user], [assistant],
    [function] and [tool] only; a request with any other role is refused
    with an error.  [process_request] writes [error] entries into the
    memory and sends the last five entries back, so one failure is
    enough for every later request to fail. *)

(** The provider refuses every request carrying a message of [role]. *)
Definition rejects_role (prov : providers) (role : string) : Prop :=
  forall req, (exists m, m ∈ oa_messages req /\ dict_get m "role" = Some role) ->
  exists e, openai_acreate prov req = Err e.

(** The last entry of the memory is an [error] entry. *)
Definition ends_with_error (mem : list mem_entry) : Prop :=
  exists pre a, mem = pre ++ [a] /\ entry_role a = "error".

(** A value [process_request] returns from its [except] branch. *)
Definition is_error_reply (v : pyval) : Prop :=
  exists t, v = PStr ("Error processing request: " +:+ t).

Section Sticky.
Context (loop_time : pworld -> QArith_base.Q) (prov : providers).

Lemma route_openai_chat r model kw msgs w :
  get_model r model = Some (OpenAIModel prov) ->
  route_request r model "chat" (kw_set_messages kw msgs) w =
    match openai_acreate prov (openai_request_of (openai_api_key w) msgs (kw_without_messages kw)) with
    | Ok c => (w, Ok (PStr c))
    | Err e => (w, Err (Exception ("OpenAI API error: " +:+ exn_str e)))
    end.
Proof.
  intros Hg. unfold route_request. rewrite Hg, bool_decide_eq_true_2 by done.
  unfold call_generate_response. simpl. unfold openai_generate_response. st_run.
  by destruct (openai_acreate _ _).
Qed.

(** The entry before the new user message is among those sent. *)
Lemma chat_messages_prev pre a u :
  entry_message a ∈ chat_messages ((pre ++ [a]) ++ [u]).
Proof.
  unfold chat_messages. rewrite <- app_assoc, py_last_app by (simpl; lia).
  apply elem_of_cons. right. apply list_elem_of_fmap. exists a.
  split; [done|]. apply elem_of_app. right. by left.
Qed.

Lemma process_request_sticky_step r model msg mem w f :
  rejects_role prov "error" -> get_model r model = Some (OpenAIModel prov) ->
  ends_with_error mem ->
  exists mem' v, process_request loop_time msg model (mk_sys (mk_agent r mem) w f) =
    (mk_sys (mk_agent r mem') w f, Ok v) /\ is_error_reply v /\ ends_with_error mem'.
Proof.
  intros Hrej Hg (pre & a & -> & Ha).
  set (u := mk_entry "user" (PStr msg) (loop_time w)).
  destruct (Hrej (openai_request_of (openai_api_key w) (chat_messages ((pre ++ [a]) ++ [u]))
                    (kw_without_messages no_kwargs))) as [e He].
  { eexists. split; [apply chat_messages_prev|]. simpl. by rewrite Ha. }
  eexists _, _. split.
  { apply process_request_err. rewrite route_openai_chat by done. unfold u in He. by rewrite He. }
  split; [by eexists|]. eexists ((pre ++ [a]) ++ [u]), _. split; [by rewrite <- (app_assoc _ [u])|done].
Qed.

(** C33: errors are sticky.  When the model is served by [OpenAIModel]
    and the provider refuses the role [error], then once the last memory
    entry is an [error] entry (after any single failed request, such as
    a timeout), every later request of the session fails too, whatever
    its text: the refused [error] entry is always within the last five
    entries sent, and each failure appends a new one. *)
Theorem process_requests_sticky_error r model msgs mem w f :
  rejects_role prov "error" -> get_model r model = Some (OpenAIModel prov) ->
  ends_with_error mem ->
  exists mem' vs, process_requests loop_time model msgs (mk_sys (mk_agent r mem) w f) =
    (mk_sys (mk_agent r mem') w f, Ok vs) /\
    length vs = length msgs /\ Forall is_error_reply vs.
Proof.
  intros Hrej Hg. revert mem. induction msgs as [|msg msgs IH]; intros mem Hmem.
  - by exists mem, [].
  - destruct (process_request_sticky_step r model msg mem w f Hrej Hg Hmem)
      as (mem1 & v & Hstep & Hv & Hmem1).
    destruct (IH mem1 Hmem1) as (mem' & vs & Hrest & Hlen & Hall).
    exists mem', (v :: vs). simpl. st_run. rewrite Hstep, Hrest.
    split; [done|]. split; [simpl; lia|by constructor].
Qed.
End Sticky.

(** ** The memory invariant *)

(** A computation that leaves the agent object (its router and memory)
    as it is. *)
Definition keeps_agent {W A} (m : ST (sys W) A) : Prop :=
  forall s, sys_agent (m s).1 = sys_agent s.

Section KeepsAgent.
Context {W : Type}.

Lemma keeps_agent_ret {A} (a : A) : keeps_agent (W:=W) (mret a).
Proof. by intros s. Qed.

Lemma keeps_agent_bind {A B} (m : ST (sys W) A) (k : A -> ST (sys W) B) :
  keeps_agent m -> (forall a, keeps_agent (k a)) -> keeps_agent (x ← m; k x).
Proof.
  intros Hm Hk s. st_run. specialize (Hm s). destruct (m s) as [s' []]; simpl in *; [|done].
  by rewrite Hk.
Qed.

Lemma keeps_agent_try {A} (m : ST (sys W) A) h :
  keeps_agent m -> (forall e, keeps_agent (h e)) -> keeps_agent (st_try m h).
Proof.
  intros Hm Hh s. unfold st_try. specialize (Hm s).
  destruct (m s) as [s' []]; simpl in *; [done|]. by rewrite Hh.
Qed.

Lemma keeps_agent_on_world {A} (m : ST W A) : keeps_agent (on_world m).
Proof. intros s. unfold on_world, st_focus. by destruct (m _). Qed.

Lemma keeps_agent_on_fs {A} (m : ST fs_state A) : keeps_agent (W:=W) (on_fs m).
Proof. intros s. unfold on_fs, st_focus. by destruct (m _). Qed.

Lemma keeps_agent_get : keeps_agent (W:=W) st_get.
Proof. by intros s. Qed.

Lemma keeps_agent_lift {A} (r : res A) : keeps_agent (W:=W) (st_lift r).
Proof. by intros s. Qed.
End KeepsAgent.

#[export] Hint Resolve keeps_agent_ret keeps_agent_on_world keeps_agent_on_fs
  keeps_agent_get keeps_agent_lift : py.

Ltac keeps_agent_solve :=
  repeat first
    [ progress auto with py
    | apply keeps_agent_bind; [|intros ?]
    | apply keeps_agent_try; [|intros ?]
    | match goal with
      | |- keeps_agent (match ?x with _ => _ end) => destruct x
      | |- keeps_agent (if ?b then _ else _) => destruct b
      end ].

Section KeepsAgentOps.
Context `{PyParser} `{PyJson} {W : Type} (env : os_env).

Lemma execute_code_modification_keeps_agent p c :
  keeps_agent (W:=W) (execute_code_modification env p c).
Proof. unfold execute_code_modification, analyze_code_changes. keeps_agent_solve. Qed.

Lemma analyze_files_keeps_agent dir names acc : keeps_agent (W:=W) (analyze_files dir names acc).
Proof.
  revert acc. induction names as [|n names IH]; intros acc; simpl; keeps_agent_solve.
Qed.

Lemma improve_files_keeps_agent items acc : keeps_agent (W:=W) (improve_files items acc).
Proof.
  revert acc. induction items as [|[n a] items IH]; intros acc; simpl; keeps_agent_solve.
Qed.

Lemma improve_self_keeps_agent dir files : keeps_agent (W:=W) (improve_self dir files).
Proof.
  unfold improve_self, analyze_self. keeps_agent_solve;
    auto using analyze_files_keeps_agent, improve_files_keeps_agent.
Qed.
End KeepsAgentOps.

(** The memory the agent writes: pairs of a [user] entry and an
    [assistant] or [error] entry, every content a string. *)
Inductive memory_wf : list mem_entry -> Prop :=
| mwf_nil : memory_wf []
| mwf_pair mem u a t1 t2 :
    memory_wf mem -> entry_role u = "user" ->
    entry_role a = "assistant" \/ entry_role a = "error" ->
    entry_content u = PStr t1 -> entry_content a = PStr t2 ->
    memory_wf (mem ++ [u; a]).

Section Reachable.
Context `{PyParser} `{PyJson} {W : Type} (loop_time : W -> QArith_base.Q) (env : os_env).

(** One call of a public method of [Agent] that acts on [sys], run to
    its end before the next call starts.  Calls that overlap at their
    [await] are the subject of [Concurrency]; [save_memory] changes only
    the file system, and [load_memory] acts on the untyped memory of
    [AgentMemory.mem_store], so neither is a step here. *)
Inductive agent_step : sys W -> sys W -> Prop :=
| step_process msg model s s' v :
    process_request loop_time msg model s = (s', v) -> agent_step s s'
| step_execute p c s s' d :
    execute_code_modification env p c s = (s', d) -> agent_step s s'
| step_analyze dir files s s' d :
    analyze_self dir files s = (s', d) -> agent_step s s'
| step_improve dir files s s' d :
    improve_self dir files s = (s', d) -> agent_step s s'.

(** The states an agent reaches from [Agent(...)], whose memory is
    empty, by any sequence of these calls, one after the other. *)
Inductive agent_reachable : sys W -> Prop :=
| reach_init r w f : agent_reachable (mk_sys (mk_agent r []) w f)
| reach_step s s' : agent_reachable s -> agent_step s s' -> agent_reachable s'.

Lemma process_request_memory_wf msg model s s' v :
  memory_wf (memory (sys_agent s)) -> process_request loop_time msg model s = (s', v) ->
  memory_wf (memory (sys_agent s')).
Proof.
  destruct s as [[r mem] w f]. simpl. intros Hwf Hp.
  destruct (route_request r model "chat" (kw_set_messages no_kwargs
              (chat_messages (mem ++ [mk_entry "user" (PStr msg) (loop_time w)]))) w)
    as [w' [v'|e]] eqn:Hr.
  - rewrite (process_request_ok _ _ _ _ _ _ _ _ _ Hr) in Hp. injection Hp as <- _. simpl.
    destruct (route_chat_str _ _ _ _ _ _ Hr) as [t ->].
    eapply mwf_pair; eauto.
  - rewrite (process_request_err _ _ _ _ _ _ _ _ _ Hr) in Hp. injection Hp as <- _. simpl.
    eapply mwf_pair; eauto.
Qed.

Lemma keeps_agent_step_eq {A} (m : ST (sys W) A) s s' v :
  keeps_agent m -> m s = (s', v) -> sys_agent s' = sys_agent s.
Proof. intros Hk Hm. specialize (Hk s). by rewrite Hm in Hk. Qed.

(** C34: invariant of sequential use: in every state reached from
    [Agent(...)] by calls of [process_request],
    [execute_code_modification], [analyze_self] and [improve_self], each
    run to its end before the next starts, the memory is a sequence of
    pairs, a [user] entry followed by an [assistant] or an [error] entry,
    and every content is a string (so [content_text] never takes its
    default branch).  The three other methods leave the memory unchanged.
    The invariant does not survive two requests in flight at once (see
    [Concurrency]) nor a [load_memory], which assigns any JSON value. *)
Theorem agent_memory_wf s :
  agent_reachable s -> memory_wf (memory (sys_agent s)).
Proof.
  induction 1 as [r w f|s s' _ IH Hstep]; [constructor|].
  destruct Hstep as [? ? ? ? ? Hs|? ? ? ? ? Hs|? ? ? ? ? Hs|? ? ? ? ? Hs].
  - by eapply process_request_memory_wf.
  - by rewrite (keeps_agent_step_eq _ _ _ _ (execute_code_modification_keeps_agent env _ _) Hs).
  - by rewrite (keeps_agent_step_eq _ _ _ _ (analyze_files_keeps_agent _ _ _) Hs).
  - by rewrite (keeps_agent_step_eq _ _ _ _ (improve_self_keeps_agent _ _) Hs).
Qed.
End Reachable.

(** ** [execute_code_modification] *)

Lemma py_get_truthy_getitem analysis k crit :
  py_get analysis k PNone = Ok crit -> py_truthy crit = true -> py_getitem analysis k = Ok crit.
Proof.
  destruct analysis; simpl; try discriminate. intros [= <-].
  by destruct (dict_get _ k).
Qed.

Section ExecuteTheorems.
Context `{PyParser} {W : Type} (env : os_env).
Implicit Types (r : ModelRouter W) (w : W).

(** The analysis request of [execute_code_modification]. *)
Definition analysis_kwargs (code changes : string) : kwargs :=
  mk_kwargs None (Some code) (Some changes) None None None.

Lemma execute_code_modification_apply r mem w f p c code w' analysis crit :
  f !! p = Some code ->
  route_request r "gpt-4" "code_analysis" (analysis_kwargs code c) w = (w', Ok analysis) ->
  py_get analysis "critical_issues" PNone = Ok crit -> py_truthy crit = false ->
  execute_code_modification env p c (mk_sys (mk_agent r mem) w f) =
  match apply_changes env p c true f with
  | (f', Ok (true, _)) =>
      (mk_sys (mk_agent r mem) w' f', Ok [("status", PStr "success"); ("analysis", analysis)])
  | (f', Ok (false, error)) =>
      (mk_sys (mk_agent r mem) w' f',
       Ok [("status", PStr "error"); ("message", py_opt_str error); ("analysis", analysis)])
  | (f', Err e) => (mk_sys (mk_agent r mem) w' f', Ok [("status", PStr "error"); ("message", PStr (exn_str e))])
  end.
Proof.
  intros Hp Hr Hg Ht. unfold execute_code_modification, analyze_code_changes, on_fs, on_world, fs_read.
  st_run. simpl. rewrite Hp. simpl. unfold analysis_kwargs in Hr. rewrite Hr. simpl.
  rewrite Hg, Ht. simpl. by destruct (apply_changes env p c true f) as [f' [[[] ?]|e]].
Qed.

(** A rejected modification touches nothing.  When the analysis
    of the current file has truthy [critical_issues], the result is
    [{"status": "rejected", "issues": ...}] with those issues and the
    file system is exactly as before: no backup, no write. *)
Theorem execute_code_modification_rejects r mem w f p c code w' analysis crit :
  f !! p = Some code ->
  route_request r "gpt-4" "code_analysis" (analysis_kwargs code c) w = (w', Ok analysis) ->
  py_get analysis "critical_issues" PNone = Ok crit -> py_truthy crit = true ->
  execute_code_modification env p c (mk_sys (mk_agent r mem) w f) =
    (mk_sys (mk_agent r mem) w' f, Ok [("status", PStr "rejected"); ("issues", crit)]).
Proof.
  intros Hp Hr Hg Ht. unfold execute_code_modification, analyze_code_changes, on_fs, on_world, fs_read.
  st_run. simpl. rewrite Hp. simpl. unfold analysis_kwargs in Hr. rewrite Hr. simpl.
  rewrite Hg, Ht. simpl. by rewrite (py_get_truthy_getitem _ _ _ Hg Ht).
Qed.

(** An accepted modification is applied with a backup.  When the
    analysis has no [critical_issues], the text passes both validations,
    and the rename and the write succeed, the file holds the new text,
    [<path>.bak] holds the old one, and the result is
    [{"status": "success", "analysis": ...}]. *)
Theorem execute_code_modification_success r mem w f p c old w' analysis crit :
  checks_pass c -> f !! p = Some old ->
  route_request r "gpt-4" "code_analysis" (analysis_kwargs old c) w = (w', Ok analysis) ->
  py_get analysis "critical_issues" PNone = Ok crit -> py_truthy crit = false ->
  env_rename env p (backup_path p) = None -> env_write env p c = WriteOk ->
  execute_code_modification env p c (mk_sys (mk_agent r mem) w f) =
    (mk_sys (mk_agent r mem) w' (<[p := c]> (<[backup_path p := old]> f)),
     Ok [("status", PStr "success"); ("analysis", analysis)]).
Proof.
  intros Hc Hp Hr Hg Ht Hren Hw.
  rewrite (execute_code_modification_apply r mem w f p c old w' analysis crit) by done.
  by rewrite apply_changes_checked, (write_with_backup_success env p c old) by done.
Qed.

(** Nothing escapes [execute_code_modification]: from every state
    it returns a dict, and when the file does not exist the
    [FileNotFoundError] of [read_file] becomes
    [{"status": "error", "message": ...}] before any model is asked. *)
Theorem execute_code_modification_total r mem w f p c :
  (exists s' d, execute_code_modification env p c (mk_sys (mk_agent r mem) w f) = (s', Ok d)) /\
  (f !! p = None ->
   execute_code_modification env p c (mk_sys (mk_agent r mem) w f) =
     (mk_sys (mk_agent r mem) w f,
      Ok [("status", PStr "error"); ("message", PStr (errno2 (quoted p)))])).
Proof.
  split.
  - unfold execute_code_modification, st_try.
    match goal with |- context [match ?m ?s with _ => _ end] => destruct (m s) as [s' [d|e]] end;
      by do 2 eexists.
  - intros Hp. unfold execute_code_modification, analyze_code_changes, on_fs, fs_read.
    st_run. simpl. by rewrite Hp.
Qed.
End ExecuteTheorems.

(** The proposed changes never reach the analysis.
    [analyze_code_changes] passes them as [changes=...], but both
    adapters' [analyze_code] ignore their keyword arguments: when
    [gpt-4] is served by [OpenAIModel] or [AnthropicModel], the analysis,
    and so the decision of [execute_code_modification] to reject, is the
    same for any two proposed changes. *)
Theorem analyze_code_changes_ignores_changes prov key r p c1 c2 (s : sys pworld) :
  get_model r "gpt-4" = Some (OpenAIModel prov) \/
  get_model r "gpt-4" = Some (AnthropicModel prov key) ->
  analyze_code_changes r p c1 s = analyze_code_changes r p c2 s.
Proof.
  intros Hg. unfold analyze_code_changes, on_fs, on_world, fs_read. st_run.
  destruct (sys_fs s !! p); [|done]. simpl. unfold route_request.
  destruct Hg as [-> | ->]; reflexivity.
Qed.

(** ** [improve_self] *)

Section ImproveTheorems.
Context `{PyJson} {W : Type}.

(** C35: the test ["error" in analysis] assumes a dict.  An analysis that
    is a string mentioning [error] (a reply such as ["no error
    handling"] that [eval] read as a string) is skipped like a failed
    analysis; and an analysis that is [None], a bool or an int makes
    [improve_self] raise [TypeError] outside the [try], after the
    analyses skipped before it, so no improvement is returned at all. *)
Theorem improve_files_error_test (pre rest : pydict string pyval) name v t acc (s : sys W) :
  (str_contains "error" t = true ->
   improve_files ((name, PStr t) :: rest) acc s = improve_files rest acc s) /\
  ((v = PNone \/ (exists b, v = PBool b) \/ (exists z, v = PInt z)) ->
   Forall (fun it => py_in "error" it.2 = Ok true) pre ->
   improve_files (pre ++ (name, v) :: rest) acc s =
     (s, Err (TypeError ("argument of type '" +:+ py_type_name v +:+ "' is not iterable")))).
Proof.
  split.
  - intros Ht. simpl. st_run. by rewrite Ht.
  - intros Hv Hpre. induction Hpre as [|[n a] pre Ha _ IH]; simpl in *.
    + st_run. by destruct Hv as [->|[[b ->]|[z ->]]].
    + st_run. rewrite Ha. exact IH.
Qed.
End ImproveTheorems.

(** ** Concrete runs *)

(** A clock that reads zero, and a [json.dumps] of the examples. *)
Definition zero_clock : pworld -> QArith_base.Q := fun _ => QArith_base.inject_Z 0.

Definition example_json : PyJson :=
  {| json_dumps _ _ := "{}"; json_loads _ := Ok (PDict []) |}.

(** An OpenAI endpoint that refuses the role [error], as the chat API
    does, and answers [Hello] otherwise. *)
Definition strict_openai : providers :=
  mk_providers
    (fun req => if existsb (fun m => bool_decide (dict_get m "role" = Some "error")) (oa_messages req)
                then Err (Exception "Error code: 400 - Invalid value: 'error'")
                else Ok "Hello")
    (fun _ => Ok "{}") (py_eval example_providers).

Lemma strict_openai_rejects_error : rejects_role strict_openai "error".
Proof.
  intros req (m & Hm & Hr). simpl. eexists.
  replace (existsb _ _) with true; [reflexivity|]. symmetry. apply existsb_exists.
  exists m. split; [by apply list_elem_of_In|]. by apply bool_decide_eq_true_2.
Qed.

Definition agent_router : ModelRouter pworld :=
  register_model new_router "gpt-4" (OpenAIModel strict_openai).

(** The memory after one request that timed out. *)
Definition timeout_memory : list mem_entry :=
  [mk_entry "user" (PStr "hi") (QArith_base.inject_Z 0);
   mk_entry "error" (PStr "Error processing request: Request timed out") (QArith_base.inject_Z 0)].

Lemma process_requests_sticky_error_witness :
  exists mem' vs,
    process_requests zero_clock "gpt-4" ["again"; "hello?"]
      (mk_sys (mk_agent agent_router timeout_memory) (mk_pworld None) ∅) =
      (mk_sys (mk_agent agent_router mem') (mk_pworld None) ∅, Ok vs) /\
    length vs = length ["again"; "hello?"] /\ Forall is_error_reply vs.
Proof.
  apply (process_requests_sticky_error zero_clock strict_openai agent_router "gpt-4"
           ["again"; "hello?"] timeout_memory (mk_pworld None) ∅).
  - exact strict_openai_rejects_error.
  - reflexivity.
  - exists [mk_entry "user" (PStr "hi") (QArith_base.inject_Z 0)], (mk_entry "error"
      (PStr "Error processing request: Request timed out") (QArith_base.inject_Z 0)).
    split; reflexivity.
Defined.

Lemma agent_memory_wf_witness :
  memory_wf (memory (sys_agent
    (process_request zero_clock "hi" "gpt-4"
       (mk_sys (mk_agent agent_router []) (mk_pworld None) ∅)).1)).
Proof.
  apply (@agent_memory_wf example_parser example_json pworld zero_clock reliable_env).
  eapply reach_step; [apply reach_init|]. eapply step_process. apply surjective_pairing.
Defined.

(** A [gpt-4] that flags every file, and one that flags none. *)
Definition critic_model : AIModel pworld :=
  mk_model "CriticModel" (fun _ _ w => (w, Ok "ok"))
    (fun _ _ w => (w, Ok (PDict [("critical_issues", PList [PStr "uses eval"])]))).

Definition lenient_model : AIModel pworld :=
  mk_model "LenientModel" (fun _ _ w => (w, Ok "ok")) (fun _ _ w => (w, Ok (PDict []))).

Lemma execute_code_modification_rejects_witness :
  @execute_code_modification example_parser pworld reliable_env "a.py" text_x2
    (mk_sys (mk_agent (register_model new_router "gpt-4" critic_model) []) (mk_pworld None) fs_a) =
  (mk_sys (mk_agent (register_model new_router "gpt-4" critic_model) []) (mk_pworld None) fs_a,
   Ok [("status", PStr "rejected"); ("issues", PList [PStr "uses eval"])]).
Proof.
  apply (@execute_code_modification_rejects example_parser pworld reliable_env
           (register_model new_router "gpt-4" critic_model) [] (mk_pworld None) fs_a "a.py"
           text_x2 "x = 1" (mk_pworld None) (PDict [("critical_issues", PList [PStr "uses eval"])]));
    reflexivity.
Defined.

Lemma execute_code_modification_success_witness :
  @execute_code_modification example_parser pworld reliable_env "a.py" text_x2
    (mk_sys (mk_agent (register_model new_router "gpt-4" lenient_model) []) (mk_pworld None) fs_a) =
  (mk_sys (mk_agent (register_model new_router "gpt-4" lenient_model) []) (mk_pworld None)
     (<["a.py" := text_x2]> (<[backup_path "a.py" := "x = 1"]> fs_a)),
   Ok [("status", PStr "success"); ("analysis", PDict [])]).
Proof.
  apply (@execute_code_modification_success example_parser pworld reliable_env
           (register_model new_router "gpt-4" lenient_model) [] (mk_pworld None) fs_a "a.py"
           text_x2 "x = 1" (mk_pworld None) (PDict []) PNone);
    [split; reflexivity|reflexivity|reflexivity|reflexivity|reflexivity|reflexivity|reflexivity].
Defined.

Lemma execute_code_modification_total_witness :
  @execute_code_modification example_parser pworld reliable_env "new.py" text_x2
    (mk_sys (mk_agent agent_router []) (mk_pworld None) fs_a) =
  (mk_sys (mk_agent agent_router []) (mk_pworld None) fs_a,
   Ok [("status", PStr "error"); ("message", PStr (errno2 (quoted "new.py")))]).
Proof.
  apply (proj2 (@execute_code_modification_total example_parser pworld reliable_env
                  agent_router [] (mk_pworld None) fs_a "new.py" text_x2)).
  reflexivity.
Defined.

Lemma analyze_code_changes_ignores_changes_witness :
  analyze_code_changes agent_router "a.py" text_x2
    (mk_sys (mk_agent agent_router []) (mk_pworld None) fs_a) =
  analyze_code_changes agent_router "a.py" text_os_system
    (mk_sys (mk_agent agent_router []) (mk_pworld None) fs_a).
Proof.
  apply (analyze_code_changes_ignores_changes strict_openai "k"). left. reflexivity.
Defined.

Lemma improve_files_error_test_witness :
  @improve_files example_json pworld [("agent.py", PStr "no error handling issues")] []
    (mk_sys (mk_agent agent_router []) (mk_pworld None) fs_a) =
  @improve_files example_json pworld [] []
    (mk_sys (mk_agent agent_router []) (mk_pworld None) fs_a) /\
  @improve_files example_json pworld
    [("modifier.py", error_dict (Exception "overloaded")); ("agent.py", PInt 42);
     ("learning.py", PDict [])] []
    (mk_sys (mk_agent agent_router []) (mk_pworld None) fs_a) =
  (mk_sys (mk_agent agent_router []) (mk_pworld None) fs_a,
   Err (TypeError ("argument of type '" +:+ py_type_name (PInt 42) +:+ "' is not iterable"))).
Proof.
  split.
  - apply (proj1 (improve_files_error_test (W:=pworld) [] [] "agent.py" PNone
                    "no error handling issues" [] _)). reflexivity.
  - apply (proj2 (improve_files_error_test (W:=pworld) [("modifier.py", error_dict (Exception "overloaded"))]
                    [("learning.py", PDict [])] "agent.py" (PInt 42) "" [] _)).
    + right. right. by exists 42%Z.
    + repeat constructor.
Defined.
