(* ===== verification/Concurrency.v ===== *)
(** * Concurrent chat requests (core/agent/agent.py, [process_request])

    FastAPI runs the [async] handlers on one event loop; a coroutine
    runs without interruption until it awaits.  [process_request]
    appends the user entry and builds the messages, then awaits the
    router (which awaits the provider), and only when the reply comes
    back appends the [assistant] or [error] entry.  The method is thus
    two atomic steps around its [await]: [pr_start] and [pr_finish],
    whose sequential composition is [process_request]
    ([process_request_split]).  Several requests in flight are explicit
    sequences of these steps.

    The theorem shows that two requests interleaved at their [await]
    leave the memory as [user, user, reply, reply]: the second request
    was sent the first message without its answer, and the memory no
    longer alternates user and reply entries, the invariant
    [agent_memory_wf] of sequential requests. *)

From S2P Require Import Prelude PyDict PyString PyJson Router Adapters Agent.
From Stdlib Require QArith_base.

(** A request suspended at its [await]: the model it asked and the
    messages it sent. *)
Record pending := mk_pending { pend_model : string; pend_messages : list message }.

Section Steps.
Context {W : Type} (loop_time : W -> QArith_base.Q).

(** Lines 23-40 up to the [await]: append the user entry and build the
    messages from the last five entries. *)
Definition pr_start (user_message model : string) : ST (sys W) pending :=
  t ← loop_now loop_time;
  memory_append (mk_entry "user" (PStr user_message) t);;
  s ← st_get;
  mret (mk_pending model (chat_messages (memory (sys_agent s)))).

(** Lines 30-58 from the [await] on: the reply or the exception, and
    the entry recording it. *)
Definition pr_finish (p : pending) : ST (sys W) pyval :=
  st_try
    (s ← st_get;
     response ← on_world (route_request (model_router (sys_agent s)) (pend_model p) "chat"
                            (kw_set_messages no_kwargs (pend_messages p)));
     t' ← loop_now loop_time;
     memory_append (mk_entry "assistant" response t');;
     mret response)
    (fun e =>
       let error_msg := "Error processing request: " +:+ exn_str e in
       t' ← loop_now loop_time;
       memory_append (mk_entry "error" (PStr error_msg) t');;
       mret (PStr error_msg)).

(** Two requests in flight: both reach their [await], then the first
    and the second resume. *)
Definition two_interleaved (msg1 msg2 model : string) : ST (sys W) (pyval * pyval) :=
  p1 ← pr_start msg1 model;
  p2 ← pr_start msg2 model;
  v1 ← pr_finish p1;
  v2 ← pr_finish p2;
  mret (v1, v2).
End Steps.

(** ** The steps of one request *)

(** Case on the outcome of the routed call in the goal. *)
Ltac destruct_route :=
  match goal with
  | |- context [route_request ?r ?n ?t ?kw ?w] => destruct (route_request r n t kw w) as [?w' [?v|?e]]
  end.

Section StepTheorems.
Context {W : Type} (loop_time : W -> QArith_base.Q).

(** [process_request] is its two steps in sequence. *)
Lemma process_request_split msg model (s : sys W) :
  process_request loop_time msg model s = (p ← pr_start loop_time msg model; pr_finish loop_time p) s.
Proof.
  destruct s as [[r mem] w f]. unfold process_request, pr_start, pr_finish, loop_now, memory_append, on_world.
  st_run. simpl. destruct_route; reflexivity.
Qed.

Lemma pr_start_run r mem w f msg model :
  let u := mk_entry "user" (PStr msg) (loop_time w) in
  pr_start loop_time msg model (mk_sys (mk_agent r mem) w f) =
    (mk_sys (mk_agent r (mem ++ [u])) w f, Ok (mk_pending model (chat_messages (mem ++ [u])))).
Proof. reflexivity. Qed.

(** The entry a finished request appends. *)
Definition reply_entry (x : mem_entry) : Prop := entry_role x = "assistant" \/ entry_role x = "error".

Lemma pr_finish_run r mem w f p :
  exists w' x v, pr_finish loop_time p (mk_sys (mk_agent r mem) w f) =
    (mk_sys (mk_agent r (mem ++ [x])) w' f, Ok v) /\ reply_entry x.
Proof.
  unfold pr_finish, loop_now, memory_append, on_world. st_run. simpl. destruct_route; simpl;
    do 3 eexists; (split; [reflexivity|unfold reply_entry; simpl; auto]).
Qed.

(** A memory ending in a reply followed by another entry does not
    alternate. *)
Lemma memory_wf_not_reply_reply l a b c d :
  reply_entry c -> memory_wf (l ++ [a; b; c; d]) -> False.
Proof.
  intros Hc Hwf. inversion Hwf as [Hnil|mem u a' t1 t2 _ Hu _ _ _ Heq].
  - by destruct l.
  - replace (l ++ [a; b; c; d]) with ((l ++ [a; b]) ++ [c; d]) in Heq
      by by rewrite <- app_assoc.
    replace (mem ++ [u; a']) with ((mem ++ [u]) ++ [a']) in Heq by by rewrite <- app_assoc.
    replace ((l ++ [a; b]) ++ [c; d]) with (((l ++ [a; b]) ++ [c]) ++ [d]) in Heq
      by by rewrite <- !app_assoc.
    apply app_inj_tail in Heq as [Heq _]. apply app_inj_tail in Heq as [_ ->].
    destruct Hc as [Hc|Hc]; congruence.
Qed.
End StepTheorems.

Section Interleaving.
Context {W : Type} (loop_time : W -> QArith_base.Q).

Lemma chat_messages_last_two mem u1 u2 :
  exists pre, chat_messages (mem ++ [u1; u2]) = pre ++ [entry_message u1; entry_message u2].
Proof.
  unfold chat_messages. replace (mem ++ [u1; u2]) with (mem ++ [u1; u2]) by done.
  rewrite py_last_app by (simpl; lia). simpl.
  eexists (mk_message "system" system_prompt :: map entry_message (py_last 3 mem)).
  by rewrite map_app.
Qed.

(** C17: two chat requests in flight interleave in the memory.  When a
    second request reaches the agent while the first awaits its reply,
    the second is sent the first user message without its answer, and
    once both replies are in, the memory ends with [user, user, reply,
    reply]: it no longer alternates user and reply entries, so the
    invariant that sequential requests keep ([agent_memory_wf]) is
    broken, whatever the replies. *)
Theorem concurrent_requests_interleave r mem w f msg1 msg2 model :
  let u1 := mk_entry "user" (PStr msg1) (loop_time w) in
  let u2 := mk_entry "user" (PStr msg2) (loop_time w) in
  (exists pre, (pr_start loop_time msg1 model;; pr_start loop_time msg2 model)
                 (mk_sys (mk_agent r mem) w f) =
               (mk_sys (mk_agent r (mem ++ [u1; u2])) w f,
                Ok (mk_pending model (pre ++ [entry_message u1; entry_message u2])))) /\
  exists s' x1 x2 v1 v2,
    two_interleaved loop_time msg1 msg2 model (mk_sys (mk_agent r mem) w f) = (s', Ok (v1, v2)) /\
    memory (sys_agent s') = mem ++ [u1; u2; x1; x2] /\
    reply_entry x1 /\ reply_entry x2 /\ ~ memory_wf (memory (sys_agent s')).
Proof.
  cbv zeta.
  pose proof (pr_start_run loop_time r mem w f msg1 model) as H1. cbv zeta in H1.
  pose proof (pr_start_run loop_time r (mem ++ [mk_entry "user" (PStr msg1) (loop_time w)]) w f
                msg2 model) as H2. cbv zeta in H2. rewrite <- app_assoc in H2. simpl in H2.
  split.
  - destruct (chat_messages_last_two mem (mk_entry "user" (PStr msg1) (loop_time w))
                (mk_entry "user" (PStr msg2) (loop_time w))) as [pre Hpre].
    exists pre. unfold mbind, st_mbind, st_bind. rewrite H1, H2, Hpre. reflexivity.
  - unfold two_interleaved, mbind, st_mbind, st_bind. rewrite H1, H2.
    destruct (pr_finish_run loop_time r (mem ++ [mk_entry "user" (PStr msg1) (loop_time w);
                mk_entry "user" (PStr msg2) (loop_time w)]) w f
                (mk_pending model (chat_messages (mem ++ [mk_entry "user" (PStr msg1) (loop_time w)]))))
      as (w1 & x1 & v1 & Hf1 & Hx1).
    rewrite Hf1.
    destruct (pr_finish_run loop_time r ((mem ++ [mk_entry "user" (PStr msg1) (loop_time w);
                mk_entry "user" (PStr msg2) (loop_time w)]) ++ [x1]) w1 f
                (mk_pending model (chat_messages (mem ++ [mk_entry "user" (PStr msg1) (loop_time w);
                   mk_entry "user" (PStr msg2) (loop_time w)]))))
      as (w2 & x2 & v2 & Hf2 & Hx2).
    rewrite Hf2. eexists _, x1, x2, v1, v2. simpl. rewrite <- !app_assoc.
    split_and!; [reflexivity|reflexivity|done|done|].
    intros Hwf. eapply (memory_wf_not_reply_reply mem); [exact Hx1|exact Hwf].
Qed.
End Interleaving.
