(* ===== verification/KeyManager.v ===== *)
(** * The API key manager (core/config/key_manager.py)

    [APIKeyManager] keeps [self.keys], a dict from a service name to the
    Fernet token of its key, and mirrors it in the JSON file
    [config/keys.json] after every change.  Its Fernet key is the one
    passed to the constructor or, when none is, a freshly generated one.

    Fernet and the JSON codec of a [Dict[str, str]] are interfaces
    ([Fernet], [JsonStrDict]).  Fernet tokens are ASCII, so the
    [.encode()] and [.decode()] around them are the identity here.  The
    theorems assume the two laws of Fernet (a token decrypts under its
    key, and under any other key raises [InvalidToken]) and the round
    trip of the JSON codec, as Section hypotheses.

    They show that a stored key reads back and leaves the other services
    alone, that removal forgets it, and that keys persist across a
    restart only when the same Fernet key is passed again: the API
    ([api/endpoints.py]) builds [APIKeyManager()] with no key, so every
    start reads tokens it cannot decrypt. *)

From S2P Require Import Prelude PyDict PyString FileSys.

(** [Fernet(key).encrypt] and [Fernet(key).decrypt], by key. *)
Class Fernet := {
  fernet_encrypt : string -> string -> string;
  fernet_decrypt : string -> string -> res string;
}.

(** [json.dump] of a [Dict[str, str]] and [json.load] of the file
    [_load_keys] reads. *)
Class JsonStrDict := {
  json_dump_str_dict : pydict string string -> string;
  json_load_str_dict : string -> res (pydict string string);
}.

(** The attributes of [APIKeyManager]: the key of [self.fernet],
    [self.keys] and [self.config_path]. *)
Record APIKeyManager := mk_key_manager {
  fernet_key : string;
  keys : pydict string string;
  config_path : string;
}.

Definition default_config_path : string := "config/keys.json".

Definition set_keys (km : APIKeyManager) (d : pydict string string) : APIKeyManager :=
  mk_key_manager (fernet_key km) d (config_path km).

Section KeyManagerOps.
Context `{Fernet} `{JsonStrDict} (env : os_env).

(** [_load_keys()] *)
Definition load_keys : ST (APIKeyManager * fs_state) unit :=
  fun '(km, fs) =>
    match fs !! config_path km with
    | None => ((km, fs), Ok tt)
    | Some text =>
        match json_load_str_dict text with
        | Ok encrypted_keys => ((set_keys km encrypted_keys, fs), Ok tt)
        | Err e => ((km, fs), Err e)
        end
    end.

(** [APIKeyManager(encryption_key)]; [generated_key] is what
    [Fernet.generate_key()] returns when no key is passed. *)
Definition new_key_manager (encryption_key : option string) (generated_key : string)
    : ST fs_state APIKeyManager :=
  fun fs =>
    let km := mk_key_manager (opt_default encryption_key generated_key) [] default_config_path in
    match load_keys (km, fs) with
    | ((km', fs'), Ok _) => (fs', Ok km')
    | ((_, fs'), Err e) => (fs', Err e)
    end.

(** [_save_keys()]: the [mkdir] of the parent directory is not
    modelled (directories are not in the file system model). *)
Definition save_keys : ST (APIKeyManager * fs_state) unit :=
  fun '(km, fs) =>
    let '(fs', r) := fs_write env (config_path km) (json_dump_str_dict (keys km)) fs in
    ((km, fs'), r).

(** [store_key(service, api_key)] *)
Definition store_key (service api_key : string) : ST (APIKeyManager * fs_state) unit :=
  st_modify (fun '(km, fs) =>
    (set_keys km (dict_setitem (keys km) service (fernet_encrypt (fernet_key km) api_key)), fs));;
  save_keys.

(** [get_key(service)] *)
Definition get_key (km : APIKeyManager) (service : string) : res (option string) :=
  match dict_get (keys km) service with
  | None => Ok None
  | Some token =>
      match fernet_decrypt (fernet_key km) token with
      | Ok api_key => Ok (Some api_key)
      | Err e => Err e
      end
  end.

(** [remove_key(service)] *)
Definition remove_key (service : string) : ST (APIKeyManager * fs_state) bool :=
  fun '(km, fs) =>
    if dict_contains (keys km) service
    then (save_keys;; mret true) (set_keys km (dict_delete (keys km) service), fs)
    else ((km, fs), Ok false).

(** [list_services()] *)
Definition list_services (km : APIKeyManager) : list string := dict_keys (keys km).
End KeyManagerOps.

(** ** Theorems *)

Section KeyManagerTheorems.
Context `{Fernet} `{JsonStrDict} (env : os_env).

(** Fernet's first law: a token decrypts, under the key that made it, to
    its plaintext. *)
Hypothesis fernet_correct : forall k s, fernet_decrypt k (fernet_encrypt k s) = Ok s.

Lemma store_key_state svc key km fs :
  store_key env svc key (km, fs) =
    let km' := set_keys km (dict_setitem (keys km) svc (fernet_encrypt (fernet_key km) key)) in
    let '(fs', r) := fs_write env (config_path km) (json_dump_str_dict (keys km')) fs in
    ((km', fs'), r).
Proof. reflexivity. Qed.

Lemma remove_key_keys svc km fs :
  dict_contains (keys km) svc = true ->
  (remove_key env svc (km, fs)).1.1 = set_keys km (dict_delete (keys km) svc).
Proof.
  intros Hc. unfold remove_key. rewrite Hc. st_run. unfold save_keys.
  destruct (fs_write _ _ _ _) as [? []]; reflexivity.
Qed.

Lemma get_key_present km svc token :
  dict_get (keys km) svc = Some token ->
  get_key km svc = match fernet_decrypt (fernet_key km) token with
                   | Ok k => Ok (Some k) | Err e => Err e end.
Proof. unfold get_key. by intros ->. Qed.

(** C40: the round trip of [store_key], [get_key] and [remove_key].
    After [store_key(service, api_key)] (whether or not saving the file
    succeeds) [get_key(service)] returns [api_key], the other services
    read as before, and [service] is listed; after [remove_key(service)]
    it reads as [None] and is no longer listed. *)
Theorem store_get_remove_roundtrip svc key km fs :
  let '((km1, fs1), _) := store_key env svc key (km, fs) in
  get_key km1 svc = Ok (Some key) /\
  (forall svc', svc' ≠ svc -> get_key km1 svc' = get_key km svc') /\
  svc ∈ list_services km1 /\
  (let '((km2, _), _) := remove_key env svc (km1, fs1) in
   get_key km2 svc = Ok None /\ svc ∉ list_services km2).
Proof.
  rewrite store_key_state. cbv zeta.
  destruct (fs_write _ _ _ _) as [fs1 r] eqn:Hw.
  set (km1 := set_keys km _).
  assert (Hget : dict_get (keys km1) svc = Some (fernet_encrypt (fernet_key km) key))
    by apply dict_get_setitem_eq.
  split; [|split; [|split]].
  - rewrite (get_key_present _ _ _ Hget). simpl. by rewrite fernet_correct.
  - intros svc' Hne. unfold get_key. simpl. by rewrite dict_get_setitem_ne.
  - unfold list_services. apply list_elem_of_In, in_map_iff.
    eexists. split; [|by apply dict_get_In]. done.
  - assert (Hc : dict_contains (keys km1) svc = true) by (unfold dict_contains; by rewrite Hget).
    pose proof (remove_key_keys svc km1 fs1 Hc) as Hk.
    destruct (remove_key _ _ _) as [[km2 ?] ?]. simpl in Hk. subst km2.
    split; [unfold get_key|unfold list_services; apply dict_get_None_keys];
      unfold set_keys; cbn [keys]; rewrite dict_get_delete; by case_decide.
Qed.

Lemma new_key_manager_fresh enc gen fs :
  fs !! default_config_path = None ->
  new_key_manager enc gen fs = (fs, Ok (mk_key_manager (opt_default enc gen) [] default_config_path)).
Proof. intros Hp. unfold new_key_manager, load_keys. simpl. by rewrite Hp. Qed.

Lemma new_key_manager_load enc gen fs text d :
  fs !! default_config_path = Some text -> json_load_str_dict text = Ok d ->
  new_key_manager enc gen fs = (fs, Ok (mk_key_manager (opt_default enc gen) d default_config_path)).
Proof. intros Hp Hl. unfold new_key_manager, load_keys. simpl. by rewrite Hp, Hl. Qed.

(** C36: keys survive a restart only under the same Fernet key.  A first
    run without a config file stores [api_key] for [service] and writes
    [config/keys.json]; a second [APIKeyManager] built on that file with
    the first run's key reads [api_key] back, but one built as the API
    builds it, [APIKeyManager()] with a newly generated key, raises
    [InvalidToken] on [get_key(service)]. *)
Theorem key_manager_restart k1 k2 svc key fs :
  let d := [(svc, fernet_encrypt k1 key)] in
  fs !! default_config_path = None ->
  env_write env default_config_path (json_dump_str_dict d) = WriteOk ->
  json_load_str_dict (json_dump_str_dict d) = Ok d ->
  (forall s, fernet_decrypt k2 (fernet_encrypt k1 s) = Err InvalidToken) ->
  exists km1 km1' fs1,
    new_key_manager None k1 fs = (fs, Ok km1) /\
    store_key env svc key (km1, fs) = ((km1', fs1), Ok tt) /\
    fs1 !! default_config_path = Some (json_dump_str_dict d) /\
    (exists km, new_key_manager (Some k1) k2 fs1 = (fs1, Ok km) /\ get_key km svc = Ok (Some key)) /\
    (exists km, new_key_manager None k2 fs1 = (fs1, Ok km) /\ get_key km svc = Err InvalidToken).
Proof.
  intros d Hp Hw Hl Hauth. unfold d in *.
  eexists _, _, _. split; [by apply new_key_manager_fresh|].
  split; [rewrite store_key_state; simpl; unfold fs_write; rewrite Hw; reflexivity|].
  split; [by rewrite lookup_insert_eq|].
  split; eexists; (split; [apply new_key_manager_load with (text := json_dump_str_dict d);
                           [by rewrite lookup_insert_eq|done]|]);
    unfold get_key; simpl; rewrite decide_True by done; simpl.
  - by rewrite fernet_correct.
  - by rewrite Hauth.
Qed.
End KeyManagerTheorems.

(** ** Concrete runs *)

(** [s] without the prefix [p], if [s] starts with [p]. *)
Fixpoint str_strip_prefix (p s : string) : option string :=
  match p, s with
  | EmptyString, _ => Some s
  | String a p', String b s' => if Ascii.eqb a b then str_strip_prefix p' s' else None
  | String _ _, EmptyString => None
  end.

Lemma str_strip_prefix_app p s : str_strip_prefix p (p +:+ s) = Some s.
Proof.
  induction p as [|a p IH]; [reflexivity|].
  rewrite str_app_cons. simpl. by rewrite Ascii.eqb_refl.
Qed.

(** A stand-in for Fernet whose token is the key, [$] and the
    plaintext. *)
Definition toy_fernet : Fernet := {|
  fernet_encrypt k s := k +:+ "$" +:+ s;
  fernet_decrypt k t :=
    match str_strip_prefix (k +:+ "$") t with Some s => Ok s | None => Err InvalidToken end;
|}.

Lemma toy_fernet_correct k s :
  @fernet_decrypt toy_fernet k (@fernet_encrypt toy_fernet k s) = Ok s.
Proof. simpl. by rewrite str_app_assoc, str_strip_prefix_app. Qed.

(** The double quote. *)
Definition dq : string := String (Ascii.ascii_of_nat 34) EmptyString.

(** [json.dumps] of a dict of strings that need no escaping. *)
Definition json_render (d : pydict string string) : string :=
  "{" +:+ String.concat ", " (map (fun '(k, v) => dq +:+ k +:+ dq +:+ ": " +:+ dq +:+ v +:+ dq) d)
  +:+ "}".

(** A JSON codec that reads back the dicts of a table. *)
Definition table_json (known : list (pydict string string)) : JsonStrDict := {|
  json_dump_str_dict := json_render;
  json_load_str_dict t :=
    match List.find (fun d => bool_decide (json_render d = t)) known with
    | Some d => Ok d
    | None => Err (JSONDecodeError "Expecting value: line 1 column 1 (char 0)")
    end;
|}.

Definition example_keys_json : JsonStrDict := table_json [[("openai", "K1$sk-1")]].

Lemma store_get_remove_roundtrip_witness :
  let '((km1, fs1), _) :=
    @store_key toy_fernet example_keys_json reliable_env "openai" "sk-1"
      (mk_key_manager "K1" [] default_config_path, ∅) in
  @get_key toy_fernet km1 "openai" = Ok (Some "sk-1") /\
  (forall svc', svc' ≠ "openai" ->
     @get_key toy_fernet km1 svc' = @get_key toy_fernet (mk_key_manager "K1" [] default_config_path) svc') /\
  "openai" ∈ list_services km1 /\
  (let '((km2, _), _) := @remove_key example_keys_json reliable_env "openai" (km1, fs1) in
   @get_key toy_fernet km2 "openai" = Ok None /\ "openai" ∉ list_services km2).
Proof.
  exact (@store_get_remove_roundtrip toy_fernet example_keys_json reliable_env toy_fernet_correct
           "openai" "sk-1" (mk_key_manager "K1" [] default_config_path) ∅).
Defined.

Lemma key_manager_restart_witness :
  let d := [("openai", @fernet_encrypt toy_fernet "K1" "sk-1")] in
  exists km1 km1' fs1,
    @new_key_manager example_keys_json None "K1" ∅ = (∅, Ok km1) /\
    @store_key toy_fernet example_keys_json reliable_env "openai" "sk-1" (km1, ∅) = ((km1', fs1), Ok tt) /\
    fs1 !! default_config_path = Some (json_render d) /\
    (exists km, @new_key_manager example_keys_json (Some "K1") "K2" fs1 = (fs1, Ok km) /\
                @get_key toy_fernet km "openai" = Ok (Some "sk-1")) /\
    (exists km, @new_key_manager example_keys_json None "K2" fs1 = (fs1, Ok km) /\
                @get_key toy_fernet km "openai" = Err InvalidToken).
Proof.
  apply (@key_manager_restart toy_fernet example_keys_json reliable_env toy_fernet_correct
           "K1" "K2" "openai" "sk-1" ∅); [reflexivity|reflexivity|vm_compute; reflexivity|].
  intros s. cbv. reflexivity.
Defined.
