(* ===== verification/MainApp.v ===== *)
(** * The file endpoints of main.py

    [src/backend/main.py] is a second FastAPI application with a
    workspace directory [WORKSPACE_DIR = Path("workspace")] and three
    file handlers: [/create_file] writes [WORKSPACE_DIR / filename],
    [/read_file] reads it if it exists, [/list_files] lists the files
    directly inside the workspace.  [/chat] sends the message with a
    fixed system prompt straight to [openai.ChatCompletion.create], with
    the key [openai.api_key] the module set from the environment at
    import, and returns the first choice's content; it has no [try].

    The path arithmetic is pathlib's ([PyPath]).  The theorems show that the handlers do not confine the file names
    to the workspace: an absolute name is written where it points, and
    [..] parts are kept in the written path. *)

From S2P Require Import Prelude PyDict PyString PyPath FileSys Router Adapters.

Definition WORKSPACE_DIR : pure_path := parse_path "workspace".

(** The dicts the handlers return. *)
Abbreviation response := (pydict string pyval).

(** [FileRequest(filename, content)] *)
Record FileRequest := mk_file_request { filename : string; content : string }.

Section Handlers.
Context (env : os_env).

(** [create_file(req)]: [file_path.write_text(req.content)]; an
    exception of the write is turned by FastAPI into an error response,
    here an [Err]. *)
Definition create_file (req : FileRequest) : ST fs_state response :=
  let file_path := path_str (path_div WORKSPACE_DIR (filename req)) in
  fs_write env file_path (content req);;
  mret [("status", PStr "created"); ("path", PStr file_path)].
End Handlers.

(** [read_file(filename)] *)
Definition read_file (name : string) : ST fs_state response :=
  let file_path := path_str (path_div WORKSPACE_DIR name) in
  fun fs =>
    match fs !! file_path with
    | Some text => (fs, Ok [("content", PStr text)])
    | None => (fs, Ok [("error", PStr "Datei nicht gefunden")])
    end.

(** [list_files()]: the files directly inside the workspace, in the
    order of the map (the order of [iterdir] is the OS's). *)
Definition list_files (fs : fs_state) : response :=
  [("files", PList (map (fun p => PStr (path_name (parse_path p)))
                        (filter (fun p => bool_decide (path_parts (parse_path p) =
                                   path_parts WORKSPACE_DIR ++ [path_name (parse_path p)]) &&
                                   bool_decide (path_root (parse_path p) = ""))
                                (map fst (map_to_list fs)))))].

(** ** The chat handler *)

(** The arguments of the synchronous [openai.ChatCompletion.create]
    (no temperature nor max_tokens: the API's defaults apply). *)
Record create_request := mk_create_req {
  cr_api_key : option string;
  cr_model : string;
  cr_messages : list message;
}.

(** [ChatRequest(message, model="gpt-4")] *)
Record ChatRequest := mk_chat_request { req_message : string; req_model : string }.

Definition chat_request (msg : string) : ChatRequest := mk_chat_request msg "gpt-4".

Definition main_system_prompt : string := "Du bist Aiden, ein hilfsbereiter KI-Operator.".

(** Line 8: [openai.api_key = os.getenv("OPENAI_API_KEY")] at import. *)
Definition main_init (getenv : string -> option string) : pworld :=
  mk_pworld (getenv "OPENAI_API_KEY").

(** [response.choices[0].message["content"]] over the [message] dicts of
    the choices. *)
Definition first_choice_content (choices : list message) : res string :=
  match choices with
  | [] => Err (IndexError "list index out of range")
  | m :: _ => match dict_get m "content" with Some c => Ok c | None => Err (KeyError "content") end
  end.

Section MainChat.
(** The SDK call: the [message] of each choice, or the exception it
    raises. *)
Context (openai_create : create_request -> res (list message)).

(** [chat(req)]: no [try], so every exception escapes to FastAPI. *)
Definition main_chat (req : ChatRequest) : ST pworld pyval :=
  fun w =>
    (w, choices ← openai_create (mk_create_req (openai_api_key w) (req_model req)
                                   [mk_message "system" main_system_prompt;
                                    mk_message "user" (req_message req)]);
        reply ← first_choice_content choices;
        Ok (PDict [("reply", PStr reply)])).

End MainChat.

(** ** Theorems *)

Section HandlerTheorems.
Context (env : os_env).

(** C37: [create_file] does not confine the file to the workspace.  A
    filename starting with [/] replaces the base of
    [WORKSPACE_DIR / filename]: the file is written at the filename's
    own path and that path is returned.  Any other filename is appended
    to [workspace] with its parts as they are, every [..] part kept, so
    [../x] names a file beside the workspace, not in it. *)
Theorem create_file_not_confined name text fs :
  (String.prefix "/" name = true ->
   env_write env (path_str (parse_path name)) text = WriteOk ->
   create_file env (mk_file_request name text) fs =
     (<[path_str (parse_path name) := text]> fs,
      Ok [("status", PStr "created"); ("path", PStr (path_str (parse_path name)))]) /\
   path_root (parse_path name) ≠ "") /\
  (String.prefix "/" name = false ->
   path_div WORKSPACE_DIR name = mk_path "" ("workspace" :: path_parts (parse_path name)) /\
   (".." ∈ str_split_on slash name -> ".." ∈ path_parts (path_div WORKSPACE_DIR name))).
Proof.
  split.
  - intros Hp Hw. split; [|by apply parse_path_absolute_root].
    unfold create_file, fs_write. cbn [filename content]. rewrite path_div_absolute by done.
    st_run. by rewrite Hw.
  - intros Hp. rewrite path_div_relative by done. split; [reflexivity|].
    intros Hin. simpl. apply elem_of_cons. right.
    unfold parse_path. simpl. apply list_elem_of_filter. split; [|done]. done.
Qed.
End HandlerTheorems.


Section ChatTheorems.
Context (openai_create : create_request -> res (list message)).

(** The call [chat] makes for [req] in the world [w]. *)
Definition main_create_request (w : pworld) (req : ChatRequest) : create_request :=
  mk_create_req (openai_api_key w) (req_model req)
    [mk_message "system" main_system_prompt; mk_message "user" (req_message req)].

(** C20: [/chat] of [main.py] on every branch.  It sends the key read
    from [OPENAI_API_KEY] at import, the requested model and only two
    messages, the fixed German system prompt and the user's message: no
    history, no router.  The reply is the first choice's content; with
    no choice it fails with [IndexError], with no content with
    [KeyError], and an exception of the SDK escapes unchanged (no
    [try]), so FastAPI answers each of these with a 500. *)
Theorem main_chat_spec getenv req :
  let w := main_init getenv in
  let cr := main_create_request w req in
  cr_api_key cr = getenv "OPENAI_API_KEY" /\
  (forall e, openai_create cr = Err e -> main_chat openai_create req w = (w, Err e)) /\
  (openai_create cr = Ok [] ->
   main_chat openai_create req w = (w, Err (IndexError "list index out of range"))) /\
  (forall m rest, openai_create cr = Ok (m :: rest) -> dict_get m "content" = None ->
   main_chat openai_create req w = (w, Err (KeyError "content"))) /\
  (forall m rest reply, openai_create cr = Ok (m :: rest) -> dict_get m "content" = Some reply ->
   main_chat openai_create req w = (w, Ok (PDict [("reply", PStr reply)]))).
Proof.
  cbv zeta. unfold main_chat, main_create_request. split_and!; [done|..];
    intros *; intros Hc; rewrite ?Hc; try intros Hm; simpl; rewrite ?Hm; done.
Qed.

End ChatTheorems.

(** ** Concrete runs *)

Lemma create_file_not_confined_witness :
  create_file reliable_env (mk_file_request "/etc/cron.d/job" "* * * * * root sh /tmp/x") ∅ =
    (<["/etc/cron.d/job" := "* * * * * root sh /tmp/x"]> ∅,
     Ok [("status", PStr "created"); ("path", PStr "/etc/cron.d/job")]) /\
  path_div WORKSPACE_DIR "../secrets.txt" = mk_path "" ["workspace"; ".."; "secrets.txt"].
Proof.
  split.
  - rewrite (proj1 (proj1 (create_file_not_confined reliable_env "/etc/cron.d/job"
                              "* * * * * root sh /tmp/x" ∅) eq_refl eq_refl)).
    vm_compute. reflexivity.
  - rewrite (proj1 (proj2 (create_file_not_confined reliable_env "../secrets.txt" "" ∅) eq_refl)).
    vm_compute. reflexivity.
Defined.

(** An SDK that refuses a call without key and answers [Hallo]
    otherwise, under an environment without [OPENAI_API_KEY]. *)
Definition hallo_create (cr : create_request) : res (list message) :=
  match cr_api_key cr with
  | None => Err (Exception "No API key provided.")
  | Some _ => Ok [mk_message "assistant" "Hallo"]
  end.

Definition no_env (_ : string) : option string := None.

Lemma main_chat_spec_witness :
  main_chat hallo_create (chat_request "Hi") (main_init no_env) =
    (main_init no_env, Err (Exception "No API key provided.")).
Proof.
  apply (proj1 (proj2 (main_chat_spec hallo_create no_env (chat_request "Hi")))). reflexivity.
Defined.
