(* ===== verification/AgentMemory.v ===== *)
(** * The agent's memory file (core/agent/agent.py, [save_memory] and [load_memory])

    [save_memory] writes [json.dump(self.memory, f, indent=2)] into a
    file, by default [self.workspace_path / "memory.json"];
    [load_memory] assigns [json.load(f)] of that file to [self.memory]
    when the path exists, and does nothing otherwise.

    [save_memory] acts on the agent's state [sys] of [Agent].
    [load_memory] assigns whatever JSON value the file holds, which the
    typed memory of [Agent] (a list of entries) cannot hold in general:
    its state is [mem_store], the [memory] attribute as the Python value
    it holds, beside the file system.  The typed memory is the value
    [memory_value mem], and [memory_of_value] reads a list of entry dicts
    back ([memory_of_memory_value]).

    The theorems show that a memory saved is loaded back by an agent
    whatever it held before; that [load_memory] takes any JSON value,
    keeps the memory when the file is missing and raises the decode
    error of a file that is not JSON; that a save that fails after a
    prefix destroys the file a later load needs; and that the file
    handler of main.py writes the file the agent loads. *)

From S2P Require Import Prelude PyDict PyString PyJson PyPath FileSys Router Adapters Agent MainApp.
From Stdlib Require QArith_base.

(** [self.workspace_path = Path("workspace")] *)
Definition workspace_path : pure_path := parse_path "workspace".

(** The dict of a memory entry as [json.dump] serialises it. *)
Definition entry_value (m : mem_entry) : pyval :=
  PDict [("role", PStr (entry_role m)); ("content", entry_content m);
         ("timestamp", PFloat (entry_timestamp m))].

(** [self.memory] as a Python value. *)
Definition memory_value (mem : list mem_entry) : pyval := PList (map entry_value mem).

(** An entry read back from a dict: [m["role"]], [m["content"]] and
    [m["timestamp"]], of the types the agent writes. *)
Definition entry_of_value (v : pyval) : option mem_entry :=
  match v with
  | PDict d =>
      match dict_get d "role", dict_get d "content", dict_get d "timestamp" with
      | Some (PStr r), Some c, Some (PFloat t) => Some (mk_entry r c t)
      | _, _, _ => None
      end
  | _ => None
  end.

(** The typed memory a value holds, if it is a list of entry dicts. *)
Definition memory_of_value (v : pyval) : option (list mem_entry) :=
  match v with PList l => mapM entry_of_value l | _ => None end.

(** The state [load_memory] acts on: [self.memory], any Python value,
    and the file system. *)
Record mem_store := mk_store {
  store_memory : pyval;
  store_fs : fs_state;
}.

(** The store of an agent whose memory is typed. *)
Definition memory_store {W} (s : sys W) : mem_store :=
  mk_store (memory_value (memory (sys_agent s))) (sys_fs s).

Definition on_store_fs {A} (m : ST fs_state A) : ST mem_store A :=
  st_focus store_fs (fun fs s => mk_store (store_memory s) fs) m.

Section MemoryOps.
Context `{PyJson} {W : Type} (env : os_env).

(** [save_memory(file_path=None)]: [json.dump(self.memory, f, indent=2)]
    into [file_path], by default [workspace/memory.json]. *)
Definition save_memory (file_path : option string) : ST (sys W) unit :=
  s ← st_get;
  on_fs (fs_write env (opt_default file_path (path_str (path_div workspace_path "memory.json")))
           (json_dumps (Some 2) (memory_value (memory (sys_agent s))))).

(** [load_memory(file_path=None)]: when [Path(file_path).exists()],
    [self.memory = json.load(f)] of the opened file. *)
Definition load_memory (file_path : option string) : ST mem_store unit :=
  let p := opt_default file_path (path_str (path_div workspace_path "memory.json")) in
  ex ← on_store_fs (fs_exists p);
  if (ex : bool) then
    text ← on_store_fs (fs_read p);
    v ← st_lift (json_loads text);
    st_modify (fun s => mk_store v (store_fs s))
  else mret tt.
End MemoryOps.

(** ** Reading the memory back *)

Lemma entry_of_entry_value m : entry_of_value (entry_value m) = Some m.
Proof. by destruct m. Qed.

Lemma memory_of_memory_value mem : memory_of_value (memory_value mem) = Some mem.
Proof.
  unfold memory_of_value, memory_value. induction mem as [|m mem IH]; [done|].
  cbn [map mapM]. by rewrite entry_of_entry_value, IH.
Qed.

(** Two memories saving to the same value are equal. *)
Lemma memory_value_inj mem1 mem2 : memory_value mem1 = memory_value mem2 -> mem1 = mem2.
Proof.
  intros Heq. apply (inj Some). by rewrite <- !memory_of_memory_value, Heq.
Qed.

Lemma memory_default_path : path_str (path_div workspace_path "memory.json") = "workspace/memory.json".
Proof. reflexivity. Qed.

(** ** What each method does *)

Section MemoryLemmas.
Context `{PyJson} {W : Type} (env : os_env).

Lemma save_memory_eq file_path (s : sys W) :
  save_memory env file_path s =
    let '(fs', r) := fs_write env (opt_default file_path "workspace/memory.json")
                       (json_dumps (Some 2) (memory_value (memory (sys_agent s)))) (sys_fs s) in
    (mk_sys (sys_agent s) (sys_world s) fs', r).
Proof. unfold save_memory, on_fs. rewrite memory_default_path. by st_run. Qed.

Lemma load_memory_eq file_path (st : mem_store) :
  load_memory file_path st =
    match store_fs st !! opt_default file_path "workspace/memory.json" with
    | None => (st, Ok tt)
    | Some text =>
        match json_loads text with
        | Ok v => (mk_store v (store_fs st), Ok tt)
        | Err e => (st, Err e)
        end
    end.
Proof.
  destruct st as [m fs]. unfold load_memory, on_store_fs, fs_exists, fs_read.
  rewrite memory_default_path. st_run. simpl.
  destruct (fs !! _) as [text|] eqn:Hp.
  - rewrite bool_decide_eq_true_2 by done. simpl. rewrite Hp. by destruct (json_loads text).
  - rewrite bool_decide_eq_false_2 by by intros [? ?]. done.
Qed.
End MemoryLemmas.

(** ** Saving and loading *)

Section MemoryTheorems.
Context `{PyJson} {W : Type} (env : os_env).

(** C21: a memory saved is loaded back.  [save_memory()] writes
    [json.dump] of the memory (indent 2) into [workspace/memory.json] and
    changes nothing else (the agent, the world and every other file are
    as they were); when that write succeeds and [json.loads]
    reads the text back, [load_memory()] of any agent over the resulting
    file system, whatever its memory held, assigns a value that reads
    back as exactly the saved memory. *)
Theorem save_load_memory_roundtrip (s : sys W) (v0 : pyval) :
  let mem := memory (sys_agent s) in
  env_write env "workspace/memory.json" (json_dumps (Some 2) (memory_value mem)) = WriteOk ->
  json_reads_back (Some 2) (memory_value mem) ->
  exists s' v,
    save_memory env None s = (s', Ok tt) /\ sys_agent s' = sys_agent s /\ sys_world s' = sys_world s /\
    sys_fs s' = <["workspace/memory.json" := json_dumps (Some 2) (memory_value mem)]> (sys_fs s) /\
    load_memory None (mk_store v0 (sys_fs s')) = (mk_store v (sys_fs s'), Ok tt) /\
    memory_of_value v = Some mem.
Proof.
  cbv zeta. intros Hw Hback. rewrite save_memory_eq. unfold fs_write. simpl. rewrite Hw.
  eexists _, _. split_and!; [reflexivity|done|done|done| |apply memory_of_memory_value].
  rewrite load_memory_eq. simpl. by rewrite lookup_insert_eq, Hback.
Qed.

(** C22: [load_memory] on every branch.  When nothing is stored at the
    path (by default [workspace/memory.json]) the memory is kept;
    otherwise the memory becomes whatever value [json.load] reads, with
    no check that it is a list of entries; a file that is not JSON
    raises the decode error and keeps the memory. *)
Theorem load_memory_spec file_path (st : mem_store) :
  let p := opt_default file_path "workspace/memory.json" in
  (store_fs st !! p = None -> load_memory file_path st = (st, Ok tt)) /\
  (forall text v, store_fs st !! p = Some text -> json_loads text = Ok v ->
     load_memory file_path st = (mk_store v (store_fs st), Ok tt)) /\
  (forall text e, store_fs st !! p = Some text -> json_loads text = Err e ->
     load_memory file_path st = (st, Err e)).
Proof.
  cbv zeta. rewrite load_memory_eq.
  split_and!; [by intros ->|intros text v -> ->|intros text e -> ->]; done.
Qed.

(** C23: a save that stops midway destroys the memory file.
    [save_memory] opens [workspace/memory.json] for writing, which
    truncates it, with no backup: when the write stops after [k]
    characters the file keeps only that prefix of the dump and the
    exception escapes, and a later [load_memory] raises the decode error
    of the prefix and keeps the memory it had; the memory saved before is
    lost. *)
Theorem save_memory_truncated_file (s : sys W) k e v0 err :
  let data := json_dumps (Some 2) (memory_value (memory (sys_agent s))) in
  let fs' := <["workspace/memory.json" := String.substring 0 k data]> (sys_fs s) in
  env_write env "workspace/memory.json" data = WriteFails k e ->
  json_loads (String.substring 0 k data) = Err err ->
  save_memory env None s = (mk_sys (sys_agent s) (sys_world s) fs', Err e) /\
  load_memory None (mk_store v0 fs') = (mk_store v0 fs', Err err).
Proof.
  cbv zeta. intros Hw Hdec. rewrite save_memory_eq, load_memory_eq. unfold fs_write. simpl.
  rewrite Hw. split; [done|]. simpl. by rewrite lookup_insert_eq, Hdec.
Qed.
End MemoryTheorems.

(** main.py's [/create_file] writes the file the agent loads: both
    applications resolve [Path("workspace")] in the same directory, so a
    client that creates [memory.json] decides the value [load_memory()]
    assigns to the memory. *)
Lemma create_file_sets_loaded_memory `{PyJson} env text v fs v0 :
  env_write env "workspace/memory.json" text = WriteOk -> json_loads text = Ok v ->
  exists r fs',
    create_file env (mk_file_request "memory.json" text) fs = (fs', Ok r) /\
    load_memory None (mk_store v0 fs') = (mk_store v fs', Ok tt).
Proof.
  intros Hw Hv. assert (Hp : path_str (path_div WORKSPACE_DIR "memory.json") = "workspace/memory.json")
    by reflexivity.
  unfold create_file. cbv zeta. cbn [filename content]. rewrite Hp. st_run. unfold fs_write. rewrite Hw.
  eexists _, _. split; [reflexivity|]. rewrite load_memory_eq. simpl.
  by rewrite lookup_insert_eq, Hv.
Qed.

(** ** Concrete runs *)

(** The agent after one request that timed out. *)
Definition timeout_sys : sys pworld := mk_sys (mk_agent agent_router timeout_memory) (mk_pworld None) ∅.

Definition decode_error : exn := JSONDecodeError "Expecting value: line 1 column 1 (char 0)".

(** A [json] that reads back the memory after one timed-out request,
    and a [json] whose files hold an empty dict. *)
Definition memory_json : PyJson :=
  {| json_dumps _ _ := "[...]";
     json_loads t := if String.eqb t "[...]" then Ok (memory_value timeout_memory) else Err decode_error |}.

Definition dict_json : PyJson :=
  {| json_dumps _ _ := "{}"; json_loads t := if String.eqb t "{}" then Ok (PDict []) else Err decode_error |}.

(** A disk that fills up after three characters. *)
Definition full_disk_env : os_env :=
  mk_os_env (fun _ _ => WriteFails 3 (OSError "[Errno 28] No space left on device")) (fun _ _ => None).

Lemma save_load_memory_roundtrip_witness :
  exists s' v,
    @save_memory memory_json pworld reliable_env None timeout_sys = (s', Ok tt) /\
    sys_agent s' = sys_agent timeout_sys /\ sys_world s' = sys_world timeout_sys /\
    sys_fs s' = <["workspace/memory.json" := "[...]"]> ∅ /\
    @load_memory memory_json None (mk_store (PList []) (sys_fs s')) = (mk_store v (sys_fs s'), Ok tt) /\
    memory_of_value v = Some timeout_memory.
Proof. apply (@save_load_memory_roundtrip memory_json pworld reliable_env timeout_sys (PList [])); reflexivity. Defined.

(** A file holding [{}] becomes a memory that is no list of entries; a
    file that is not JSON raises. *)
Lemma load_memory_spec_witness :
  let st1 := mk_store (memory_value timeout_memory) (<["workspace/memory.json" := "{}"]> ∅) in
  let st2 := mk_store (memory_value timeout_memory) (<["workspace/memory.json" := "[..."]> ∅) in
  @load_memory dict_json None st1 = (mk_store (PDict []) (store_fs st1), Ok tt) /\
  memory_of_value (PDict []) = None /\
  @load_memory dict_json None st2 = (st2, Err decode_error).
Proof.
  cbv zeta. split_and!; [|reflexivity|].
  - apply (proj1 (proj2 (@load_memory_spec dict_json None _)) "{}"); reflexivity.
  - apply (proj2 (proj2 (@load_memory_spec dict_json None _)) "[..."); reflexivity.
Defined.

Lemma save_memory_truncated_file_witness :
  let fs' := <["workspace/memory.json" := "[.."]> ∅ in
  @save_memory memory_json pworld full_disk_env None timeout_sys =
    (mk_sys (sys_agent timeout_sys) (sys_world timeout_sys) fs',
     Err (OSError "[Errno 28] No space left on device")) /\
  @load_memory memory_json None (mk_store (PList []) fs') = (mk_store (PList []) fs', Err decode_error).
Proof.
  apply (@save_memory_truncated_file memory_json pworld full_disk_env timeout_sys 3
           (OSError "[Errno 28] No space left on device") (PList []) decode_error); reflexivity.
Defined.
