(* ===== verification/Learning.v ===== *)
(** * The learning store (core/agent/learning.py)

    [AgentLearning] keeps the learnings of the running process in
    [current_learnings] and also writes each one to its own JSON file
    [learning_history/learning_<YYYYmmdd_HHMMSS>.json].  Its methods act
    on the learning object, the world of the adapters (which the model
    calls change, and from which the clock [datetime.now()] is read) and
    the file system, gathered in [lsys]:

    - [learn_from_interaction] / [learn_from_code_changes]: ask [gpt-4]
      for an analysis ([_analyze_interaction], [_analyze_code_changes],
      which turn every exception into an [{"error": ...}] dict), then
      [_store_learning] a dict with the time stamp and the analysis;
    - [_get_recent_learnings(limit)]: the newest [limit] files (by name),
      then the current learnings, all sorted by their ["timestamp"]
      string, newest first, and cut to [limit];
    - [generate_improvement_plan]: the recent learnings in a prompt, the
      reply read as JSON, or kept as text by
      [_structure_improvement_plan].

    [json] and [str()] are the interfaces of [PyJson]; the sort is
    [PySort.sort_desc]; the clock's readings are [DateTime] values;
    [_analyze_code_changes] is [learning_analyze_code_changes] here, as
    [Agent] has a method of the same name.

    The theorems show that every learning of the running process is
    counted twice by [_get_recent_learnings], that two learnings stored
    in the same second share a file, that a failed analysis is stored as
    a learning, that the plan may be any JSON value, and that the recent
    learnings are at most [limit] and newest first. *)

From S2P Require Import Prelude PyDict PyString PyJson PyPath PySort DateTime FileSys Router Adapters.
From Stdlib Require Import Sorting.Sorted.

(** [AgentLearning]: its router and [current_learnings]; [learning_path]
    is the constant [Path("learning_history")]. *)
Record AgentLearning (W : Type) := mk_learning {
  learning_router : ModelRouter W;
  current_learnings : list pyval;
}.
Arguments mk_learning {W}.
Arguments learning_router {W}.
Arguments current_learnings {W}.

Record lsys (W : Type) := mk_lsys {
  ls_learning : AgentLearning W;
  ls_world : W;
  ls_fs : fs_state;
}.
Arguments mk_lsys {W}.
Arguments ls_learning {W}.
Arguments ls_world {W}.
Arguments ls_fs {W}.

Definition learning_path : pure_path := parse_path "learning_history".

(** [self.learning_path / f"learning_{timestamp}.json"] *)
Definition learning_file (timestamp : string) : string :=
  path_str (path_div learning_path ("learning_" +:+ timestamp +:+ ".json")).

(** A line of the triple-quoted prompts: a newline and twelve spaces. *)
Definition pline (s : string) : string := newline +:+ "            " +:+ s.

Definition ends_with (suffix s : string) : bool :=
  bool_decide (String.length suffix <= String.length s) &&
  String.eqb (String.substring (String.length s - String.length suffix) (String.length suffix) s)
    suffix.

(** A path the pattern [learning_history/learning_*.json] matches. *)
Definition is_learning_file (p : string) : bool :=
  let q := parse_path p in
  bool_decide (path_root q = "") &&
  match path_parts q with
  | [dir; name] => String.eqb dir "learning_history" && String.prefix "learning_" name &&
                   ends_with ".json" name
  | _ => false
  end.

(** [learning_path.glob("learning_*.json")], in the order of the map
    (the directory's order; the caller sorts it). *)
Definition learning_files (fs : fs_state) : list string :=
  filter (fun p => is_learning_file p) (map fst (map_to_list fs)).

Fixpoint res_map {A B} (f : A -> res B) (l : list A) : res (list B) :=
  match l with
  | [] => Ok []
  | x :: l' => y ← f x; ys ← res_map f l'; Ok (y :: ys)
  end.

(** A sort key must be a [str] to be compared with the others. *)
Definition str_key (k x : pyval) : res (string * pyval) :=
  match k with
  | PStr s => Ok (s, x)
  | v => Err (TypeError ("'<' not supported between instances of '" +:+ py_type_name v +:+
                         "' and 'str'"))
  end.

(** [sorted(all_learnings, key=lambda x: x.get('timestamp', ''),
    reverse=True)]: every key is computed first ([AttributeError] for a
    learning that is not a dict); a list of fewer than two learnings is
    not compared.  Keys of another type than [str] are refused when
    compared (Python would compare, say, two [int] keys; the code only
    writes string time stamps). *)
Definition sort_by_timestamp (all : list pyval) : res (list pyval) :=
  keys ← res_map (fun x => py_get x "timestamp" (PStr "")) all;
  match all with
  | [] | [_] => Ok all
  | _ => keyed ← res_map (fun '(k, x) => str_key k x) (zip keys all);
         Ok (map snd (sort_desc fst keyed))
  end.

(** [_structure_improvement_plan(raw_plan)]; [now] is what
    [datetime.now()] returns in the [except] branch. *)
Definition structure_improvement_plan `{PyJson} (raw_plan : pyval) (now : datetime) : res pyval :=
  match py_json_loads raw_plan with
  | Ok plan => Ok plan
  | Err (JSONDecodeError _) =>
      Ok (PDict [("raw_plan", raw_plan); ("timestamp", PStr (isoformat now));
                 ("status", PStr "unstructured")])
  | Err e => Err e
  end.

Definition interaction_prompt `{PyRepr} (user_input agent_response success duration : pyval)
    : string :=
  "Analyze this interaction for learning opportunities:" +:+ newline +:+
  pline ("User Input: " +:+ py_str user_input) +:+
  pline ("Agent Response: " +:+ py_str agent_response) +:+
  pline ("Success: " +:+ py_str success) +:+
  pline ("Duration: " +:+ py_str duration) +:+ newline +:+
  pline "Please identify:" +:+ pline "1. What worked well" +:+
  pline "2. What could be improved" +:+ pline "3. Any patterns or insights" +:+
  pline "4. Specific learning points".

Definition code_changes_prompt (old_code new_code : string) : string :=
  "Compare these code versions and analyze the changes:" +:+ newline +:+
  pline "Original Code:" +:+ pline old_code +:+ newline +:+
  pline "New Code:" +:+ pline new_code +:+ newline +:+
  pline "Please identify:" +:+ pline "1. Nature of changes" +:+
  pline "2. Improvement patterns" +:+ pline "3. Potential risks" +:+ pline "4. Learning points".

Definition plan_prompt (learnings_json : string) : string :=
  "Based on these recent learning experiences, suggest improvements:" +:+ newline +:+
  pline "Recent Learnings:" +:+ pline learnings_json +:+ newline +:+
  pline "Please analyze these learnings and suggest:" +:+
  pline "1. Patterns in user interactions" +:+ pline "2. Common challenges or limitations" +:+
  pline "3. Potential improvements to:" +:+ pline "   - Code structure" +:+
  pline "   - Response quality" +:+ pline "   - Learning capabilities" +:+
  pline "   - Error handling" +:+ pline "4. Specific implementation suggestions" +:+ newline +:+
  pline "Format your response as a structured improvement plan.".

(** The learning [learn_from_interaction] stores. *)
Definition interaction_learning (timestamp : string) (interaction analysis : pyval) : pyval :=
  PDict [("timestamp", PStr timestamp); ("interaction", interaction);
         ("analysis", analysis); ("type", PStr "interaction_learning")].

(** The learning [learn_from_code_changes] stores. *)
Definition code_learning (timestamp file_path : string) (analysis : pyval) : pyval :=
  PDict [("timestamp", PStr timestamp); ("file_path", PStr file_path);
         ("analysis", analysis); ("type", PStr "code_learning")].

(** [{"error": f"{prefix}{str(e)}"}] *)
Definition prefixed_error (prefix : string) (e : exn) : pyval :=
  PDict [("error", PStr (prefix +:+ exn_str e))].

Section LearningOps.
Context `{PyJson} `{PyRepr} {W : Type} (now : W -> datetime) (env : os_env).

Definition on_world {A} (m : ST W A) : ST (lsys W) A :=
  st_focus ls_world (fun w s => mk_lsys (ls_learning s) w (ls_fs s)) m.

Definition on_fs {A} (m : ST fs_state A) : ST (lsys W) A :=
  st_focus ls_fs (fun f s => mk_lsys (ls_learning s) (ls_world s) f) m.

(** [datetime.now()] *)
Definition clock : ST (lsys W) datetime := fun s => (s, Ok (now (ls_world s))).

(** The chat request every method of the class makes. *)
Definition ask_gpt4 (system user : string) : ST (lsys W) pyval :=
  s ← st_get;
  on_world (route_request (learning_router (ls_learning s)) "gpt-4" "chat"
              (kw_set_messages no_kwargs [mk_message "system" system; mk_message "user" user])).

(** [_store_learning(learning)] *)
Definition store_learning (learning : pyval) : ST (lsys W) unit :=
  st_modify (fun s => mk_lsys (mk_learning (learning_router (ls_learning s))
                                (current_learnings (ls_learning s) ++ [learning]))
                              (ls_world s) (ls_fs s));;
  d ← clock;
  on_fs (fs_write env (learning_file (stamp d)) (json_dumps (Some 2) learning)).

(** [_analyze_interaction(interaction)] *)
Definition analyze_interaction (interaction : pyval) : ST (lsys W) pyval :=
  st_try
    (user_input ← st_lift (py_get interaction "user_input" PNone);
     agent_response ← st_lift (py_get interaction "agent_response" PNone);
     success ← st_lift (py_get interaction "success" PNone);
     duration ← st_lift (py_get interaction "duration" PNone);
     analysis ← ask_gpt4 "You are an interaction analysis specialist."
                  (interaction_prompt user_input agent_response success duration);
     st_lift (py_json_loads analysis))
    (fun e => mret (prefixed_error "Analysis failed: " e)).

(** [_analyze_code_changes(old_code, new_code)] *)
Definition learning_analyze_code_changes (old_code new_code : string) : ST (lsys W) pyval :=
  st_try
    (analysis ← ask_gpt4 "You are a code analysis specialist." (code_changes_prompt old_code new_code);
     st_lift (py_json_loads analysis))
    (fun e => mret (prefixed_error "Analysis failed: " e)).

(** [learn_from_interaction(interaction)] *)
Definition learn_from_interaction (interaction : pyval) : ST (lsys W) pyval :=
  st_try
    (analysis ← analyze_interaction interaction;
     d ← clock;
     store_learning (interaction_learning (isoformat d) interaction analysis);;
     mret analysis)
    (fun e => mret (prefixed_error "Failed to learn from interaction: " e)).

(** [learn_from_code_changes(file_path, old_code, new_code)] *)
Definition learn_from_code_changes (file_path old_code new_code : string) : ST (lsys W) pyval :=
  st_try
    (analysis ← learning_analyze_code_changes old_code new_code;
     d ← clock;
     store_learning (code_learning (isoformat d) file_path analysis);;
     mret analysis)
    (fun e => mret (prefixed_error "Failed to learn from code changes: " e)).

(** The loop over [learning_files[:limit]]: a file that cannot be read
    or parsed is skipped. *)
Fixpoint load_learnings (fs : fs_state) (files : list string) : list pyval :=
  match files with
  | [] => []
  | file :: rest =>
      match fs !! file with
      | Some text =>
          match json_loads text with
          | Ok learning => learning :: load_learnings fs rest
          | Err _ => load_learnings fs rest
          end
      | None => load_learnings fs rest
      end
  end.

(** [_get_recent_learnings(limit)] *)
Definition get_recent_learnings (limit : nat) : ST (lsys W) (list pyval) :=
  s ← st_get;
  let files := sort_desc id (learning_files (ls_fs s)) in
  let all := load_learnings (ls_fs s) (take limit files) ++ current_learnings (ls_learning s) in
  sorted ← st_lift (sort_by_timestamp all);
  mret (take limit sorted).

(** [generate_improvement_plan()] *)
Definition generate_improvement_plan : ST (lsys W) pyval :=
  st_try
    (recent_learnings ← get_recent_learnings 50;
     response ← ask_gpt4 "You are an AI learning specialist."
                  (plan_prompt (json_dumps (Some 2) (PList recent_learnings)));
     d ← clock;
     st_lift (structure_improvement_plan response d))
    (fun e => mret (prefixed_error "Failed to generate improvement plan: " e)).
End LearningOps.

(** ** File names and the directory listing *)

(** [f"learning_{timestamp}.json"] *)
Definition learning_name (ts : string) : string := "learning_" +:+ ts +:+ ".json".

Lemma substring_app_l a b n : String.substring (String.length a) n (a +:+ b) = String.substring 0 n b.
Proof. induction a as [|c a IH]; [done|]. rewrite str_app_cons. exact IH. Qed.

Lemma substring_full b : String.substring 0 (String.length b) b = b.
Proof. induction b as [|c b IH]; [done|]. simpl. by rewrite IH. Qed.

Lemma ends_with_app a suf : ends_with suf (a +:+ suf) = true.
Proof.
  unfold ends_with. rewrite str_app_length, bool_decide_eq_true_2 by lia. simpl.
  replace (String.length a + String.length suf - String.length suf) with (String.length a) by lia.
  rewrite substring_app_l, substring_full. apply String.eqb_refl.
Qed.

Lemma learning_name_no_slash ts :
  str_has slash ts = false -> str_has slash (learning_name ts) = false.
Proof. intros Hts. unfold learning_name. by rewrite !str_has_app, Hts. Qed.

(** [learning_name] is one part: not empty, not [.], no [/]. *)
Lemma parse_learning_name ts :
  str_has slash ts = false -> parse_path (learning_name ts) = mk_path "" [learning_name ts].
Proof.
  intros Hts. unfold parse_path. rewrite str_split_on_single by by apply learning_name_no_slash.
  unfold learning_name. rewrite !str_app_cons. simpl. reflexivity.
Qed.

Lemma learning_file_spec ts :
  str_has slash ts = false -> learning_file ts = "learning_history" +:+ "/" +:+ learning_name ts.
Proof.
  intros Hts. unfold learning_file, path_div. fold (learning_name ts).
  rewrite parse_learning_name by done. reflexivity.
Qed.

Lemma parse_learning_file ts :
  str_has slash ts = false ->
  parse_path (learning_file ts) = mk_path "" ["learning_history"; learning_name ts].
Proof.
  intros Hts. rewrite learning_file_spec by done. unfold parse_path.
  change ("/" +:+ learning_name ts) with (String slash (learning_name ts)).
  rewrite str_split_on_sep by reflexivity.
  rewrite str_split_on_single by by apply learning_name_no_slash.
  unfold learning_name. rewrite !str_app_cons. reflexivity.
Qed.

Lemma is_learning_file_name ts :
  str_has slash ts = false -> is_learning_file (learning_file ts) = true.
Proof.
  intros Hts. unfold is_learning_file. rewrite parse_learning_file by done.
  cbn [path_root path_parts]. rewrite bool_decide_eq_true_2 by done. unfold learning_name.
  rewrite String.eqb_refl, (str_app_assoc "learning_" ts ".json"), ends_with_app, andb_true_r.
  simpl. apply str_prefix_spec. eexists. by rewrite <- str_app_assoc.
Qed.

Lemma learning_files_insert_new fs p c :
  fs !! p = None ->
  learning_files (<[p := c]> fs) ≡ₚ (if is_learning_file p then [p] else []) ++ learning_files fs.
Proof.
  intros Hp. unfold learning_files.
  rewrite (filter_Permutation _ _ _ (Permutation_map fst (map_to_list_insert fs p c Hp))).
  simpl. rewrite filter_cons. by destruct (is_learning_file p).
Qed.

Lemma learning_files_insert_old fs p c c' :
  fs !! p = Some c' -> learning_files (<[p := c]> fs) ≡ₚ learning_files fs.
Proof.
  intros Hp. rewrite <- (insert_delete_id fs p c') at 2 by done.
  rewrite <- (insert_delete_eq fs p c).
  rewrite !learning_files_insert_new by by rewrite lookup_delete_eq. done.
Qed.

(** The sorted listing after a write: the written file is added unless
    it was there. *)
Lemma sorted_files_insert fs p c :
  sort_desc id (learning_files (<[p := c]> fs)) =
  sort_desc id ((if is_learning_file p && negb (bool_decide (is_Some (fs !! p))) then [p] else []) ++
                learning_files fs).
Proof.
  apply sort_desc_id_perm. destruct (fs !! p) as [c'|] eqn:Hp.
  - rewrite learning_files_insert_old by done. rewrite bool_decide_eq_true_2 by by eexists.
    by rewrite andb_false_r.
  - rewrite learning_files_insert_new by done. rewrite bool_decide_eq_false_2 by by intros [].
    by rewrite andb_true_r.
Qed.

(** ** The effect of each operation *)

(** [d.get(k)] of a dict. *)
Definition dict_value (d : pydict string pyval) (k : string) : pyval :=
  match dict_get d k with Some x => x | None => PNone end.

(** The chat request of [_analyze_interaction] for the dict [d]. *)
Definition interaction_request `{PyRepr} (d : pydict string pyval) : kwargs :=
  kw_set_messages no_kwargs
    [mk_message "system" "You are an interaction analysis specialist.";
     mk_message "user" (interaction_prompt (dict_value d "user_input") (dict_value d "agent_response")
                          (dict_value d "success") (dict_value d "duration"))].

(** What [_analyze_interaction] returns for a reply of the router. *)
Definition analysis_of `{PyJson} (reply : res pyval) : pyval :=
  match reply with
  | Ok v => match py_json_loads v with
            | Ok a => a
            | Err e => prefixed_error "Analysis failed: " e
            end
  | Err e => prefixed_error "Analysis failed: " e
  end.

Section Runs.
Context `{PyJson} `{PyRepr} {W : Type} (now : W -> datetime) (env : os_env).
Implicit Types (r : ModelRouter W) (w : W).

Lemma store_learning_run r cur w f L :
  store_learning now env L (mk_lsys (mk_learning r cur) w f) =
  let '(f', res) := fs_write env (learning_file (stamp (now w))) (json_dumps (Some 2) L) f in
  (mk_lsys (mk_learning r (cur ++ [L])) w f', res).
Proof.
  unfold store_learning, clock, on_fs. st_run. simpl.
  by destruct (fs_write _ _ _ _).
Qed.

(** [_analyze_interaction] never raises: the reply is parsed, and any
    exception becomes [{"error": "Analysis failed: ..."}]. *)
Lemma analyze_interaction_run r cur w f d :
  analyze_interaction (PDict d) (mk_lsys (mk_learning r cur) w f) =
  let '(w', reply) := route_request r "gpt-4" "chat" (interaction_request d) w in
  (mk_lsys (mk_learning r cur) w' f, Ok (analysis_of reply)).
Proof.
  unfold analyze_interaction, ask_gpt4, on_world. st_run. simpl.
  unfold interaction_request, dict_value.
  destruct (route_request _ _ _ _ _) as [w' [v|e]]; simpl; [|done].
  by destruct (py_json_loads v).
Qed.

Lemma learn_from_interaction_run r cur w f d :
  learn_from_interaction now env (PDict d) (mk_lsys (mk_learning r cur) w f) =
  let '(w', reply) := route_request r "gpt-4" "chat" (interaction_request d) w in
  let L := interaction_learning (isoformat (now w')) (PDict d) (analysis_of reply) in
  let '(f', res) := fs_write env (learning_file (stamp (now w'))) (json_dumps (Some 2) L) f in
  (mk_lsys (mk_learning r (cur ++ [L])) w' f',
   match res with
   | Ok _ => Ok (analysis_of reply)
   | Err e => Ok (prefixed_error "Failed to learn from interaction: " e)
   end).
Proof.
  unfold learn_from_interaction. st_run.
  rewrite analyze_interaction_run. destruct (route_request _ _ _ _ _) as [w' reply]. simpl.
  rewrite store_learning_run. by destruct (fs_write _ _ _ _) as [f' []].
Qed.

Lemma get_recent_learnings_run limit (s : lsys W) :
  get_recent_learnings limit s =
  (s, match sort_by_timestamp (load_learnings (ls_fs s)
                                 (take limit (sort_desc id (learning_files (ls_fs s)))) ++
                               current_learnings (ls_learning s)) with
      | Ok sorted => Ok (take limit sorted)
      | Err e => Err e
      end).
Proof. unfold get_recent_learnings. st_run. by destruct (sort_by_timestamp _). Qed.
End Runs.

(** ** Theorems *)

(** A learning file that is in the file system is listed. *)
Lemma learning_files_present fs p c :
  fs !! p = Some c -> is_learning_file p = true -> learning_files fs ≠ [].
Proof.
  intros Hp Hl Hnil. rewrite <- (insert_delete_id fs p c) in Hnil by done.
  pose proof (learning_files_insert_new (delete p fs) p c (lookup_delete_eq fs p)) as Hperm.
  rewrite Hnil, Hl in Hperm. by apply Permutation_nil_cons in Hperm.
Qed.

(** ** Order of the recent learnings *)

Lemma res_map_Forall2 {A B} (f : A -> res B) l l' :
  res_map f l = Ok l' -> Forall2 (fun a b => f a = Ok b) l l'.
Proof.
  revert l'. induction l as [|x l IH]; intros l' Hl; simpl in Hl.
  - injection Hl as <-. constructor.
  - destruct (f x) as [y|] eqn:Hx; [|done]. simpl in Hl.
    destruct (res_map f l) as [ys|]; [|done]. injection Hl as <-. constructor; [done|by apply IH].
Qed.

(** Each key of the sort is the time stamp of its learning. *)
Definition key_of (p : string * pyval) : Prop := py_get p.2 "timestamp" (PStr "") = Ok (PStr p.1).

Lemma keyed_keys all keys keyed :
  Forall2 (fun x k => py_get x "timestamp" (PStr "") = Ok k) all keys ->
  Forall2 (fun a b => (let '(k, x) := a in str_key k x) = Ok b) (zip keys all) keyed ->
  Forall key_of keyed.
Proof.
  intros Hk. revert keyed. induction Hk as [|x k all keys Hx _ IH]; intros keyed Hz.
  - inversion Hz. constructor.
  - inversion Hz as [|a b ? keyed' Hab Hrest]; subst. constructor; [|by apply IH].
    destruct k; try discriminate. injection Hab as <-. done.
Qed.

Lemma Sorted_map_inv {A B} (P : A -> Prop) (R : relation A) (R' : relation B) (f : A -> B) l :
  (forall a b, P a -> P b -> R a b -> R' (f a) (f b)) ->
  Forall P l -> Sorted R l -> Sorted R' (map f l).
Proof.
  intros Himp Hall Hs. induction Hs as [|a l Hs IH Hhd]; simpl; constructor.
  - apply IH. by inversion Hall.
  - destruct Hhd as [|b l' Hab]; simpl; constructor.
    inversion Hall as [|? ? Ha Hl]; subst. inversion Hl; subst. by apply Himp.
Qed.

Lemma Sorted_take {A} (R : relation A) n l : Sorted R l -> Sorted R (take n l).
Proof.
  intros Hs. revert n. induction Hs as [|a l Hs IH Hhd]; intros [|n]; simpl; try constructor.
  - apply IH.
  - destruct Hhd as [|b l']; destruct n; simpl; constructor; done.
Qed.

(** A learning whose ["timestamp"] is the [isoformat] of a valid date. *)
Definition stamped (x : pyval) (d : datetime) : Prop :=
  py_get x "timestamp" (PStr "") = Ok (PStr (isoformat d)) /\ dt_valid d.

(** [x] is not older than [y]. *)
Definition not_older (x y : pyval) : Prop :=
  forall dx dy, stamped x dx -> stamped y dy -> dt_compare dx dy <> Lt.

Lemma not_older_of_keys a b :
  key_of a -> key_of b -> desc fst a b -> not_older a.2 b.2.
Proof.
  destruct a as [ka x], b as [kb y]. unfold key_of, desc. simpl.
  intros Ha Hb Hle dx dy [Hx Vx] [Hy Vy].
  rewrite Ha in Hx. rewrite Hb in Hy. injection Hx as ->. injection Hy as ->.
  rewrite <- isoformat_compare by done. rewrite String.compare_antisym.
  unfold String.leb in Hle. by destruct (String.compare (isoformat dy) (isoformat dx)).
Qed.

Lemma sort_by_timestamp_sorted all sorted :
  sort_by_timestamp all = Ok sorted -> Sorted not_older sorted.
Proof.
  unfold sort_by_timestamp. destruct (res_map _ all) as [keys|] eqn:Hkeys; simpl; [|done].
  destruct all as [|x [|y all']] eqn:Hall; [by intros H; injection H as <-; repeat constructor..|].
  destruct (res_map (fun '(k, x) => str_key k x) _) as [keyed|] eqn:Hkeyed; simpl; [|done].
  intros H; injection H as <-. rewrite <- Hall in Hkeys, Hkeyed.
  pose proof (keyed_keys _ _ _ (res_map_Forall2 _ _ _ Hkeys) (res_map_Forall2 _ _ _ Hkeyed)) as Hinv.
  apply (Sorted_map_inv key_of (desc fst)).
  - intros a b Ha Hb Hab. by apply not_older_of_keys.
  - eapply Forall_Permutation; [done| |exact Hinv]. apply sort_desc_perm.
  - apply sort_desc_sorted.
Qed.

Section LearningTheorems.
Context `{PyJson} `{PyRepr} {W : Type} (now : W -> datetime) (env : os_env).
Implicit Types (r : ModelRouter W) (w : W).

(** C14: every learning of the running process is counted twice.
    [_store_learning] keeps a learning in [current_learnings] and also
    writes it to its file, and [_get_recent_learnings] reads the files
    and then adds [current_learnings]: after one
    [learn_from_interaction] in a directory without learning files, the
    recent learnings (whose JSON the improvement plan sends to the
    model) are that one learning twice. *)
Theorem recent_learnings_duplicate r w f d w' reply A :
  learning_files f = [] ->
  route_request r "gpt-4" "chat" (interaction_request d) w = (w', Ok (PStr reply)) ->
  json_loads reply = Ok A ->
  let L := interaction_learning (isoformat (now w')) (PDict d) A in
  env_write env (learning_file (stamp (now w'))) (json_dumps (Some 2) L) = WriteOk ->
  json_reads_back (Some 2) L ->
  exists s1,
    learn_from_interaction now env (PDict d) (mk_lsys (mk_learning r []) w f) = (s1, Ok A) /\
    get_recent_learnings 50 s1 = (s1, Ok [L; L]).
Proof.
  intros Hnone Hr Hj L Hw Hback.
  rewrite learn_from_interaction_run, Hr. cbv zeta. simpl. rewrite Hj. fold L.
  unfold fs_write. rewrite Hw. eexists. split; [reflexivity|].
  rewrite get_recent_learnings_run. cbn [ls_fs ls_learning current_learnings].
  pose proof (is_learning_file_name (stamp (now w')) (stamp_no_slash _)) as Hfile.
  rewrite sorted_files_insert, Hfile, Hnone.
  destruct (f !! learning_file (stamp (now w'))) as [c|] eqn:Hp.
  { exfalso. by apply (learning_files_present f _ c Hp Hfile). }
  simpl. rewrite lookup_insert_eq, Hback. simpl.
  by destruct (String.ltb _ _).
Qed.

(** C15: two learnings stored within the same second share one file.
    [_store_learning] names the file after [strftime("%Y%m%d_%H%M%S")]:
    when the clock agrees up to the second at the two stores, the second
    learning overwrites the file of the first.  Both stay in
    [current_learnings], but after a restart (a new [AgentLearning] over
    the same directory) only the second one is read back: the first is
    lost. *)
Theorem same_second_overwrites r cur w1 w2 f d1 d2 :
  dt_valid (now w1) -> dt_valid (now w2) ->
  [year (now w1); month (now w1); day (now w1); hour (now w1); minute (now w1); second (now w1)] =
  [year (now w2); month (now w2); day (now w2); hour (now w2); minute (now w2); second (now w2)] ->
  let p := learning_file (stamp (now w1)) in
  env_write env p (json_dumps (Some 2) (PDict d1)) = WriteOk ->
  env_write env p (json_dumps (Some 2) (PDict d2)) = WriteOk ->
  exists f1 f2,
    store_learning now env (PDict d1) (mk_lsys (mk_learning r cur) w1 f) =
      (mk_lsys (mk_learning r (cur ++ [PDict d1])) w1 f1, Ok tt) /\
    store_learning now env (PDict d2) (mk_lsys (mk_learning r (cur ++ [PDict d1])) w2 f1) =
      (mk_lsys (mk_learning r (cur ++ [PDict d1] ++ [PDict d2])) w2 f2, Ok tt) /\
    f2 !! p = Some (json_dumps (Some 2) (PDict d2)) /\
    (learning_files f = [] -> json_reads_back (Some 2) (PDict d2) ->
     get_recent_learnings 50 (mk_lsys (mk_learning r []) w2 f2) =
       (mk_lsys (mk_learning r []) w2 f2, Ok [PDict d2])).
Proof.
  intros V1 V2 Hsec p Hw1 Hw2.
  assert (Hst : stamp (now w2) = stamp (now w1)) by (symmetry; by apply stamp_eq_iff).
  exists (<[p := json_dumps (Some 2) (PDict d1)]> f),
    (<[p := json_dumps (Some 2) (PDict d2)]> (<[p := json_dumps (Some 2) (PDict d1)]> f)).
  rewrite !store_learning_run, Hst. fold p. unfold fs_write. rewrite Hw1, Hw2.
  split; [reflexivity|]. split; [by rewrite app_assoc|].
  split; [by rewrite lookup_insert_eq|].
  intros Hnone Hback. rewrite get_recent_learnings_run. cbn [ls_fs ls_learning current_learnings].
  rewrite insert_insert_eq.
  assert (Hfile : is_learning_file p = true) by apply is_learning_file_name, stamp_no_slash.
  rewrite sorted_files_insert. fold p. rewrite Hfile, Hnone.
  destruct (f !! p) as [c|] eqn:Hp.
  { exfalso. by apply (learning_files_present f p c Hp Hfile). }
  simpl. rewrite lookup_insert_eq, Hback. reflexivity.
Qed.
(** C24: a failed analysis is stored as a learning.  When the model
    call of [_analyze_interaction] raises, the method returns
    [{"error": "Analysis failed: ..."}] instead of raising, so
    [learn_from_interaction] stores that error dict as the analysis of a
    new learning, in memory and on disk, and returns it as its result. *)
Theorem learn_from_interaction_stores_failure r cur w f d w' e :
  route_request r "gpt-4" "chat" (interaction_request d) w = (w', Err e) ->
  let A := prefixed_error "Analysis failed: " e in
  let L := interaction_learning (isoformat (now w')) (PDict d) A in
  env_write env (learning_file (stamp (now w'))) (json_dumps (Some 2) L) = WriteOk ->
  learn_from_interaction now env (PDict d) (mk_lsys (mk_learning r cur) w f) =
    (mk_lsys (mk_learning r (cur ++ [L])) w'
       (<[learning_file (stamp (now w')) := json_dumps (Some 2) L]> f), Ok A).
Proof.
  intros Hr A L Hw. rewrite learn_from_interaction_run, Hr. cbv zeta. simpl.
  fold A L. unfold fs_write. by rewrite Hw.
Qed.

(** The chat request of [generate_improvement_plan]. *)
Definition plan_request (recent : list pyval) : kwargs :=
  kw_set_messages no_kwargs
    [mk_message "system" "You are an AI learning specialist.";
     mk_message "user" (plan_prompt (json_dumps (Some 2) (PList recent)))].

(** C25: [generate_improvement_plan] is annotated to return a dict but
    returns whatever JSON value the reply holds: a list, a number or a
    string as well as a dict; only a reply that is not JSON at all
    becomes the [{"raw_plan", "timestamp", "status": "unstructured"}]
    dict. *)
Theorem generate_improvement_plan_result (s : lsys W) recent w' reply :
  get_recent_learnings 50 s = (s, Ok recent) ->
  route_request (learning_router (ls_learning s)) "gpt-4" "chat" (plan_request recent) (ls_world s) =
    (w', Ok (PStr reply)) ->
  (forall v, json_loads reply = Ok v ->
   generate_improvement_plan now s = (mk_lsys (ls_learning s) w' (ls_fs s), Ok v)) /\
  (forall m, json_loads reply = Err (JSONDecodeError m) ->
   generate_improvement_plan now s =
     (mk_lsys (ls_learning s) w' (ls_fs s),
      Ok (PDict [("raw_plan", PStr reply); ("timestamp", PStr (isoformat (now w')));
                 ("status", PStr "unstructured")]))).
Proof.
  intros Hrec Hr. unfold generate_improvement_plan, ask_gpt4, on_world, clock.
  st_run. rewrite Hrec. simpl.
  unfold plan_request in Hr. rewrite Hr. simpl.
  split; [intros v Hv|intros m Hm]; unfold structure_improvement_plan; simpl; by rewrite ?Hv, ?Hm.
Qed.
(** C16: the recent learnings come newest first.
    [_get_recent_learnings(limit)] returns at most [limit] learnings,
    and of two neighbours whose time stamps are [isoformat] strings of
    valid dates, the first is not older than the second: sorting the
    strings in reverse, as the code does, is sorting the dates, newest
    first. *)
Theorem recent_learnings_newest_first limit (s : lsys W) res :
  get_recent_learnings limit s = (s, Ok res) ->
  length res <= limit /\ Sorted not_older res.
Proof.
  rewrite get_recent_learnings_run. destruct (sort_by_timestamp _) as [sorted|] eqn:Hs; [|done].
  intros [= <-]. split; [rewrite length_take; lia|].
  apply Sorted_take. by eapply sort_by_timestamp_sorted.
Qed.
End LearningTheorems.

(** ** Concrete runs

    A [gpt-4] spy whose world is the log of its calls, a clock that
    reads the same second whatever the log and counts the calls in the
    microseconds, and a [json] codec that writes a learning as ["J"] and
    a one-key dict as its key, and reads them back. *)

Definition gpt4_router : ModelRouter (list string) :=
  register_model new_router "gpt-4" spy_model.

Definition tick_clock (log : list string) : datetime :=
  mk_datetime 2024 5 6 7 8 9 (Z.of_nat (length log)).

Definition learning_J : pyval :=
  interaction_learning (isoformat (tick_clock ["generate_response"])) (PDict []) (PDict []).

Definition dict_a : pydict string pyval := [("a", PInt 1)].
Definition dict_b : pydict string pyval := [("b", PInt 2)].

#[local] Instance learning_json : PyJson := {|
  json_dumps _ v := match v with
                    | PDict [(k, _)] => k
                    | PDict _ => "J"
                    | PList [] => "[]"
                    | _ => "null"
                    end;
  json_loads s := if String.eqb s "J" then Ok learning_J
                  else if String.eqb s "b" then Ok (PDict dict_b)
                  else if String.eqb s "a" then Ok (PDict dict_a)
                  else if String.eqb s "ok" then Ok (PDict [])
                  else if String.eqb s "[]" then Ok (PList [])
                  else Err (JSONDecodeError "Expecting value: line 1 column 1 (char 0)");
|}.

#[local] Instance plain_repr : PyRepr := {| py_repr _ := "None" |}.

Lemma recent_learnings_duplicate_witness :
  exists s1,
    learn_from_interaction tick_clock reliable_env (PDict [])
      (mk_lsys (mk_learning gpt4_router []) [] ∅) = (s1, Ok (PDict [])) /\
    get_recent_learnings 50 s1 = (s1, Ok [learning_J; learning_J]).
Proof.
  eapply (recent_learnings_duplicate tick_clock reliable_env gpt4_router [] ∅ []
            ["generate_response"] "ok" (PDict [])); reflexivity.
Defined.

(** Two stores in the same second, at microseconds 0 and 1. *)
Lemma same_second_overwrites_witness :
  let p := learning_file (stamp (tick_clock [])) in
  exists f1 f2,
    store_learning tick_clock reliable_env (PDict dict_a) (mk_lsys (mk_learning gpt4_router []) [] ∅) =
      (mk_lsys (mk_learning gpt4_router ([] ++ [PDict dict_a])) [] f1, Ok tt) /\
    store_learning tick_clock reliable_env (PDict dict_b)
      (mk_lsys (mk_learning gpt4_router ([] ++ [PDict dict_a])) ["x"] f1) =
      (mk_lsys (mk_learning gpt4_router ([] ++ [PDict dict_a] ++ [PDict dict_b])) ["x"] f2, Ok tt) /\
    f2 !! p = Some (json_dumps (Some 2) (PDict dict_b)) /\
    (learning_files ∅ = [] -> json_reads_back (Some 2) (PDict dict_b) ->
     get_recent_learnings 50 (mk_lsys (mk_learning gpt4_router []) ["x"] f2) =
       (mk_lsys (mk_learning gpt4_router []) ["x"] f2, Ok [PDict dict_b])).
Proof.
  apply (same_second_overwrites tick_clock reliable_env gpt4_router [] [] ["x"] ∅ dict_a dict_b);
    first [unfold dt_valid; simpl; lia | reflexivity].
Defined.

(** No [gpt-4] is registered: the analysis fails and is stored. *)
Definition failed_analysis : pyval :=
  prefixed_error "Analysis failed: " (ModelNotFoundError ("Model " +:+ "gpt-4" +:+ " not found")).

Definition failed_learning : pyval :=
  interaction_learning (isoformat (tick_clock [])) (PDict []) failed_analysis.

Lemma learn_from_interaction_stores_failure_witness :
  learn_from_interaction tick_clock reliable_env (PDict []) (mk_lsys (mk_learning new_router []) [] ∅) =
    (mk_lsys (mk_learning new_router ([] ++ [failed_learning])) []
       (<[learning_file (stamp (tick_clock [])) := json_dumps (Some 2) failed_learning]> ∅),
     Ok failed_analysis).
Proof.
  apply (learn_from_interaction_stores_failure tick_clock reliable_env new_router [] [] ∅ [] []
           (ModelNotFoundError ("Model " +:+ "gpt-4" +:+ " not found"))); reflexivity.
Defined.

(** A plan asked of the spy, whose reply ["ok"] reads as a JSON dict. *)
Lemma generate_improvement_plan_result_witness :
  let s := mk_lsys (mk_learning gpt4_router []) [] ∅ in
  (forall v, json_loads "ok" = Ok v ->
   generate_improvement_plan tick_clock s = (mk_lsys (ls_learning s) ["generate_response"] ∅, Ok v)) /\
  (forall m, json_loads "ok" = Err (JSONDecodeError m) ->
   generate_improvement_plan tick_clock s =
     (mk_lsys (ls_learning s) ["generate_response"] ∅,
      Ok (PDict [("raw_plan", PStr "ok");
                 ("timestamp", PStr (isoformat (tick_clock ["generate_response"])));
                 ("status", PStr "unstructured")]))).
Proof.
  apply (generate_improvement_plan_result tick_clock (mk_lsys (mk_learning gpt4_router []) [] ∅) []
           ["generate_response"] "ok"); reflexivity.
Defined.

(** Two learnings of the running process, the older one first. *)
Definition older_learning : pyval := interaction_learning (isoformat (tick_clock [])) (PDict []) (PDict []).

Lemma recent_learnings_newest_first_witness :
  let s := mk_lsys (mk_learning new_router [older_learning; learning_J]) ([] : list string) ∅ in
  get_recent_learnings 2 s = (s, Ok [learning_J; older_learning]) /\
  length [learning_J; older_learning] <= 2 /\ Sorted not_older [learning_J; older_learning].
Proof.
  split; [reflexivity|].
  by apply (recent_learnings_newest_first 2 (mk_lsys (mk_learning new_router [older_learning; learning_J]) ([] : list string) ∅)).
Defined.
