(* ===== verification/Endpoints.v ===== *)
(** * The HTTP API (api/endpoints.py)

    The module builds one [APIKeyManager], one [ModelRouter] and, over
    that same router object, the [Agent], the [AgentLearning] and the
    [CodeImprovement]; its ten handlers marshal a request to them.  The
    application state [app] holds each object once: the router is a
    single field that the agent, the learning system and the improvement
    system all read, so a model registered by [store_api_key] is seen by
    every later request (the aliasing of the Python objects).  None of
    the three systems assigns [self.model_router] or registers a model,
    so the lenses [on_agent] and [on_learning] write back everything of
    their component but the router.

    A handler is an [ST app pyval]: [Ok v] is the JSON body of a 200
    answer, [Err (HTTPException c d)] the answer FastAPI makes of that
    exception, and any other escaping exception a 500 of the server
    ([http_response]).  [str()] of an [HTTPException] is Starlette's
    ["<status>: <detail>"].

    The theorems show that every router reachable by requests holds only
    the adapters [store_api_key] registers, under their names; that one
    [store_api_key] makes the models of a service available to every
    system, and that removing the key leaves them registered and usable;
    that the 400 of [improve_agent] comes out as a 500; and that the
    learning and improvement systems, which always ask ["gpt-4"], answer
    with error dicts as successes when only a Claude key is stored. *)

From S2P Require Import Prelude PyDict PyString PyJson PyAst Safety FileSys Mutator Router Adapters Improvement Agent KeyManager DateTime Learning.
From Stdlib Require QArith_base.

(** The module-level objects of [endpoints.py]. *)
Record app := mk_app {
  app_keys : APIKeyManager;
  app_router : ModelRouter pworld;
  app_memory : list mem_entry;
  app_learnings : list pyval;
  app_world : pworld;
  app_fs : fs_state;
}.

(** Lines 27-31: [APIKeyManager()] (no key: [generated_key] is the one
    [Fernet.generate_key()] makes), [ModelRouter()], and the three
    systems over the router, with empty memories. *)
Definition app_init `{JsonStrDict} (generated_key : string) (w : pworld) (fs : fs_state)
    : res app :=
  match new_key_manager None generated_key fs with
  | (fs', Ok km) => Ok (mk_app km new_router [] [] w fs')
  | (_, Err e) => Err e
  end.

(** ** Lenses onto the components *)

Definition on_keys {A} (m : ST (APIKeyManager * fs_state) A) : ST app A :=
  st_focus (fun s => (app_keys s, app_fs s))
    (fun '(km, fs) s => mk_app km (app_router s) (app_memory s) (app_learnings s) (app_world s) fs) m.

Definition on_app_world {A} (m : ST pworld A) : ST app A :=
  st_focus app_world
    (fun w s => mk_app (app_keys s) (app_router s) (app_memory s) (app_learnings s) w (app_fs s)) m.

Definition on_app_fs {A} (m : ST fs_state A) : ST app A :=
  st_focus app_fs
    (fun fs s => mk_app (app_keys s) (app_router s) (app_memory s) (app_learnings s) (app_world s) fs) m.

(** The [Agent] the module built, over the shared router. *)
Definition agent_view (s : app) : sys pworld :=
  mk_sys (mk_agent (app_router s) (app_memory s)) (app_world s) (app_fs s).

Definition on_agent {A} (m : ST (sys pworld) A) : ST app A :=
  st_focus agent_view
    (fun t s => mk_app (app_keys s) (app_router s) (memory (sys_agent t)) (app_learnings s)
                       (sys_world t) (sys_fs t)) m.

(** The [AgentLearning] the module built, over the shared router. *)
Definition learning_view (s : app) : lsys pworld :=
  mk_lsys (mk_learning (app_router s) (app_learnings s)) (app_world s) (app_fs s).

Definition on_learning {A} (m : ST (lsys pworld) A) : ST app A :=
  st_focus learning_view
    (fun t s => mk_app (app_keys s) (app_router s) (app_memory s)
                       (current_learnings (ls_learning t)) (ls_world t) (ls_fs t)) m.

(** [model_router.register_model(name, model)] *)
Definition register (name : string) (m : AIModel pworld) : ST app unit :=
  st_modify (fun s => mk_app (app_keys s) (register_model (app_router s) name m) (app_memory s)
                             (app_learnings s) (app_world s) (app_fs s)).

(** [except Exception as e: raise HTTPException(status_code=500, detail=str(e))] *)
Definition catch_500 {A} (m : ST app A) : ST app A :=
  st_try m (fun e => st_raise (HTTPException 500 (exn_str e))).

(** [{"status": "success", "message": msg}] *)
Definition status_message (msg : string) : pyval :=
  PDict [("status", PStr "success"); ("message", PStr msg)].

(** [x or d] *)
Definition py_or (x d : pyval) : pyval := if py_truthy x then x else d.

(** The dict [record_learning] passes to [learn_from_interaction]. *)
Definition interaction_dict (user_input agent_response : string) (success : bool)
    (duration : QArith_base.Q) (metadata : pyval) : pyval :=
  PDict [("user_input", PStr user_input); ("agent_response", PStr agent_response);
         ("success", PBool success); ("duration", PFloat duration);
         ("metadata", py_or metadata (PDict []))].

(** ** The handlers *)

Section Handlers.
Context `{Fernet} `{JsonStrDict} `{PyParser} `{PyUnparser} `{PyJson} `{PyRepr}.
Context (env : os_env) (prov : providers).
Context (loop_time : pworld -> QArith_base.Q) (now : pworld -> datetime).
(** [Path(__file__).parent] of [agent.py] and the names its glob lists. *)
Context (agent_dir : string) (agent_files : list string).

(** [POST /api/keys] *)
Definition store_api_key (service key : string) : ST app pyval :=
  catch_500
    (on_keys (store_key env service key);;
     (if bool_decide (service = "openai") then
        m1 ← on_app_world (new_openai_model prov key);
        register "gpt-4" m1;;
        m2 ← on_app_world (new_openai_model prov key);
        register "gpt-3.5-turbo" m2
      else if bool_decide (service = "anthropic") then
        register "claude" (AnthropicModel prov key)
      else mret tt);;
     mret (status_message ("API key for " +:+ service +:+ " stored"))).

(** [GET /api/keys/services] *)
Definition list_services_endpoint : ST app pyval :=
  s ← st_get;
  mret (PDict [("services", PList (map PStr (list_services (app_keys s))))]).

(** [DELETE /api/keys/{service}]: no [try]; an exception of
    [remove_key] escapes. *)
Definition remove_api_key (service : string) : ST app pyval :=
  removed ← on_keys (remove_key env service);
  if (removed : bool) then mret (status_message ("API key for " +:+ service +:+ " removed"))
  else st_raise (HTTPException 404 ("No API key found for " +:+ service)).

(** [POST /api/chat] *)
Definition chat (message model : string) : ST app pyval :=
  catch_500
    (response ← on_agent (process_request loop_time message model);
     mret (PDict [("reply", response)])).

(** [POST /api/code/modify] *)
Definition modify_code (file_path changes : string) : ST app pyval :=
  catch_500
    (result ← on_agent (execute_code_modification env file_path changes);
     mret (PDict result)).

(** [GET /api/agent/analysis] *)
Definition analyze_agent : ST app pyval :=
  catch_500 (analysis ← on_agent (analyze_self agent_dir agent_files); mret (PDict analysis)).

(** [POST /api/agent/improve]: the [HTTPException(400)] is raised inside
    the [try] and caught by its [except Exception]. *)
Definition improve_agent (target_file improvement_type : string) : ST app pyval :=
  catch_500
    (current_code ← on_app_fs (fs_read target_file);
     s ← st_get;
     suggestions ← on_app_world (suggest_improvements (app_router s) current_code);
     if bool_decide (improvement_type = "analyze_only") then mret suggestions
     else if bool_decide (improvement_type = "implement") then
       result ← on_app_fs (implement_improvements env target_file suggestions);
       match result with
       | ImproveError msg =>
           if py_truthy (PStr msg) then st_raise (HTTPException 400 msg)
           else mret (improve_result_dict result)
       | ImproveSuccess _ _ => mret (improve_result_dict result)
       end
     else mret suggestions).

(** [POST /api/agent/learn] *)
Definition record_learning (user_input agent_response : string) (success : bool)
    (duration : QArith_base.Q) (metadata : pyval) : ST app pyval :=
  catch_500
    (on_learning (learn_from_interaction now env
                    (interaction_dict user_input agent_response success duration metadata))).

(** [GET /api/agent/improvement-plan] *)
Definition get_improvement_plan : ST app pyval :=
  catch_500 (on_learning (generate_improvement_plan now)).

(** [POST /api/agent/code-learning] *)
Definition learn_from_code (file_path changes : string) : ST app pyval :=
  catch_500
    (old_code ← on_app_fs (fs_read file_path);
     on_learning (learn_from_code_changes now env file_path old_code changes)).
End Handlers.

(** A request to the API: the handler and its decoded parameters. *)
Inductive request :=
| ReqStoreKey (service key : string)
| ReqListServices
| ReqRemoveKey (service : string)
| ReqChat (message model : string)
| ReqModifyCode (file_path changes : string)
| ReqAnalyzeAgent
| ReqImproveAgent (target_file improvement_type : string)
| ReqRecordLearning (user_input agent_response : string) (success : bool)
    (duration : QArith_base.Q) (metadata : pyval)
| ReqImprovementPlan
| ReqCodeLearning (file_path changes : string).

Section Dispatch.
Context `{Fernet} `{JsonStrDict} `{PyParser} `{PyUnparser} `{PyJson} `{PyRepr}.
Context (env : os_env) (prov : providers).
Context (loop_time : pworld -> QArith_base.Q) (now : pworld -> datetime).
Context (agent_dir : string) (agent_files : list string).

(** FastAPI's routing of a request to its handler. *)
Definition handle (r : request) : ST app pyval :=
  match r with
  | ReqStoreKey service key => store_api_key env prov service key
  | ReqListServices => list_services_endpoint
  | ReqRemoveKey service => remove_api_key env service
  | ReqChat message model => chat loop_time message model
  | ReqModifyCode file_path changes => modify_code env file_path changes
  | ReqAnalyzeAgent => analyze_agent agent_dir agent_files
  | ReqImproveAgent target improvement_type => improve_agent env target improvement_type
  | ReqRecordLearning ui ar ok d md => record_learning env now ui ar ok d md
  | ReqImprovementPlan => get_improvement_plan now
  | ReqCodeLearning file_path changes => learn_from_code env now file_path changes
  end.

(** The states of a server started with [generated_key] as its Fernet
    key, after any sequence of requests. *)
Inductive app_reachable (generated_key : string) : app -> Prop :=
| app_reach_init w fs s : app_init generated_key w fs = Ok s -> app_reachable generated_key s
| app_reach_step s r : app_reachable generated_key s -> app_reachable generated_key (handle r s).1.
End Dispatch.

(** The answer FastAPI sends for a handler's outcome: the body of a 200,
    the status and [{"detail": ...}] of an [HTTPException], or a 500 for
    any other exception that escapes. *)
Definition http_response (r : res pyval) : Z * pyval :=
  match r with
  | Ok v => (200%Z, v)
  | Err (HTTPException code detail) => (code, PDict [("detail", PStr detail)])
  | Err _ => (500%Z, PStr "Internal Server Error")
  end.

(** ** What a handler does to the router *)

Section Preserves.
Context (P : ModelRouter pworld -> Prop).

(** [m] keeps the property [P] of the shared router. *)
Definition preserves {A} (m : ST app A) : Prop :=
  forall s, P (app_router s) -> P (app_router (m s).1).

(** [m] returns only values satisfying [Q]. *)
Definition yields {A} (Q : A -> Prop) (m : ST app A) : Prop :=
  forall s s' a, m s = (s', Ok a) -> Q a.

Lemma preserves_bind_yields {A B} (Q : A -> Prop) (m : ST app A) (k : A -> ST app B) :
  yields Q m -> preserves m -> (forall a, Q a -> preserves (k a)) -> preserves (a ← m; k a).
Proof.
  intros HQ Hm Hk s Hs. st_unfold. destruct (m s) as [s' [a|e]] eqn:Hms; simpl.
  - apply (Hk a (HQ _ _ _ Hms)). by apply (Hm s) in Hs; rewrite Hms in Hs.
  - by apply (Hm s) in Hs; rewrite Hms in Hs.
Qed.

Lemma preserves_bind {A B} (m : ST app A) (k : A -> ST app B) :
  preserves m -> (forall a, preserves (k a)) -> preserves (a ← m; k a).
Proof. intros Hm Hk. apply (preserves_bind_yields (fun _ => True)); auto. by intros ?. Qed.

Lemma preserves_try {A} (m : ST app A) h :
  preserves m -> (forall e, preserves (h e)) -> preserves (st_try m h).
Proof.
  intros Hm Hh s Hs. unfold st_try. destruct (m s) as [s' [a|e]] eqn:Hms;
    apply (Hm s) in Hs; rewrite Hms in Hs; [done|by apply Hh].
Qed.

Lemma preserves_ret {A} (a : A) : preserves (mret a).
Proof. by intros s. Qed.

Lemma preserves_raise {A} e : preserves (st_raise (A := A) e).
Proof. by intros s. Qed.

Lemma preserves_get : preserves st_get.
Proof. by intros s. Qed.

Lemma preserves_if {A} (b : bool) (m1 m2 : ST app A) :
  preserves m1 -> preserves m2 -> preserves (if b then m1 else m2).
Proof. by destruct b. Qed.

Lemma preserves_catch_500 {A} (m : ST app A) : preserves m -> preserves (catch_500 m).
Proof. intros Hm. apply preserves_try; [done|intros e; apply preserves_raise]. Qed.

Lemma preserves_on_keys {A} (m : ST (APIKeyManager * fs_state) A) : preserves (on_keys m).
Proof. intros s Hs. unfold on_keys, st_focus. by destruct (m _) as [[? ?] ?]. Qed.

Lemma preserves_on_app_world {A} (m : ST pworld A) : preserves (on_app_world m).
Proof. intros s Hs. unfold on_app_world, st_focus. by destruct (m _). Qed.

Lemma preserves_on_app_fs {A} (m : ST fs_state A) : preserves (on_app_fs m).
Proof. intros s Hs. unfold on_app_fs, st_focus. by destruct (m _). Qed.

Lemma preserves_on_agent {A} (m : ST (sys pworld) A) : preserves (on_agent m).
Proof. intros s Hs. unfold on_agent, st_focus. by destruct (m _). Qed.

Lemma preserves_on_learning {A} (m : ST (lsys pworld) A) : preserves (on_learning m).
Proof. intros s Hs. unfold on_learning, st_focus. by destruct (m _). Qed.

Lemma preserves_register n m :
  (forall r, P r -> P (register_model r n m)) -> preserves (register n m).
Proof. intros HP s Hs. by apply HP. Qed.
End Preserves.

Create HintDb endpoints discriminated.
#[export] Hint Resolve preserves_ret preserves_raise preserves_get preserves_on_keys
  preserves_on_app_world preserves_on_app_fs preserves_on_agent preserves_on_learning : endpoints.

(** Take a handler apart into the steps of its body. *)
Ltac preserves_steps :=
  repeat first
    [ apply preserves_catch_500
    | apply preserves_try; [|intros ?]
    | eapply preserves_bind_yields; [solve [eauto with endpoints]| |intros ? ?; cbv beta in *; subst]
    | apply preserves_bind; [|intros ?]
    | apply preserves_if
    | match goal with |- preserves _ (match ?x with _ => _ end) => destruct x end
    | solve [eauto with endpoints] ].

(** ** The adapters in the shared router *)

Section RouterInvariant.
Context (prov : providers).

(** The adapter [store_api_key] registers under the name [n]. *)
Definition model_for (n : string) (m : AIModel pworld) : Prop :=
  ((n = "gpt-4" \/ n = "gpt-3.5-turbo") /\ m = OpenAIModel prov) \/
  (n = "claude" /\ exists key, m = AnthropicModel prov key).

(** The router holds a well-formed dict of such adapters. *)
Definition router_ok (r : ModelRouter pworld) : Prop :=
  dict_wf (models r) /\ forall n m, get_model r n = Some m -> model_for n m.

Lemma router_ok_new : router_ok new_router.
Proof. split; [apply router_reachable_wf, reach_new|done]. Qed.

Lemma router_ok_register r n m : model_for n m -> router_ok r -> router_ok (register_model r n m).
Proof.
  intros Hm [Hwf Hr]. split; [by apply dict_setitem_wf|].
  intros n' m'. rewrite get_model_register. case_decide; [intros [= <-]; by subst|apply Hr].
Qed.

Lemma new_openai_yields key :
  yields (fun m => m = OpenAIModel prov) (on_app_world (new_openai_model prov key)).
Proof. intros s s' a. unfold on_app_world, new_openai_model. st_run. by intros [= _ <-]. Qed.

#[local] Hint Resolve new_openai_yields : endpoints.

Lemma store_api_key_router_ok `{Fernet} `{JsonStrDict} env service key :
  preserves router_ok (store_api_key env prov service key).
Proof.
  unfold store_api_key. preserves_steps;
    apply preserves_register; intros r Hr; (apply router_ok_register; [unfold model_for; eauto|done]).
Qed.
End RouterInvariant.

(** Project the fields of a rebuilt [app] record. *)
Ltac app_proj := cbn [app_keys app_router app_memory app_learnings app_world app_fs] in *.

(** Unfold the lenses and the monad of a handler's run. *)
Ltac app_run :=
  unfold catch_500, on_keys, on_app_world, on_app_fs, on_agent, on_learning, register in *; st_run.

Section EndpointTheorems.
Context `{Fernet} `{JsonStrDict} `{PyParser} `{PyUnparser} `{PyJson} `{PyRepr}.
Context (env : os_env) (prov : providers).
Context (loop_time : pworld -> QArith_base.Q) (now : pworld -> datetime).
Context (agent_dir : string) (agent_files : list string).

Lemma handle_router_ok r :
  preserves (router_ok prov) (handle env prov loop_time now agent_dir agent_files r).
Proof.
  destruct r; simpl; [apply store_api_key_router_ok|..];
    unfold list_services_endpoint, remove_api_key, chat, modify_code, analyze_agent,
      improve_agent, record_learning, get_improvement_plan, learn_from_code;
    preserves_steps.
Qed.

(** C12: the shared router holds only the adapters [store_api_key]
    registers.  In every state a server reaches from its start by any
    sequence of requests, the router's dict is well formed and each name
    it maps is ["gpt-4"] or ["gpt-3.5-turbo"] with an [OpenAIModel], or
    ["claude"] with an [AnthropicModel]: no other handler, and none of
    the agent, learning and improvement systems behind them, touches the
    registry. *)
Theorem reachable_router_ok gk s :
  app_reachable env prov loop_time now agent_dir agent_files gk s -> router_ok prov (app_router s).
Proof.
  induction 1 as [w fs s Hinit|s r _ IH].
  - unfold app_init in Hinit. destruct (new_key_manager _ _ _) as [? [km|]]; [|done].
    injection Hinit as <-. apply router_ok_new.
  - by apply handle_router_ok.
Qed.
Lemma store_api_key_openai_run s key :
  (forall c, env_write env (config_path (app_keys s)) c = WriteOk) ->
  let km := set_keys (app_keys s) (dict_setitem (keys (app_keys s)) "openai"
                                    (fernet_encrypt (fernet_key (app_keys s)) key)) in
  store_api_key env prov "openai" key s =
    (mk_app km (register_model (register_model (app_router s) "gpt-4" (OpenAIModel prov))
                  "gpt-3.5-turbo" (OpenAIModel prov))
       (app_memory s) (app_learnings s) (mk_pworld (Some key))
       (<[config_path (app_keys s) := json_dump_str_dict (keys km)]> (app_fs s)),
     Ok (status_message ("API key for " +:+ "openai" +:+ " stored"))).
Proof.
  intros Hw. unfold store_api_key, new_openai_model, openai_init, store_key, save_keys, fs_write.
  app_run. by rewrite Hw.
Qed.

Lemma remove_key_present_run km fs svc :
  dict_contains (keys km) svc = true ->
  remove_key env svc (km, fs) =
    (let km' := set_keys km (dict_delete (keys km) svc) in
     let '(fs', r) := fs_write env (config_path km) (json_dump_str_dict (keys km')) fs in
     ((km', fs'), res_bind r (fun _ => Ok true))).
Proof.
  intros Hc. unfold remove_key. rewrite Hc. unfold save_keys. st_run.
  by destruct (fs_write _ _ _ _) as [? []].
Qed.

(** C13: one [POST /api/keys] makes the OpenAI models available to every
    system.  Whatever state the server is in, when the key file can be
    written, storing an [openai] key answers success, lists [openai],
    registers [OpenAIModel] under ["gpt-4"] and ["gpt-3.5-turbo"] in the
    router the agent and the learning and improvement systems share,
    sets the global [openai.api_key] that model reads, and leaves the
    agent's memory and the learnings as they were. *)
Theorem store_api_key_openai s key :
  (forall c, env_write env (config_path (app_keys s)) c = WriteOk) ->
  exists s',
    store_api_key env prov "openai" key s =
      (s', Ok (status_message ("API key for " +:+ "openai" +:+ " stored"))) /\
    "openai" ∈ list_services (app_keys s') /\
    get_model (app_router s') "gpt-4" = Some (OpenAIModel prov) /\
    get_model (app_router s') "gpt-3.5-turbo" = Some (OpenAIModel prov) /\
    openai_api_key (app_world s') = Some key /\
    app_memory s' = app_memory s /\ app_learnings s' = app_learnings s.
Proof.
  intros Hw. rewrite (store_api_key_openai_run s key Hw). eexists. split; [reflexivity|].
  cbn [app_keys app_router app_world app_memory app_learnings]. split_and!; try done.
  - unfold list_services. eapply dict_get_Some_keys. apply dict_get_setitem_eq.
  - by rewrite get_model_register, decide_False, get_model_register, decide_True.
  - by rewrite get_model_register, decide_True.
Qed.
(** C10: [DELETE /api/keys/openai] leaves the OpenAI models registered
    and usable.  After storing an [openai] key and removing it again,
    both answered as successes, the key is no longer listed, yet
    ["gpt-4"] and ["gpt-3.5-turbo"] still map to [OpenAIModel] and the
    global [openai.api_key] still holds the removed key: every chat,
    analysis, learning and improvement request keeps using it. *)
Theorem remove_api_key_keeps_models s key s1 s2 v1 v2 :
  store_api_key env prov "openai" key s = (s1, Ok v1) ->
  remove_api_key env "openai" s1 = (s2, Ok v2) ->
  v2 = status_message ("API key for " +:+ "openai" +:+ " removed") /\
  ("openai" ∉ list_services (app_keys s2)) /\
  get_model (app_router s2) "gpt-4" = Some (OpenAIModel prov) /\
  get_model (app_router s2) "gpt-3.5-turbo" = Some (OpenAIModel prov) /\
  openai_api_key (app_world s2) = Some key.
Proof.
  intros Hs Hr. unfold store_api_key, new_openai_model, openai_init, store_key, save_keys, fs_write in Hs.
  app_run. destruct (env_write _ _ _) in Hs; [injection Hs as <- _|discriminate..].
  unfold remove_api_key in Hr. app_run. cbn [app_keys app_fs] in Hr.
  rewrite remove_key_present_run in Hr
    by (unfold dict_contains, set_keys; cbn [keys]; by rewrite dict_get_setitem_eq).
  unfold fs_write in Hr. destruct (env_write _ _ _) in Hr; simpl in Hr; [|discriminate..].
  injection Hr as <- <-. cbn [app_keys app_router app_world]. split_and!; [done| | | |done].
  - unfold list_services, set_keys. cbn [keys]. apply dict_get_None_keys.
    rewrite dict_get_delete. by case_decide.
  - by rewrite get_model_register, decide_False, get_model_register, decide_True.
  - by rewrite get_model_register, decide_True.
Qed.
(** C11: the 400 of [POST /api/agent/improve] comes out as a 500.  When
    [implement_improvements] reports an error, the handler raises
    [HTTPException(400, error)] inside its own [try]; the
    [except Exception] catches it and raises a 500 whose detail is
    [str()] of the 400, ["400: <error>"]. *)
Theorem improve_agent_400_as_500 s target code w' sugg fs' msg :
  app_fs s !! target = Some code ->
  suggest_improvements (app_router s) code (app_world s) = (w', Ok sugg) ->
  implement_improvements env target sugg (app_fs s) = (fs', Ok (ImproveError msg)) ->
  msg ≠ "" ->
  improve_agent env target "implement" s =
    (mk_app (app_keys s) (app_router s) (app_memory s) (app_learnings s) w' fs',
     Err (HTTPException 500 ("400: " +:+ msg))).
Proof.
  intros Hc Hs Hi Hm. unfold improve_agent, fs_read. app_run.
  rewrite Hc. cbv beta iota. app_proj. rewrite Hs. cbv beta iota. app_proj.
  rewrite (bool_decide_eq_false_2 ("implement" = "analyze_only")), bool_decide_eq_true_2 by done.
  app_proj. rewrite Hi. cbv beta iota. cbn [py_truthy]. rewrite bool_decide_eq_true_2 by done. reflexivity.
Qed.
(** C26: the learning and improvement systems always ask ["gpt-4"]:
    with no OpenAI key stored (a Claude key only, say), an improvement
    request for an existing file answers [analyze_only] with the error
    dict of [suggest_improvements] as a success, and [implement] with a
    500 whose detail is ["400: No implementation details provided"]:
    the error dict has no [implementation].  Neither touches the
    state. *)
Theorem improve_agent_without_gpt4 s target code :
  get_model (app_router s) "gpt-4" = None ->
  app_fs s !! target = Some code ->
  improve_agent env target "analyze_only" s =
    (s, Ok (failed_suggestions (ModelNotFoundError ("Model " +:+ "gpt-4" +:+ " not found")))) /\
  improve_agent env target "implement" s =
    (s, Err (HTTPException 500 ("400: " +:+ "No implementation details provided"))).
Proof.
  destruct s as [km r mem ls w fs]. app_proj. intros Hg Hc.
  assert (Hs : suggest_improvements r code w =
    (w, Ok (failed_suggestions (ModelNotFoundError ("Model " +:+ "gpt-4" +:+ " not found"))))).
  { rewrite suggest_improvements_run. unfold route_request. by rewrite Hg. }
  split; unfold improve_agent, fs_read; app_run; app_proj; rewrite Hc; cbv beta iota; app_proj;
    rewrite Hs; cbv beta iota; app_proj.
  - by rewrite bool_decide_eq_true_2.
  - rewrite (bool_decide_eq_false_2 ("implement" = "analyze_only")), bool_decide_eq_true_2 by done.
    app_proj. rewrite (implement_improvements_no_implementation env target _ fs code (PDict []) Hc);
      reflexivity.
Qed.
(** C27: a [POST /api/keys] whose key file cannot be written answers a
    500, yet the key stays in the key manager: [store_key] updates
    [self.keys] before [_save_keys] raises, so [GET /api/keys/services]
    lists the service, while the [try] was left before any model was
    registered. *)
Theorem store_api_key_save_failure s service key e :
  env_write env (config_path (app_keys s))
    (json_dump_str_dict (dict_setitem (keys (app_keys s)) service
                           (fernet_encrypt (fernet_key (app_keys s)) key))) = OpenFails e ->
  exists s',
    store_api_key env prov service key s = (s', Err (HTTPException 500 (exn_str e))) /\
    service ∈ list_services (app_keys s') /\ app_router s' = app_router s /\
    app_world s' = app_world s.
Proof.
  intros Hw. unfold store_api_key, store_key, save_keys, fs_write. app_run.
  unfold set_keys. cbn [keys config_path fernet_key]. rewrite Hw.
  eexists. split; [reflexivity|]. app_proj. split_and!; [|done..].
  unfold list_services, set_keys. cbn [keys]. eapply dict_get_Some_keys. apply dict_get_setitem_eq.
Qed.
End EndpointTheorems.

(** ** Concrete runs

    A server started with the Fernet key ["K1"] on an empty disk, with
    the toy codecs and providers of the other files, and a checkout
    holding [a.py]. *)

#[local] Existing Instances toy_fernet example_keys_json example_parser example_unparser example_json.
#[local] Instance example_repr : PyRepr := {| py_repr _ := "None" |}.

Definition noon (_ : pworld) : datetime := mk_datetime 2024 1 1 12 0 0 0.

Definition app0 : app :=
  mk_app (mk_key_manager "K1" [] default_config_path) new_router [] [] (mk_pworld None) ∅.

Definition app_a : app :=
  mk_app (mk_key_manager "K1" [] default_config_path) new_router [] [] (mk_pworld None) fs_a.

Definition serve (r : request) (s : app) : app * res pyval :=
  handle reliable_env example_providers zero_clock noon "backend/core/agent" [] r s.

Lemma app0_init : app_init "K1" (mk_pworld None) ∅ = Ok app0.
Proof. reflexivity. Defined.

Lemma reachable_router_ok_witness :
  router_ok example_providers (app_router (serve (ReqStoreKey "anthropic" "sk-ant") app0).1).
Proof.
  apply (reachable_router_ok reliable_env example_providers zero_clock noon "backend/core/agent" [] "K1").
  apply app_reach_step. eapply app_reach_init. apply app0_init.
Defined.

Lemma store_api_key_openai_witness :
  exists s',
    store_api_key reliable_env example_providers "openai" "sk-1" app0 =
      (s', Ok (status_message ("API key for " +:+ "openai" +:+ " stored"))) /\
    "openai" ∈ list_services (app_keys s') /\
    get_model (app_router s') "gpt-4" = Some (OpenAIModel example_providers) /\
    get_model (app_router s') "gpt-3.5-turbo" = Some (OpenAIModel example_providers) /\
    openai_api_key (app_world s') = Some "sk-1" /\
    app_memory s' = app_memory app0 /\ app_learnings s' = app_learnings app0.
Proof. apply store_api_key_openai. reflexivity. Defined.

Definition app_stored : app := (serve (ReqStoreKey "openai" "sk-1") app0).1.

Lemma remove_api_key_keeps_models_witness :
  let s2 := (remove_api_key reliable_env "openai" app_stored).1 in
  status_message ("API key for " +:+ "openai" +:+ " removed") =
    status_message ("API key for " +:+ "openai" +:+ " removed") /\
  ("openai" ∉ list_services (app_keys s2)) /\
  get_model (app_router s2) "gpt-4" = Some (OpenAIModel example_providers) /\
  get_model (app_router s2) "gpt-3.5-turbo" = Some (OpenAIModel example_providers) /\
  openai_api_key (app_world s2) = Some "sk-1".
Proof.
  apply (remove_api_key_keeps_models reliable_env example_providers app0 "sk-1" app_stored _
           (status_message ("API key for " +:+ "openai" +:+ " stored")));
    reflexivity.
Defined.

Lemma improve_agent_400_as_500_witness :
  improve_agent reliable_env "a.py" "implement" app_a =
    (mk_app (app_keys app_a) (app_router app_a) (app_memory app_a) (app_learnings app_a)
       (app_world app_a) fs_a,
     Err (HTTPException 500 ("400: " +:+ "No implementation details provided"))).
Proof.
  apply (improve_agent_400_as_500 reliable_env app_a "a.py" "x = 1" (app_world app_a)
           (failed_suggestions (ModelNotFoundError ("Model " +:+ "gpt-4" +:+ " not found"))));
    [reflexivity..|discriminate].
Defined.

Lemma improve_agent_without_gpt4_witness :
  improve_agent reliable_env "a.py" "analyze_only" app_a =
    (app_a, Ok (failed_suggestions (ModelNotFoundError ("Model " +:+ "gpt-4" +:+ " not found")))) /\
  improve_agent reliable_env "a.py" "implement" app_a =
    (app_a, Err (HTTPException 500 ("400: " +:+ "No implementation details provided"))).
Proof. apply (improve_agent_without_gpt4 reliable_env app_a "a.py" "x = 1"); reflexivity. Defined.

Lemma store_api_key_save_failure_witness :
  exists s',
    store_api_key read_only_env example_providers "openai" "sk-1" app0 =
      (s', Err (HTTPException 500
                  (exn_str (OSError ("[Errno 13] Permission denied: " +:+ quoted "config/keys.json"))))) /\
    "openai" ∈ list_services (app_keys s') /\ app_router s' = app_router app0 /\
    app_world s' = app_world app0.
Proof. apply store_api_key_save_failure. reflexivity. Defined.
